(** * FlowBit: anomaly scoring (agents/json_agent.py) and action dispatch
      (core/action_router.py), embedded in Rocq.

    Conventions of the embedding.
    - Python [float]s are modelled by rationals [Q]; equality of scores is
      [Qeq] ([==]).  Rounding, infinities and NaN are not modelled; the
      [OverflowError] of [float] on an integer beyond the range of a float
      is.
    - A Python [dict] that is iterated ([data.items()], [data.values()],
      [len(data)]) is an association list in insertion order; the dictionaries
      that are only looked up and updated by key ([historical_data], the
      counters of the memory store) are [gmap]s.
    - A function that may raise returns [pyres]; a function that also mutates
      the object it is called on returns the new state next to its result, and
      the state is returned whether or not the call raised.
    - Library calls of the agent ([datetime.fromisoformat], [np.mean],
      [np.std], [jsonschema.validate], [str], [hash]) are the fields of the
      class [Library]; every theorem holds for every instance.
    - Time is a clock in the state: a call of a handler advances it by the
      duration of the call, [asyncio.sleep(d)] by [d], nothing else does. *)

From Stdlib Require Import QArith Qabs Qround Qminmax Lqa ZArith Lia List Ascii String Bool.
From stdpp Require Import base option list strings gmap pretty.

Set Warnings "-register-all".

Local Open Scope Z_scope.
Local Open Scope string_scope.
Local Open Scope list_scope.

(** ** Python values, exceptions and results *)

Module Py.

Inductive pyval : Type :=
| VNone
| VBool (b : bool)
| VInt (z : Z)
| VFloat (q : Q)
| VStr (s : string)
| VList (l : list pyval)
| VDict (d : list (string * pyval)).

(** A record is a [dict] with [str] keys, in insertion order. *)
Definition pydict : Type := list (string * pyval).

Inductive exn_class : Type :=
| AttributeError
| TypeError
| ValueError
| ConnectionError
| OverflowError
| OtherError.

(** An exception (an instance of a subclass of [Exception]); [exn_msg] is
    what [str(e)] returns. *)
Record exn : Type := Exn { exn_cls : exn_class; exn_msg : string }.

Inductive pyres (A : Type) : Type :=
| Ok (a : A)
| Raise (e : exn).
Arguments Ok {A} a.
Arguments Raise {A} e.

(** [key in d] and [d[key]] / [d.get(key)]: the first binding of [key]. *)
Fixpoint dict_get (key : string) (d : pydict) : option pyval :=
  match d with
  | [] => None
  | (k, v) :: d' => if String.eqb k key then Some v else dict_get key d'
  end.

(** [isinstance(v, (int, float))]: [bool] is a subclass of [int]. *)
Definition isinstance_number (v : pyval) : bool :=
  match v with
  | VInt _ | VFloat _ | VBool _ => true
  | _ => false
  end.

Definition isinstance_int (v : pyval) : bool :=
  match v with
  | VInt _ | VBool _ => true
  | _ => false
  end.

Definition isinstance_bool (v : pyval) : bool :=
  match v with
  | VBool _ => true
  | _ => false
  end.

Definition isinstance_str (v : pyval) : bool :=
  match v with
  | VStr _ => true
  | _ => false
  end.

(** The least magnitude of an [int] that [float] refuses: the conversion
    rounds to nearest, ties to even, so it overflows from
    [2^1024 - 2^970] on, half an ulp above the largest float. *)
Definition float_overflow : Z := 2 ^ 1024 - 2 ^ 970.

(** [float(v)] for a value that passed [isinstance(v, (int, float))]: an
    [int] beyond the range of a float raises [OverflowError], a [float] is
    returned as it is, a [bool] gives 1.0 or 0.0.  (The other values never
    reach the calls of the embedded code; [float] has no conversion for
    [None], a list or a dict.) *)
Definition float_of (v : pyval) : pyres Q :=
  match v with
  | VInt z =>
      if (Z.abs z <? float_overflow)%Z then Ok (inject_Z z)
      else Raise (Exn OverflowError "int too large to convert to float")
  | VFloat q => Ok q
  | VBool b => Ok (if b then 1%Q else 0%Q)
  | _ => Raise (Exn TypeError "float() argument must be a string or a real number")
  end.

(** [max(a, b)] and [min(a, b)] of the interpreter: the first argument is
    kept unless the second is strictly larger (smaller). *)
Definition py_max (a b : Q) : Q := if Qlt_le_dec a b then b else a.
Definition py_min (a b : Q) : Q := if Qlt_le_dec b a then b else a.

(** [a < b] and [a > b] on floats. *)
Definition flt (a b : Q) : bool := if Qlt_le_dec a b then true else false.
Definition fgt (a b : Q) : bool := flt b a.

(** [l[-n:]]: the last [n] elements ([n > 0]). *)
Definition last_n {A : Type} (n : nat) (l : list A) : list A :=
  drop (length l - n) l.

(** *** Strings (ASCII text) *)

Definition lower_ascii (c : ascii) : ascii :=
  let n := nat_of_ascii c in
  if (65 <=? n)%nat && (n <=? 90)%nat then ascii_of_nat (n + 32) else c.

(** [s.lower()] *)
Fixpoint lower (s : string) : string :=
  match s with
  | EmptyString => EmptyString
  | String c s' => String (lower_ascii c) (lower s')
  end.

(** [s.startswith(p)] *)
Fixpoint starts_with (p s : string) : bool :=
  match p with
  | EmptyString => true
  | String a p' =>
      match s with
      | EmptyString => false
      | String b s' => Ascii.eqb a b && starts_with p' s'
      end
  end.

(** [pattern in s] *)
Fixpoint contains (pattern s : string) : bool :=
  starts_with pattern s
  || match s with
     | EmptyString => false
     | String _ s' => contains pattern s'
     end.

(** [s.replace('Z', '+00:00')] *)
Fixpoint replace_Z (s : string) : string :=
  match s with
  | EmptyString => EmptyString
  | String c s' =>
      if Ascii.eqb c "Z"%char then "+00:00" +:+ replace_Z s'
      else String c (replace_Z s')
  end.

End Py.

(** ** models/schemas.py *)

Module Schemas.
Import Py.

Inductive UrgencyLevel : Type := LOW | MEDIUM | HIGH | CRITICAL.

Inductive ActionType : Type :=
| ESCALATE
| LOG_AND_CLOSE
| FLAG_ANOMALY
| COMPLIANCE_ALERT
| RISK_ALERT
| CREATE_TICKET.

(** The value of each member of [ActionType]. *)
Definition action_type_value (t : ActionType) : string :=
  match t with
  | ESCALATE => "escalate"
  | LOG_AND_CLOSE => "log_and_close"
  | FLAG_ANOMALY => "flag_anomaly"
  | COMPLIANCE_ALERT => "compliance_alert"
  | RISK_ALERT => "risk_alert"
  | CREATE_TICKET => "create_ticket"
  end.

Record JSONValidationResult : Type := {
  is_valid : bool;
  schema_errors : list string;
  anomalies : list string;
  anomaly_score : Q;
  missing_fields : list string;
  type_errors : list string
}.

Record ActionRequest : Type := {
  action_type : ActionType;
  payload : pydict;
  priority : UrgencyLevel;
  source_agent : string;
  correlation_id : string
}.

(** [timestamp] (filled with [datetime.utcnow] by default) is left out. *)
Record ActionResult : Type := {
  action_id : string;
  res_action_type : ActionType;
  status : string;
  response_data : option pydict;
  error_message : option string;
  execution_time_ms : option Q
}.

#[global] Instance ActionType_eq_dec : EqDecision ActionType.
Proof. solve_decision. Defined.

#[global] Instance UrgencyLevel_eq_dec : EqDecision UrgencyLevel.
Proof. solve_decision. Defined.

End Schemas.

(** ** core/memory_store.py: the part the agents and the router call *)

(** [MemoryEntry] of models/schemas.py; [timestamp] is the datetime by its
    [isoformat()], the only use [store_entry] makes of it. *)
Module MemoryEntry.
Import Py.

Record t : Type := {
  key : string;
  value : pyval;
  entry_type : string;
  agent_source : string;
  timestamp : string;
  ttl_seconds : option Z
}.

End MemoryEntry.

Module MemoryStore.
Import Py.

(** The fields [redis_client] and [is_connected] of the global
    [memory_store] object.  [__init__] leaves the client [None]; [connect]
    creates it and sets [is_connected] only after a ping that was answered, so
    a connected store always has a client. *)
Inductive link : Type :=
| NoClient      (* redis_client is None, is_connected is False *)
| Unverified    (* redis_client is set, is_connected is False *)
| Connected.    (* redis_client is set, is_connected is True *)

(** The object together with the Redis server behind it: [redis_up] says
    whether the server answers, [counters] are the keys [counter:<name>] it
    holds and [entries] the keys [memory:<key>], each with the value that was
    serialized into it (expiry is not modelled). *)
Record t : Type := {
  client : link;
  redis_up : bool;
  counters : gmap string Z;
  entries : gmap string pyval
}.

Definition is_connected (ms : t) : bool :=
  match client ms with
  | Connected => true
  | _ => false
  end.

Definition set_client (l : link) (ms : t) : t :=
  {| client := l; redis_up := redis_up ms; counters := counters ms;
     entries := entries ms |}.

(** [connect]: creates the client and pings the server; when the ping
    fails [is_connected] is set to [False] and the exception re-raised. *)
Definition connect (ms : t) : pyres unit * t :=
  if redis_up ms then (Ok tt, set_client Connected ms)
  else (Raise (Exn ConnectionError "Error connecting to Redis"),
        set_client Unverified ms).

(** [get_memory_store]: connects first when the store is not connected. *)
Definition get_memory_store (ms : t) : pyres unit * t :=
  if is_connected ms then (Ok tt, ms) else connect ms.

(** A command sent through [self.redis_client]: on [None] the attribute
    lookup raises [AttributeError]; a server that does not answer gives
    [ConnectionError]; otherwise the command [run] is carried out. *)
Definition command {A : Type} (method : string) (run : t -> pyres A * t) (ms : t)
    : pyres A * t :=
  match client ms with
  | NoClient =>
      (Raise (Exn AttributeError
                ("'NoneType' object has no attribute '" +:+ method +:+ "'")), ms)
  | _ =>
      if redis_up ms then run ms
      else (Raise (Exn ConnectionError "Error connecting to Redis"), ms)
  end.

(** [increment_counter]: [incrby] on the server; every exception is logged
    and swallowed, the call then returns 0. *)
Definition increment_counter (counter_name : string) (ms : t) : Z * t :=
  match command "incrby"
          (fun ms =>
             let v := default 0 (counters ms !! counter_name) + 1 in
             (Ok v, {| client := client ms; redis_up := redis_up ms;
                       counters := <[counter_name := v]> (counters ms);
                       entries := entries ms |})) ms with
  | (Ok v, ms') => (v, ms')
  | (Raise _, ms') => (0, ms')
  end.

(** What [store_entry] is called with: a [MemoryEntry], as its signature
    says, or a [dict], as [_handle_log_and_close] passes. *)
Inductive entry_argument : Type :=
| AnEntry (entry : MemoryEntry.t)
| ADict (d : pydict).

(** [entry.key] *)
Definition entry_key (entry : entry_argument) : pyres string :=
  match entry with
  | AnEntry e => Ok (MemoryEntry.key e)
  | ADict _ => Raise (Exn AttributeError "'dict' object has no attribute 'key'")
  end.

(** The [try] block of [store_entry] up to its [return True]: [entry.key]
    is read first; the value is written with [setex] when [ttl_seconds] is
    set and not 0 (the server refuses an expiry that is not positive), with
    [set] otherwise. *)
Definition store_entry_body (entry : entry_argument) (ms : t) : pyres unit * t :=
  match entry with
  | ADict _ => (Raise (Exn AttributeError "'dict' object has no attribute 'key'"), ms)
  | AnEntry e =>
      let key := "memory:" +:+ MemoryEntry.key e in
      let value := VDict [("value", MemoryEntry.value e);
                          ("entry_type", VStr (MemoryEntry.entry_type e));
                          ("agent_source", VStr (MemoryEntry.agent_source e));
                          ("timestamp", VStr (MemoryEntry.timestamp e))] in
      let write (ms : t) : pyres unit * t :=
        (Ok tt, {| client := client ms; redis_up := redis_up ms;
                   counters := counters ms;
                   entries := <[key := value]> (entries ms) |}) in
      match MemoryEntry.ttl_seconds e with
      | Some ttl =>
          if (ttl =? 0)%Z then command "set" write ms
          else
            command "setex"
              (fun ms => if (0 <? ttl)%Z then write ms
                         else (Raise (Exn OtherError "invalid expire time in 'setex' command"),
                               ms)) ms
      | None => command "set" write ms
      end
  end.

(** [store_entry]: [True] when the [try] block went through; its
    [except Exception] block logs a message that reads [entry.key] again, and
    returns [False] when that did not raise. *)
Definition store_entry (entry : entry_argument) (ms : t) : pyres bool * t :=
  match store_entry_body entry ms with
  | (Ok _, ms') => (Ok true, ms')
  | (Raise _, ms') =>
      match entry_key entry with
      | Ok _ => (Ok false, ms')
      | Raise e' => (Raise e', ms')
      end
  end.

End MemoryStore.

(** ** agents/json_agent.py *)

Module JsonAgent.
Import Py Schemas.

(** A [datetime]: [dt_aware] tells whether it carries a UTC offset,
    [dt_micros] is its instant in microseconds (UTC for an aware one, wall
    clock for a naive one). *)
Record datetime : Type := { dt_aware : bool; dt_micros : Z }.

(** What [jsonschema.validate(data, schema)] does: it returns, raises
    [ValidationError], or raises something else; the string is [str(e)]. *)
Inductive schema_outcome : Type :=
| SchemaValid
| SchemaValidationError (msg : string)
| SchemaOtherError (msg : string).

(** The library functions the agent calls.  [fromisoformat] answers [None]
    where Python raises [ValueError]; [jsonschema_validate] takes the schema
    by its registry key; [isoformat] is the method of the value of
    [datetime.utcnow()], which is given by its POSIX timestamp;
    [str_of_int] is [str] on an [int].  The standard deviation is not
    negative. *)
Class Library : Type := {
  fromisoformat : string -> option datetime;
  np_mean : list Q -> Q;
  np_std : list Q -> Q;
  jsonschema_validate : pydict -> string -> schema_outcome;
  py_str : pydict -> string;
  py_hash : string -> Z;
  str_of_int : Z -> string;
  isoformat : Q -> string;
  np_std_nonneg : forall l, (0 <= np_std l)%Q
}.

(** [self.historical_data], a [defaultdict(list)].  The keys
    [f"{schema_type}_amounts"] hold floats and the keys
    [f"{schema_type}_timestamps"] hold datetimes; no key is of both forms
    (lemma [amounts_key_ne_timestamps_key]), so the dictionary is kept as two
    maps, each indexed by the full key. *)
Record History : Type := {
  hist_amounts : gmap string (list Q);
  hist_timestamps : gmap string (list datetime)
}.

Definition amounts_key (schema_type : string) : string := schema_type +:+ "_amounts".
Definition timestamps_key (schema_type : string) : string := schema_type +:+ "_timestamps".

(** [self.historical_data.get(key, [])] *)
Definition get_amounts (h : History) (key : string) : list Q :=
  default [] (hist_amounts h !! key).
Definition get_timestamps (h : History) (key : string) : list datetime :=
  default [] (hist_timestamps h !! key).

(** The state of a fresh [JSONAgent()]. *)
Definition empty_history : History :=
  {| hist_amounts := ∅; hist_timestamps := ∅ |}.

(** *** Configuration set by [__init__] *)

Definition name : string := "json_agent".
Definition anomaly_threshold : Q := 0.8.
Definition threshold_multiplier : Q := 3.
Definition min_samples : nat := 10.
Definition rapid_succession : nat := 5.
Definition time_window_minutes : Z := 5.
Definition null_percentage_threshold : Q := 0.3.

Definition schema_registry : list string :=
  ["webhook"; "invoice"; "transaction"; "user_event"].

Definition amount_fields : list string := ["amount"; "total"; "value"; "price"].

(** What a sub-detector returns when it fires (the dict with the keys
    ["anomalies"] and ["score"]); [None] is Python's [None]. *)
Record finding : Type := { f_anomalies : list string; f_score : Q }.

(** The report [_detect_anomalies] returns. *)
Record report : Type := {
  r_is_normal : bool;
  r_anomalies : list string;
  r_anomaly_score : Q
}.

(** [timedelta(minutes=m)] in microseconds. *)
Definition timedelta_minutes (m : Z) : Z := m * 60 * 1000000.

(** [current_time - ts < time_window]; subtracting a naive from an aware
    datetime (or the reverse) raises [TypeError]. *)
Definition within_window (current_time ts : datetime) (time_window : Z) : option bool :=
  if Bool.eqb (dt_aware current_time) (dt_aware ts)
  then Some (dt_micros current_time - dt_micros ts <? time_window)%Z
  else None.

(** [sum(1 for ts in recent_events if current_time - ts < time_window)];
    [None] when a subtraction raised [TypeError]. *)
Fixpoint count_recent (current_time : datetime) (time_window : Z)
    (recent_events : list datetime) : option nat :=
  match recent_events with
  | [] => Some 0%nat
  | ts :: rest =>
      match within_window current_time ts time_window with
      | None => None
      | Some b =>
          match count_recent current_time time_window rest with
          | None => None
          | Some n => Some (if b then S n else n)
          end
      end
  end.

(** [min(a / b, 1.0)] where [a / b] is a division of [np.float64]: for
    [b = 0] and [a > 0] numpy answers [inf] (with a warning), and
    [min(inf, 1.0)] is [1.0]. *)
Definition min_ratio_one (a b : Q) : Q :=
  if Qeq_bool b 0 then 1%Q else py_min (a / b) 1.

(** The name of the type of a value, as [AttributeError] prints it. *)
Definition type_name (v : pyval) : string :=
  match v with
  | VNone => "NoneType"
  | VBool _ => "bool"
  | VInt _ => "int"
  | VFloat _ => "float"
  | VStr _ => "str"
  | VList _ => "list"
  | VDict _ => "dict"
  end.

(** [datetime.fromisoformat(v.replace('Z', '+00:00'))] as the two [try]
    blocks of the agent see it: only [str] has the method [replace], so any
    other value raises [AttributeError], which their
    [except (ValueError, TypeError)] does not catch. *)
Inductive parse_outcome : Type :=
| Parsed (t : datetime)
| ParseValueError
| ParseAttributeError (e : exn).

Definition no_attribute_replace (v : pyval) : exn :=
  Exn AttributeError ("'" +:+ type_name v +:+ "' object has no attribute 'replace'").

Section WithLibrary.
Context {L : Library}.

Definition parse_timestamp (v : pyval) : parse_outcome :=
  match v with
  | VStr s =>
      match fromisoformat (replace_Z s) with
      | Some t => Parsed t
      | None => ParseValueError
      end
  | _ => ParseAttributeError (no_attribute_replace v)
  end.

(** The loop of [_check_amount_anomaly] over the remaining [fields];
    [float(data[field])] comes before the history is looked at, and the
    [OverflowError] it may raise is not caught. *)
Fixpoint check_amount_fields (h : History) (data : pydict) (schema_type : string)
    (fields : list string) : pyres (option finding) :=
  match fields with
  | [] => Ok None
  | field :: rest =>
      match dict_get field data with
      | Some v =>
          if isinstance_number v then
            match float_of v with
            | Raise e => Raise e
            | Ok amount =>
                let historical_amounts := get_amounts h (amounts_key schema_type) in
                if (min_samples <=? length historical_amounts)%nat then
                  let mean_amount := np_mean historical_amounts in
                  let std_amount := np_std historical_amounts in
                  let threshold := threshold_multiplier in
                  if fgt (Qabs (amount - mean_amount)) (threshold * std_amount) then
                    Ok (Some {| f_anomalies := ["unusual_" +:+ field +:+ "_amount"];
                                f_score := min_ratio_one (Qabs (amount - mean_amount))
                                                         (threshold * std_amount) |})
                  else check_amount_fields h data schema_type rest
                else check_amount_fields h data schema_type rest
            end
          else check_amount_fields h data schema_type rest
      | None => check_amount_fields h data schema_type rest
      end
  end.

Definition _check_amount_anomaly (h : History) (data : pydict) (schema_type : string)
    : pyres (option finding) :=
  check_amount_fields h data schema_type amount_fields.

Definition invalid_timestamp : finding :=
  {| f_anomalies := ["invalid_timestamp_format"]; f_score := 0.5 |}.

Definition _check_pattern_anomaly (h : History) (data : pydict) (schema_type : string)
    : pyres (option finding) :=
  match dict_get "timestamp" data with
  | None => Ok None
  | Some v =>
      match parse_timestamp v with
      | ParseAttributeError e => Raise e
      | ParseValueError => Ok (Some invalid_timestamp)
      | Parsed current_time =>
          let recent_events := get_timestamps h (timestamps_key schema_type) in
          let time_window := timedelta_minutes time_window_minutes in
          match count_recent current_time time_window recent_events with
          | None => Ok (Some invalid_timestamp)
          | Some recent_count =>
              if (rapid_succession <=? recent_count)%nat then
                Ok (Some {| f_anomalies := ["rapid_succession_events"];
                            f_score := py_min (inject_Z (Z.of_nat recent_count) / 10) 1 |})
              else Ok None
          end
      end
  end.

(** [value is None or value == ""] *)
Definition is_null (v : pyval) : bool :=
  match v with
  | VNone => true
  | VStr s => String.eqb s ""
  | _ => false
  end.

Definition sql_patterns : list string :=
  ["select "; "drop "; "insert "; "delete "; "update "; "union "].
Definition script_patterns : list string :=
  ["<script"; "javascript:"; "eval("; "alert("].

(** [any(pattern in value.lower() for pattern in patterns)] *)
Definition any_pattern (patterns : list string) (value : string) : bool :=
  existsb (fun pattern => contains pattern (lower value)) patterns.

(** One turn of the loop [for key, value in data.items()] of
    [_check_data_quality], on the pair [(anomalies, max_score)]. *)
Definition quality_step (acc : list string * Q) (item : string * pyval)
    : list string * Q :=
  match snd item with
  | VStr value =>
      let acc1 :=
        if any_pattern sql_patterns value
        then (fst acc ++ ["potential_sql_injection"], py_max (snd acc) 0.9)
        else acc in
      if any_pattern script_patterns value
      then (fst acc1 ++ ["potential_script_injection"], py_max (snd acc1) 0.9)
      else acc1
  | _ => acc
  end.

Definition _check_data_quality (data : pydict) : option finding :=
  let total_fields := length data in
  let null_fields := length (List.filter (fun item => is_null (snd item)) data) in
  let acc0 : list string * Q :=
    if (0 <? total_fields)%nat then
      let null_percentage :=
        (inject_Z (Z.of_nat null_fields) / inject_Z (Z.of_nat total_fields))%Q in
      if fgt null_percentage null_percentage_threshold
      then (["excessive_null_values"], py_max 0 null_percentage)
      else ([], 0%Q)
    else ([], 0%Q) in
  let acc := fold_left quality_step data acc0 in
  match fst acc with
  | [] => None
  | _ :: _ => Some {| f_anomalies := fst acc; f_score := snd acc |}
  end.

(** The registry [expected_types] of [_check_type_anomalies], each type by
    its [isinstance] test, in the order of the dict literal. *)
Definition expected_types : list (string * (pyval -> bool)) :=
  [("id", isinstance_str);
   ("user_id", isinstance_str);
   ("amount", isinstance_number);
   ("timestamp", isinstance_str);
   ("count", isinstance_int);
   ("active", isinstance_bool);
   ("email", isinstance_str)].

Definition type_step (data : pydict) (anomalies : list string)
    (entry : string * (pyval -> bool)) : list string :=
  match dict_get (fst entry) data with
  | Some v =>
      if snd entry v then anomalies
      else anomalies ++ ["unexpected_type_" +:+ fst entry]
  | None => anomalies
  end.

(** The score [len(anomalies) * 0.2] is the exact product here; the float
    of the code can differ from it in the last place (for three mismatches
    it is 0.6000000000000001). *)
Definition _check_type_anomalies (data : pydict) (schema_type : string)
    : option finding :=
  let anomalies := fold_left (type_step data) expected_types [] in
  match anomalies with
  | [] => None
  | _ :: _ =>
      Some {| f_anomalies := anomalies;
              f_score := (inject_Z (Z.of_nat (length anomalies)) * 0.2)%Q |}
  end.

(** [if sub: anomalies.extend(sub["anomalies"]);
            anomaly_score = max(anomaly_score, sub["score"])] *)
Definition absorb (acc : list string * Q) (sub : option finding) : list string * Q :=
  match sub with
  | Some f => (fst acc ++ f_anomalies f, py_max (snd acc) (f_score f))
  | None => acc
  end.

Definition _detect_anomalies (h : History) (data : pydict) (schema_type : string)
    : pyres report :=
  let acc0 : list string * Q := ([], 0%Q) in
  match _check_amount_anomaly h data schema_type with
  | Raise e => Raise e
  | Ok amount_anomaly =>
      let acc1 := absorb acc0 amount_anomaly in
      match _check_pattern_anomaly h data schema_type with
      | Raise e => Raise e
      | Ok pattern_anomaly =>
          let acc2 := absorb acc1 pattern_anomaly in
          let acc3 := absorb acc2 (_check_data_quality data) in
          let acc4 := absorb acc3 (_check_type_anomalies data schema_type) in
          Ok {| r_is_normal := flt (snd acc4) anomaly_threshold;
                r_anomalies := fst acc4;
                r_anomaly_score := py_min (snd acc4) 1 |}
      end
  end.

(** [s.split("'")[1]] for a string [s] that contains a quote. *)
Fixpoint after_quote (s : string) : string :=
  match s with
  | EmptyString => EmptyString
  | String c s' => if Ascii.eqb c "'"%char then s' else after_quote s'
  end.

Fixpoint until_quote (s : string) : string :=
  match s with
  | EmptyString => EmptyString
  | String c s' =>
      if Ascii.eqb c "'"%char then EmptyString else String c (until_quote s')
  end.

Definition _validate_schema (data : pydict) (schema_type : string)
    : JSONValidationResult :=
  let passed :=
    {| is_valid := true; schema_errors := []; anomalies := [];
       anomaly_score := 0%Q; missing_fields := []; type_errors := [] |} in
  if negb (existsb (String.eqb schema_type) schema_registry) then passed
  else
    match jsonschema_validate data schema_type with
    | SchemaValid => passed
    | SchemaValidationError msg =>
        {| is_valid := false;
           schema_errors := [msg];
           anomalies := ["schema_validation_failure"];
           anomaly_score := 0.7%Q;
           missing_fields :=
             if contains "required" msg
             then [if contains "'" msg then until_quote (after_quote msg)
                   else "unknown"]
             else [];
           type_errors := if contains "type" msg then [msg] else [] |}
    | SchemaOtherError msg =>
        {| is_valid := false;
           schema_errors := ["Validation error: " +:+ msg];
           anomalies := ["validation_error"];
           anomaly_score := 0.8%Q;
           missing_fields := [];
           type_errors := [] |}
    end.

(** [int(x)] of a float: truncation towards zero. *)
Definition py_int (x : Q) : Z := Z.quot (Qnum x) (Zpos (Qden x)).

Definition str_list (l : list string) : pyval := VList (map VStr l).

Definition high_risk_anomalies : list string :=
  ["potential_sql_injection"; "potential_script_injection";
   "rapid_succession_events"; "unusual_amount"].

(** [now] is the POSIX timestamp of [datetime.utcnow()]. *)
Definition _generate_actions (now : Q) (result : JSONValidationResult)
    (data : pydict) (schema_type : string) : list ActionRequest :=
  let actions :=
    if negb (is_valid result) || fgt (anomaly_score result) anomaly_threshold then
      [{| action_type := FLAG_ANOMALY;
          payload :=
            [("anomaly_type", VStr "json_validation_anomaly");
             ("schema_type", VStr schema_type);
             ("anomaly_score", VFloat (anomaly_score result));
             ("details",
              VDict [("schema_errors", str_list (schema_errors result));
                     ("anomalies", str_list (anomalies result));
                     ("missing_fields", str_list (missing_fields result));
                     ("type_errors", str_list (type_errors result))]);
             ("data_preview", VStr (String.substring 0 500 (py_str data)))];
          priority := if fgt (anomaly_score result) 0.8 then HIGH else MEDIUM;
          source_agent := name;
          correlation_id :=
            "json_anomaly_" +:+ str_of_int (py_hash (py_str data)) +:+ "_"
            +:+ str_of_int (py_int now) |}]
    else [] in
  if existsb (fun anomaly => existsb (String.eqb anomaly) (anomalies result))
             high_risk_anomalies
  then
    actions ++
    [{| action_type := RISK_ALERT;
        payload :=
          [("risk_type", VStr "data_security");
           ("risk_score", VFloat (anomaly_score result));
           ("risk_indicators", str_list (anomalies result));
           ("affected_entities",
            VList [default (VStr "unknown") (dict_get "user_id" data)]);
           ("data_context",
            VDict [("schema_type", VStr schema_type);
                   ("timestamp", VStr (isoformat now))])];
        priority := CRITICAL;
        source_agent := name;
        correlation_id :=
          "json_risk_" +:+ str_of_int (py_hash (py_str data)) +:+ "_"
          +:+ str_of_int (py_int now) |}]
  else actions.

(** [self.historical_data[key].append(x)] followed by the trim
    [if len(...) > capacity: ... = ...[-capacity:]]. *)
Definition append_trim {A : Type} (capacity : nat) (window : list A) (x : A) : list A :=
  let window' := window ++ [x] in
  if (capacity <? length window')%nat then last_n capacity window' else window'.

Definition append_amount (key : string) (x : Q) (h : History) : History :=
  {| hist_amounts :=
       <[key := append_trim 1000 (get_amounts h key) x]> (hist_amounts h);
     hist_timestamps := hist_timestamps h |}.

Definition append_timestamp (key : string) (t : datetime) (h : History) : History :=
  {| hist_amounts := hist_amounts h;
     hist_timestamps :=
       <[key := append_trim 100 (get_timestamps h key) t]> (hist_timestamps h) |}.

(** [self.historical_data[key]] on the [defaultdict]: a key that is
    missing is entered with an empty list. *)
Definition touch_amounts (key : string) (h : History) : History :=
  {| hist_amounts := <[key := get_amounts h key]> (hist_amounts h);
     hist_timestamps := hist_timestamps h |}.

(** One turn of the loop [for field in amount_fields] of
    [_update_historical_data], on the outcome of the turns before it: once
    [float] has raised the loop is over.  In
    [self.historical_data[key].append(float(data[field]))] the list is looked
    up before the argument is computed, so the key is entered even when
    [float] raises. *)
Definition update_amount_step (data : pydict) (schema_type : string)
    (acc : pyres unit * History) (field : string) : pyres unit * History :=
  match acc with
  | (Raise e, h) => (Raise e, h)
  | (Ok _, h) =>
      match dict_get field data with
      | Some v =>
          if isinstance_number v then
            match float_of v with
            | Ok x => (Ok tt, append_amount (amounts_key schema_type) x h)
            | Raise e => (Raise e, touch_amounts (amounts_key schema_type) h)
            end
          else (Ok tt, h)
      | None => (Ok tt, h)
      end
  end.

Definition _update_historical_data (h : History) (data : pydict)
    (schema_type : string) : pyres unit * History :=
  match fold_left (update_amount_step data schema_type) amount_fields (Ok tt, h) with
  | (Raise e, h1) => (Raise e, h1)
  | (Ok _, h1) =>
      match dict_get "timestamp" data with
      | None => (Ok tt, h1)
      | Some v =>
          match parse_timestamp v with
          | Parsed timestamp =>
              (Ok tt, append_timestamp (timestamps_key schema_type) timestamp h1)
          | ParseValueError => (Ok tt, h1)
          | ParseAttributeError e => (Raise e, h1)
          end
      end
  end.

(** The agent object and the memory store it reaches through
    [get_memory_store]. *)
Record state : Type := {
  historical_data : History;
  memory : MemoryStore.t
}.

(** The [combined_result] of [process_json].  Its [anomaly_score] has to
    lie in [0, 1] for the constructor to accept it, which holds for every
    report of [_detect_anomalies]. *)
Definition combine (validation_result : JSONValidationResult)
    (anomaly_result : report) : JSONValidationResult :=
  {| is_valid := is_valid validation_result && r_is_normal anomaly_result;
     schema_errors := schema_errors validation_result;
     anomalies := r_anomalies anomaly_result;
     anomaly_score := r_anomaly_score anomaly_result;
     missing_fields := missing_fields validation_result;
     type_errors := type_errors validation_result |}.

(** [process_json] from its line 105 on, that is for [json_content] a dict
    or a string that [json.loads] turned into one.  The [AgentDecision] it
    builds is never used and is left out. *)
Definition process_json (now : Q) (data : pydict) (schema_type : string) (st : state)
    : pyres (JSONValidationResult * list ActionRequest) * state :=
  let validation_result := _validate_schema data schema_type in
  match _detect_anomalies (historical_data st) data schema_type with
  | Raise e => (Raise e, st)
  | Ok anomaly_result =>
      let combined_result := combine validation_result anomaly_result in
      let actions := _generate_actions now combined_result data schema_type in
      let '(updated, h') :=
        _update_historical_data (historical_data st) data schema_type in
      match updated with
      | Raise e => (Raise e, {| historical_data := h'; memory := memory st |})
      | Ok _ =>
          let '(got, m0) := MemoryStore.get_memory_store (memory st) in
          match got with
          | Raise e => (Raise e, {| historical_data := h'; memory := m0 |})
          | Ok _ =>
              let m1 := snd (MemoryStore.increment_counter "json_processed" m0) in
              let m2 :=
                snd (MemoryStore.increment_counter ("schema_" +:+ schema_type) m1) in
              let m3 :=
                if negb (is_valid combined_result)
                then snd (MemoryStore.increment_counter "json_validation_failures" m2)
                else m2 in
              let m4 :=
                if fgt (anomaly_score combined_result) anomaly_threshold
                then snd (MemoryStore.increment_counter "anomalies_detected" m3)
                else m3 in
              (Ok (combined_result, actions),
               {| historical_data := h'; memory := m4 |})
          end
      end
  end.

End WithLibrary.

End JsonAgent.

(** ** core/action_router.py *)

Module ActionRouter.
Import Py Schemas.

Section WithHandlers.

(** [HState] is whatever the handlers (the simulated external systems) keep
    between calls. *)
Context {HState : Type}.

(** One call of a handler: what it returns or raises, how long the call
    took (seconds), and the state it leaves. *)
Record attempt : Type := {
  outcome : pyres pydict;
  duration : Q;
  next_state : HState
}.

Definition handler : Type := ActionRequest -> HState -> attempt.

(** The [ActionRouter] object.  [fmt_action_type] is how an f-string prints
    an [ActionType] (it depends on the interpreter version). *)
Record router : Type := {
  action_handlers : ActionType -> option handler;
  retry_attempts : nat;
  retry_delay : Q;
  fmt_action_type : ActionType -> string
}.

(** What a call of [route_action] runs in: the clock (seconds), the
    durations passed to [asyncio.sleep] so far (latest first), the calls of
    handlers so far, the state of the handlers, the memory store, and the
    uuids [uuid.uuid4] is going to draw. *)
Record world : Type := {
  clock : Q;
  sleeps : list Q;
  calls : nat;
  hstate : HState;
  memory : MemoryStore.t;
  uuids : list string
}.

(** [await asyncio.sleep(d)] *)
Definition sleep (d : Q) (w : world) : world :=
  {| clock := (clock w + d)%Q; sleeps := d :: sleeps w; calls := calls w;
     hstate := hstate w; memory := memory w; uuids := uuids w |}.

(** [await handler(action_request)] *)
Definition call_handler (hd : handler) (req : ActionRequest) (w : world)
    : pyres pydict * world :=
  let a := hd req (hstate w) in
  (outcome a,
   {| clock := (clock w + duration a)%Q; sleeps := sleeps w;
      calls := S (calls w); hstate := next_state a; memory := memory w;
      uuids := uuids w |}).

Definition set_memory (m : MemoryStore.t) (w : world) : world :=
  {| clock := clock w; sleeps := sleeps w; calls := calls w;
     hstate := hstate w; memory := m; uuids := uuids w |}.

(** [str(uuid.uuid4())] *)
Definition uuid4 (w : world) : string * world :=
  match uuids w with
  | [] => ("", w)
  | u :: rest =>
      (u, {| clock := clock w; sleeps := sleeps w; calls := calls w;
             hstate := hstate w; memory := memory w; uuids := rest |})
  end.

(** The loop [for attempt in range(self.retry_attempts)] of
    [_execute_with_retry], with [remaining] turns to go, and the final
    [raise last_exception] ([raise None] is a [TypeError]). *)
Fixpoint retry_loop (r : router) (hd : handler) (req : ActionRequest)
    (remaining attempt : nat) (last_exception : option exn) (w : world)
    : pyres pydict * world :=
  match remaining with
  | O =>
      match last_exception with
      | Some e => (Raise e, w)
      | None => (Raise (Exn TypeError "exceptions must derive from BaseException"), w)
      end
  | S remaining' =>
      match call_handler hd req w with
      | (Ok response, w1) => (Ok response, w1)
      | (Raise e, w1) =>
          let w2 :=
            if (attempt <? retry_attempts r - 1)%nat
            then sleep (retry_delay r * inject_Z (Z.of_nat (attempt + 1)))%Q w1
            else w1 in
          retry_loop r hd req remaining' (S attempt) (Some e) w2
      end
  end.

Definition _execute_with_retry (r : router) (hd : handler) (req : ActionRequest)
    (w : world) : pyres pydict * world :=
  retry_loop r hd req (retry_attempts r) 0 None w.

(** [(datetime.utcnow() - start_time).total_seconds() * 1000] *)
Definition elapsed_ms (start_time : Q) (w : world) : Q :=
  ((clock w - start_time) * 1000)%Q.

(** The [except Exception as e] block of [route_action]. *)
Definition on_exception (action_id : string) (start_time : Q)
    (req : ActionRequest) (e : exn) (w : world) : pyres ActionResult * world :=
  let action_result :=
    {| action_id := action_id;
       res_action_type := action_type req;
       status := "failed";
       response_data := None;
       error_message := Some (exn_msg e);
       execution_time_ms := Some (elapsed_ms start_time w) |} in
  match MemoryStore.get_memory_store (memory w) with
  | (Raise e', m) => (Raise e', set_memory m w)
  | (Ok _, m) =>
      (Ok action_result,
       set_memory (snd (MemoryStore.increment_counter "actions_failed" m)) w)
  end.

Definition route_action (r : router) (req : ActionRequest) (w : world)
    : pyres ActionResult * world :=
  let '(action_id, w0) := uuid4 w in
  let start_time := clock w0 in
  match action_handlers r (action_type req) with
  | None =>
      on_exception action_id start_time req
        (Exn ValueError ("No handler found for action type: "
                         +:+ fmt_action_type r (action_type req))) w0
  | Some hd =>
      match _execute_with_retry r hd req w0 with
      | (Raise e, w1) => on_exception action_id start_time req e w1
      | (Ok result, w1) =>
          let action_result :=
            {| action_id := action_id;
               res_action_type := action_type req;
               status := "success";
               response_data := Some result;
               error_message := None;
               execution_time_ms := Some (elapsed_ms start_time w1) |} in
          match MemoryStore.get_memory_store (memory w1) with
          | (Raise e, m) =>
              on_exception action_id start_time req e (set_memory m w1)
          | (Ok _, m) =>
              (Ok action_result,
               set_memory (snd (MemoryStore.increment_counter "actions_executed" m)) w1)
          end
      end
  end.

End WithHandlers.

Arguments attempt : clear implicits.
Arguments handler : clear implicits.
Arguments router : clear implicits.
Arguments world : clear implicits.

End ActionRouter.

(** ** A library instance and inputs for the worked examples *)

Module Examples.
Import Py Schemas JsonAgent.
Local Open Scope Z_scope.

(** *** Timestamps of the form [YYYY-MM-DDTHH:MM:SS] with an optional
    offset [+HH:MM] or [-HH:MM] *)

Definition digit (c : ascii) : option Z :=
  let n := Z.of_nat (nat_of_ascii c) in
  if (48 <=? n) && (n <=? 57) then Some (n - 48) else None.

Fixpoint digits (n : nat) (s : string) (acc : Z) : option (Z * string) :=
  match n with
  | O => Some (acc, s)
  | S n' =>
      match s with
      | EmptyString => None
      | String c s' =>
          match digit c with
          | Some d => digits n' s' (acc * 10 + d)
          | None => None
          end
      end
  end.

Definition expect (c : ascii) (s : string) : option string :=
  match s with
  | EmptyString => None
  | String c' s' => if Ascii.eqb c c' then Some s' else None
  end.

Definition is_leap (y : Z) : bool :=
  (y mod 4 =? 0) && (negb (y mod 100 =? 0) || (y mod 400 =? 0)).

Definition days_in_month (y m : Z) : Z :=
  if m =? 2 then (if is_leap y then 29 else 28)
  else if (m =? 4) || (m =? 6) || (m =? 9) || (m =? 11) then 30
  else 31.

(** Days from 1970-01-01 to the given day of the proleptic Gregorian
    calendar. *)
Definition days_from_civil (y m d : Z) : Z :=
  let y' := if m <=? 2 then y - 1 else y in
  let era := y' / 400 in
  let yoe := y' - era * 400 in
  let doy := (153 * (if 2 <? m then m - 3 else m + 9) + 2) / 5 + d - 1 in
  let doe := yoe * 365 + yoe / 4 - yoe / 100 + doy in
  era * 146097 + doe - 719468.

(** The offset in seconds; [Some None] for no offset. *)
Definition parse_offset (s : string) : option (option Z) :=
  match s with
  | EmptyString => Some None
  | String sign s1 =>
      let sgn :=
        if Ascii.eqb sign "+"%char then Some 1
        else if Ascii.eqb sign "-"%char then Some (-1)
        else None in
      match sgn, digits 2 s1 0 with
      | Some k, Some (hh, s2) =>
          match expect ":"%char s2 with
          | Some s3 =>
              match digits 2 s3 0 with
              | Some (mm, EmptyString) =>
                  if (hh <? 24) && (mm <? 60)
                  then Some (Some (k * (hh * 3600 + mm * 60)))
                  else None
              | _ => None
              end
          | None => None
          end
      | _, _ => None
      end
  end.

Definition iso_parse (s : string) : option datetime :=
  '(y, s) ← digits 4 s 0;
  s ← expect "-"%char s;
  '(m, s) ← digits 2 s 0;
  s ← expect "-"%char s;
  '(d, s) ← digits 2 s 0;
  s ← expect "T"%char s;
  '(hh, s) ← digits 2 s 0;
  s ← expect ":"%char s;
  '(mi, s) ← digits 2 s 0;
  s ← expect ":"%char s;
  '(ss, s) ← digits 2 s 0;
  off ← parse_offset s;
  if (1 <=? y) && (1 <=? m) && (m <=? 12) && (1 <=? d) && (d <=? days_in_month y m)
     && (hh <? 24) && (mi <? 60) && (ss <? 60)
  then
    let local := ((days_from_civil y m d * 24 + hh) * 60 + mi) * 60 + ss in
    match off with
    | None => Some {| dt_aware := false; dt_micros := local * 1000000 |}
    | Some o => Some {| dt_aware := true; dt_micros := (local - o) * 1000000 |}
    end
  else None.

(** *** Mean and standard deviation *)

Definition Qsum (l : list Q) : Q := fold_right Qplus 0%Q l.

Definition mean (l : list Q) : Q := (Qsum l / inject_Z (Z.of_nat (length l)))%Q.

Definition variance (l : list Q) : Q :=
  mean (map (fun x => ((x - mean l) * (x - mean l))%Q) l).

(** The square root, truncated to six decimals. *)
Definition sqrt_trunc (q : Q) : Q :=
  (inject_Z (Z.sqrt (Qnum q * 1000000000000 / Zpos (Qden q))) / 1000000)%Q.

Lemma sqrt_trunc_nonneg (q : Q) : (0 <= sqrt_trunc q)%Q.
Proof.
  unfold sqrt_trunc. apply Qle_shift_div_l; [reflexivity |].
  rewrite Qmult_0_l. change 0%Q with (inject_Z 0). rewrite <- Zle_Qle.
  apply Z.sqrt_nonneg.
Qed.

(** The instance: the parser above, exact mean, truncated square root; no
    schema is violated, and the functions that only feed payloads and
    correlation ids ([str], [hash], [isoformat]) answer constants. *)
Definition example_library : Library :=
  {| fromisoformat := iso_parse;
     np_mean := mean;
     np_std := fun l => sqrt_trunc (variance l);
     jsonschema_validate := fun _ _ => SchemaValid;
     py_str := fun _ => "{...}";
     py_hash := fun _ => 0;
     str_of_int := pretty;
     isoformat := fun _ => "1970-01-01T00:00:00";
     np_std_nonneg := fun l => sqrt_trunc_nonneg (variance l) |}.

(** *** Inputs *)

(** A schema type without an entry in the schema registry. *)
Definition payment : string := "payment".

(** A record with an unparseable timestamp and one empty field out of two. *)
Definition two_halves : pydict :=
  [("timestamp", VStr "not-a-date"); ("note", VStr "")].



(** A record whose timestamp is a number. *)
Definition numeric_timestamp : pydict := [("timestamp", VInt 1700000000)].

(** Ten earlier amounts around 150 (mean 150, standard deviation 2), and a
    record far above them. *)
Definition baseline : History :=
  {| hist_amounts :=
       {[ "payment_amounts" := [148; 152; 148; 152; 148; 152; 148; 152; 148; 152]%Q ]};
     hist_timestamps := ∅ |}.

Definition big_amount : pydict := [("amount", VFloat 999999.99)].

(** A record with four fields of an unexpected type and no other signal. *)
Definition four_mismatches : pydict :=
  [("id", VInt 1); ("user_id", VInt 2); ("count", VStr "x"); ("active", VInt 0)].

(** A memory store that is connected to a server that answers. *)
Definition connected : MemoryStore.t :=
  {| MemoryStore.client := MemoryStore.Connected; MemoryStore.redis_up := true;
     MemoryStore.counters := ∅; MemoryStore.entries := ∅ |}.

(** 1500 records for one key, each with one amount: 0, 1, ..., 1499. *)
Definition one_amount (i : nat) : pydict * string :=
  ([("amount", VInt (Z.of_nat i))], payment).

Definition calls_1500 : list (pydict * string) := map one_amount (seq 0 1500).

(** *** Handlers and a router *)

(** A handler that raises on every call; its state counts the calls. *)
Definition always_fails : ActionRouter.handler nat :=
  fun _ n =>
    {| ActionRouter.outcome := Raise (Exn OtherError ("upstream error " +:+ pretty n));
       ActionRouter.duration := 0.1%Q;
       ActionRouter.next_state := S n |}.


(** A router with the defaults of [ActionRouter.__init__] and a handler for
    [ESCALATE] only; action types print as their values. *)
Definition router_with (hd : ActionRouter.handler nat) : ActionRouter.router nat :=
  {| ActionRouter.action_handlers :=
       fun t => match t with ESCALATE => Some hd | _ => None end;
     ActionRouter.retry_attempts := 3;
     ActionRouter.retry_delay := 1%Q;
     ActionRouter.fmt_action_type := action_type_value |}.

Definition request (t : ActionType) : ActionRequest :=
  {| action_type := t; payload := []; priority := HIGH;
     source_agent := "test_agent"; correlation_id := "test_123" |}.

Definition world0 : ActionRouter.world nat :=
  {| ActionRouter.clock := 0%Q; ActionRouter.sleeps := []; ActionRouter.calls := 0;
     ActionRouter.hstate := 0%nat; ActionRouter.memory := connected;
     ActionRouter.uuids := ["6f1c2a9e-0000-4000-8000-000000000001"] |}.

End Examples.

(** ** Notions used to state the properties *)

Module Properties.
Import Py Schemas JsonAgent.

(** The tag the amount sub-detector emits for [field]. *)
Definition amount_tag (field : string) : string := "unusual_" +:+ field +:+ "_amount".

(** The tags the data-quality sub-detector can emit. *)
Definition quality_tags : list string :=
  ["excessive_null_values"; "potential_sql_injection"; "potential_script_injection"].

(** The requests of one action type among those the policy emits. *)
Definition is_flag_anomaly (a : ActionRequest) : bool :=
  bool_decide (action_type a = FLAG_ANOMALY).

Definition is_risk_alert (a : ActionRequest) : bool :=
  bool_decide (action_type a = RISK_ALERT).

(** The test of [_generate_actions] for a risk alert,
    [any(anomaly in result.anomalies for anomaly in high_risk_anomalies)]. *)
Definition has_high_risk (tags : list string) : bool :=
  existsb (fun anomaly => existsb (String.eqb anomaly) tags) high_risk_anomalies.

(** The largest element of a list of scores, 0 for the empty list. *)
Definition list_max (l : list Q) : Q := fold_right Qmax 0%Q l.

Section WithLibrary.
Context {L : Library}.

(** The four sub-detectors in the order [_detect_anomalies] runs them,
    [amount_anomaly] and [pattern_anomaly] being what [_check_amount_anomaly]
    and [_check_pattern_anomaly] returned. *)
Definition sub_findings (data : pydict) (schema_type : string)
    (amount_anomaly pattern_anomaly : option finding) : list (option finding) :=
  [amount_anomaly;
   pattern_anomaly;
   _check_data_quality data;
   _check_type_anomalies data schema_type].

(** The sub-scores of those that fired. *)
Definition sub_scores (data : pydict) (schema_type : string)
    (amount_anomaly pattern_anomaly : option finding) : list Q :=
  omap (fmap f_score) (sub_findings data schema_type amount_anomaly pattern_anomaly).

(** What [float(data[field])] gives for an amount field that is present
    and a number. *)
Definition amount_sample (data : pydict) (field : string) : option (pyres Q) :=
  match dict_get field data with
  | Some v => if isinstance_number v then Some (float_of v) else None
  | None => None
  end.

(** The conversions of the numeric amount fields of a record, in the order
    the two loops over [amount_fields] visit them. *)
Definition amount_conversions (data : pydict) : list (pyres Q) :=
  omap (amount_sample data) amount_fields.

(** The floats before the first conversion that raised, and the exception
    of that conversion. *)
Fixpoint converted (l : list (pyres Q)) : list Q :=
  match l with
  | Ok x :: l' => x :: converted l'
  | _ => []
  end.

Fixpoint first_raised (l : list (pyres Q)) : option exn :=
  match l with
  | [] => None
  | Ok _ :: l' => first_raised l'
  | Raise e :: _ => Some e
  end.

(** The floats [_update_historical_data] appends for a record: those of
    its numeric amount fields, up to the first that [float] refuses. *)
Definition amount_samples (data : pydict) : list Q :=
  converted (amount_conversions data).

(** The [OverflowError] of the first numeric amount field that [float]
    refuses, [None] when every one converts. *)
Definition amount_error (data : pydict) : option exn :=
  first_raised (amount_conversions data).

(** The datetime [_update_historical_data] appends for a record: that of
    its timestamp field when it parses, unless the loop over the amounts
    raised before. *)
Definition timestamp_samples (data : pydict) : list datetime :=
  match amount_error data with
  | Some _ => []
  | None =>
      match dict_get "timestamp" data with
      | Some v =>
          match parse_timestamp v with
          | Parsed t => [t]
          | _ => []
          end
      | None => []
      end
  end.

(** A sequence of calls [_update_historical_data(data, schema_type)], a
    call that raises included. *)
Definition run_updates (h : History) (calls : list (pydict * string)) : History :=
  fold_left (fun h c => snd (_update_historical_data h (fst c) (snd c))) calls h.

(** What these calls append under [key], oldest first. *)
Definition appended_amounts (key : string) (calls : list (pydict * string)) : list Q :=
  concat (map (fun c => if decide (amounts_key (snd c) = key)
                        then amount_samples (fst c) else []) calls).

Definition appended_timestamps (key : string) (calls : list (pydict * string))
    : list datetime :=
  concat (map (fun c => if decide (timestamps_key (snd c) = key)
                        then timestamp_samples (fst c) else []) calls).

End WithLibrary.

(** The first [n] calls of a handler for a request, from the state [s]. *)
Fixpoint attempts {HState : Type} (hd : ActionRouter.handler HState)
    (req : ActionRequest) (s : HState) (n : nat) : list (ActionRouter.attempt HState) :=
  match n with
  | O => []
  | S n' =>
      let a := hd req s in
      a :: attempts hd req (ActionRouter.next_state a) n'
  end.

(** The memory store is connected, or the server answers so that it can be
    connected: [get_memory_store] then returns it.  Every entry point of the
    system ([startup_event] in main.py, [initialize] in demo.py, [setup] in
    the tests) obtains the store before the first action is routed and stops
    when it cannot; once connected the store stays so until [disconnect] at
    shutdown. *)
Definition store_reachable (m : MemoryStore.t) : Prop :=
  MemoryStore.is_connected m = true \/ MemoryStore.redis_up m = true.

End Properties.

(** ** core/memory_store.py and core/action_router.py: reading the counters *)

Module Statistics.
Import Py Schemas.

(** [get_counter]: the value the server holds, 0 for a counter it does not
    hold; every exception is logged and swallowed, the call then returns 0. *)
Definition get_counter (counter_name : string) (ms : MemoryStore.t) : Z :=
  match MemoryStore.command "get"
          (fun ms => (Ok (default 0 (MemoryStore.counters ms !! counter_name)), ms))
          ms with
  | (Ok v, _) => v
  | (Raise _, _) => 0
  end.

(** The members of [ActionType], in the order of the class. *)
Definition action_types : list ActionType :=
  [ESCALATE; LOG_AND_CLOSE; FLAG_ANOMALY; COMPLIANCE_ALERT; RISK_ALERT; CREATE_TICKET].

(** The dict [get_action_statistics] returns. *)
Record stats : Type := {
  total_actions_executed : Z;
  total_actions_failed : Z;
  success_rate : Q;
  by_action_type : list (string * Z)
}.

Definition get_action_statistics (ms : MemoryStore.t) : pyres stats * MemoryStore.t :=
  match MemoryStore.get_memory_store ms with
  | (Raise e, m) => (Raise e, m)
  | (Ok _, m) =>
      let total := get_counter "actions_executed" m in
      let failed := get_counter "actions_failed" m in
      (Ok {| total_actions_executed := total;
             total_actions_failed := failed;
             success_rate :=
               if (0 <? total)%Z
               then ((inject_Z (total - failed) / inject_Z total) * 100)%Q
               else 0%Q;
             by_action_type :=
               map (fun t => (action_type_value t,
                              get_counter ("action_type_" +:+ action_type_value t) m))
                   action_types |}, m)
  end.

End Statistics.

(** ** core/action_router.py: the handler of [LOG_AND_CLOSE] *)

Module Handlers.
Import Py Schemas.

(** [_handle_log_and_close]; [log_id] is the uuid it draws and [timestamp]
    the [isoformat] of the time it reads.  It passes a dict to
    [store_entry]. *)
Definition _handle_log_and_close (log_id timestamp : string) (req : ActionRequest)
    (ms : MemoryStore.t) : pyres pydict * MemoryStore.t :=
  let log_entry : pydict :=
    [("log_id", VStr log_id);
     ("source", VStr (source_agent req));
     ("action", VStr "log_and_close");
     ("details", VDict (payload req));
     ("status", VStr "closed");
     ("timestamp", VStr timestamp)] in
  match MemoryStore.get_memory_store ms with
  | (Raise e, m) => (Raise e, m)
  | (Ok _, m) =>
      match MemoryStore.store_entry
              (MemoryStore.ADict
                 [("key", VStr ("log_entry:" +:+ log_id));
                  ("value", VDict log_entry);
                  ("entry_type", VStr "log_entry");
                  ("agent_source", VStr (source_agent req))]) m with
      | (Raise e, m') => (Raise e, m')
      | (Ok _, m') =>
          (Ok [("log_entry", VDict log_entry);
               ("message", VStr "Issue logged and closed successfully")], m')
      end
  end.

(** The handler as the router calls it, on the memory store [ms] the router
    shares with it; the state of the handler is the supply of uuids and times
    its coming calls will see.  The handler does not sleep.  The one change a
    call can make to the store is to connect it, in [get_memory_store];
    [route_action] makes the same call itself before it returns, so the store
    is threaded there only. *)
Definition log_and_close_handler (ms : MemoryStore.t)
    : ActionRouter.handler (list (string * string)) :=
  fun req supply =>
    let '(log_id, timestamp) := hd ("", "") supply in
    {| ActionRouter.outcome := fst (_handle_log_and_close log_id timestamp req ms);
       ActionRouter.duration := 0%Q;
       ActionRouter.next_state := tl supply |}.

End Handlers.

(** ** Further notions used to state properties *)

Module Notions.
Import Py Schemas JsonAgent.

(** The sum of a list of durations. *)
Definition total (l : list Q) : Q := fold_right Qplus 0%Q l.

(** The value the server holds for a counter, 0 for one it does not hold:
    what [get_counter] reads through a client while the server answers. *)
Definition stored (counter_name : string) (ms : MemoryStore.t) : Z :=
  default 0 (MemoryStore.counters ms !! counter_name).

(** The wait of the retry loop after the failed attempt number [i]. *)
Definition backoff {HState : Type} (r : ActionRouter.router HState) (i : nat) : Q :=
  (ActionRouter.retry_delay r * inject_Z (Z.of_nat i))%Q.

(** The waits after the failed attempts number [first], ..., [first + n - 1],
    the latest first (as [sleeps] records them). *)
Definition backoffs {HState : Type} (r : ActionRouter.router HState)
    (first n : nat) : list Q :=
  rev (map (backoff r) (seq first n)).

(** The state of the handlers after [k] calls for a request from the state
    [s]; the call number [k + 1] is [hd req (state_after hd req s k)]. *)
Fixpoint state_after {HState : Type} (hd : ActionRouter.handler HState)
    (req : ActionRequest) (s : HState) (k : nat) : HState :=
  match k with
  | O => s
  | S k' => state_after hd req (ActionRouter.next_state (hd req s)) k'
  end.

Definition raises {HState : Type} (a : ActionRouter.attempt HState) : Prop :=
  exists e, ActionRouter.outcome a = Raise e.

(** The exception [last_exception] holds after the given attempts. *)
Definition last_raised {HState : Type} (l : list (ActionRouter.attempt HState))
    (last : option exn) : option exn :=
  fold_left (fun acc a => match ActionRouter.outcome a with
                          | Raise e => Some e
                          | Ok _ => acc
                          end) l last.

(** Routing the requests of a list one after the other, as the callers in
    main.py and demo.py do; a call that raises ends the run. *)
Fixpoint route_all {HState : Type} (r : ActionRouter.router HState)
    (reqs : list ActionRequest) (w : ActionRouter.world HState)
    : pyres (list ActionResult) * ActionRouter.world HState :=
  match reqs with
  | [] => (Ok [], w)
  | req :: reqs' =>
      match ActionRouter.route_action r req w with
      | (Raise e, w1) => (Raise e, w1)
      | (Ok res, w1) =>
          match route_all r reqs' w1 with
          | (Raise e, w2) => (Raise e, w2)
          | (Ok results, w2) => (Ok (res :: results), w2)
          end
      end
  end.

Definition succeeded (res : ActionResult) : bool := String.eqb (status res) "success".

(** The counter a result is counted under. *)
Definition counted_under (res : ActionResult) : string :=
  if succeeded res then "actions_executed" else "actions_failed".

(** How many results of a list succeeded, and how many did not. *)
Definition successes (results : list ActionResult) : Z :=
  Z.of_nat (length (List.filter succeeded results)).
Definition failures (results : list ActionResult) : Z :=
  Z.of_nat (length (List.filter (fun res => negb (succeeded res)) results)).

(** The tags a report can carry. *)
Definition injection_tags : list string :=
  ["potential_sql_injection"; "potential_script_injection"].

Definition fixed_tags : list string :=
  ["rapid_succession_events"; "invalid_timestamp_format"; "excessive_null_values";
   "potential_sql_injection"; "potential_script_injection"].

Definition known_tag (t : string) : Prop :=
  (exists field, In field amount_fields /\ t = Properties.amount_tag field) \/
  In t fixed_tags \/
  (exists entry, In entry expected_types /\ t = "unexpected_type_" +:+ fst entry).

(** What the loop of [_check_data_quality] keeps true of its pair
    [(anomalies, max_score)]. *)
Definition quality_inv (acc : list string * Q) : Prop :=
  (snd acc <= 1)%Q /\
  (fst acc <> [] -> (0.3 < snd acc)%Q) /\
  (forall t, In t injection_tags -> In t (fst acc) -> (0.9 <= snd acc)%Q).

(** The entries of the type registry a record violates: the field is
    present and its value fails the [isinstance] test. *)
Definition mismatched (data : pydict) : list (string * (pyval -> bool)) :=
  List.filter (fun entry => match dict_get (fst entry) data with
                            | Some v => negb (snd entry v)
                            | None => false
                            end) expected_types.

(** The action type and the priority of each request. *)
Definition kinds (actions : list ActionRequest) : list (ActionType * UrgencyLevel) :=
  map (fun a => (action_type a, priority a)) actions.



(** What [process_json] adds to the counter [cname] for a result. *)
Definition process_json_count (schema_type : string) (result : JSONValidationResult)
    (cname : string) : Z :=
  (if decide (cname = "json_processed") then 1 else 0)
  + (if decide (cname = "schema_" +:+ schema_type) then 1 else 0)
  + (if decide (cname = "json_validation_failures")
     then (if is_valid result then 0 else 1) else 0)
  + (if decide (cname = "anomalies_detected")
     then (if fgt (anomaly_score result) anomaly_threshold then 1 else 0) else 0).

End Notions.

(** ** Further inputs for worked examples *)

Module MoreExamples.
Import Py Schemas JsonAgent.

(** A handler that answers on every call. *)
Definition answers : ActionRouter.handler nat :=
  fun _ n =>
    {| ActionRouter.outcome := Ok [("status_code", VInt 201)];
       ActionRouter.duration := 0.1%Q;
       ActionRouter.next_state := S n |}.

(** A router that tries [n] times, with a base delay of half a second. *)
Definition router_trying (n : nat) (hd : ActionRouter.handler nat)
    : ActionRouter.router nat :=
  {| ActionRouter.action_handlers :=
       fun t => match t with ESCALATE => Some hd | _ => None end;
     ActionRouter.retry_attempts := n;
     ActionRouter.retry_delay := 0.5%Q;
     ActionRouter.fmt_action_type := action_type_value |}.

(** A window with one naive timestamp, and a record whose timestamp is
    aware. *)
Definition naive_stored : History :=
  {| hist_amounts := ∅;
     hist_timestamps :=
       {[ "payment_timestamps" := [{| dt_aware := false; dt_micros := 1705314000000000 |}] ]} |}.

Definition aware_record : pydict := [("timestamp", VStr "2024-01-15T10:30:00Z")].

(** A window with both an aware and a naive timestamp. *)
Definition mixed_window : History :=
  {| hist_amounts := ∅;
     hist_timestamps :=
       {[ "payment_timestamps" :=
            [{| dt_aware := true; dt_micros := 1705314000000000 |};
             {| dt_aware := false; dt_micros := 1705314000000000 |}] ]} |}.

(** A window with four timestamps within the last minute. *)
Definition four_recent : History :=
  {| hist_amounts := ∅;
     hist_timestamps :=
       {[ "payment_timestamps" :=
            [{| dt_aware := true; dt_micros := 1705314560000000 |};
             {| dt_aware := true; dt_micros := 1705314570000000 |};
             {| dt_aware := true; dt_micros := 1705314580000000 |};
             {| dt_aware := true; dt_micros := 1705314590000000 |}] ]} |}.

(** A record whose only strings are nested, with one field out of two
    empty. *)
Definition nested_strings : pydict :=
  [("payload", VDict [("q", VStr "DROP TABLE users")]); ("items", VNone)].

(** A record with a script in one field. *)
Definition script_record : pydict :=
  [("user_id", VStr "u1"); ("comment", VStr "<SCRIPT>alert(1)</SCRIPT>")].

(** A window with five timestamps within the minute before 10:30:00 UTC
    of 2024-01-15. *)
Definition five_recent : History :=
  {| hist_amounts := ∅;
     hist_timestamps :=
       {[ "payment_timestamps" :=
            [{| dt_aware := true; dt_micros := 1705314550000000 |};
             {| dt_aware := true; dt_micros := 1705314560000000 |};
             {| dt_aware := true; dt_micros := 1705314570000000 |};
             {| dt_aware := true; dt_micros := 1705314580000000 |};
             {| dt_aware := true; dt_micros := 1705314590000000 |}] ]} |}.

(** A library whose [jsonschema.validate] rejects every record, the other
    functions as in [example_library]. *)
Definition rejecting_library : Library :=
  {| fromisoformat := Examples.iso_parse;
     np_mean := Examples.mean;
     np_std := fun l => Examples.sqrt_trunc (Examples.variance l);
     jsonschema_validate :=
       fun _ _ => SchemaValidationError "'event_type' is a required property";
     py_str := fun _ => "{...}";
     py_hash := fun _ => 0;
     str_of_int := pretty;
     isoformat := fun _ => "1970-01-01T00:00:00";
     np_std_nonneg := fun l => Examples.sqrt_trunc_nonneg (Examples.variance l) |}.

(** A record without any signal for the sub-detectors. *)
Definition plain_record : pydict := [("note", VStr "hello")].

(** A memory store that was never connected, with a server that does not
    answer. *)
Definition unreachable : MemoryStore.t :=
  {| MemoryStore.client := MemoryStore.NoClient; MemoryStore.redis_up := false;
     MemoryStore.counters := ∅; MemoryStore.entries := ∅ |}.


(** A memory store that was never connected, with a server that answers
    and holds a counter. *)
Definition never_connected : MemoryStore.t :=
  {| MemoryStore.client := MemoryStore.NoClient; MemoryStore.redis_up := true;
     MemoryStore.counters := {[ "json_processed" := 7%Z ]};
     MemoryStore.entries := ∅ |}.

(** A record with an amount and a timestamp that is a number. *)
Definition amount_and_numeric_timestamp : pydict :=
  [("amount", VInt 42); ("timestamp", VInt 1700000000)].


(** A record with an amount far above the others and a total that is an
    integer beyond the range of a float. *)
Definition huge_total : pydict :=
  [("amount", VFloat 999999.99); ("total", VInt (10 ^ 400))].

(** A router with the defaults of [ActionRouter.__init__] whose handler of
    [LOG_AND_CLOSE] is the one of the source, on the store [ms]. *)
Definition default_router (ms : MemoryStore.t)
    : ActionRouter.router (list (string * string)) :=
  {| ActionRouter.action_handlers :=
       fun t => match t with
                | LOG_AND_CLOSE => Some (Handlers.log_and_close_handler ms)
                | _ => None
                end;
     ActionRouter.retry_attempts := 3;
     ActionRouter.retry_delay := 1%Q;
     ActionRouter.fmt_action_type := action_type_value |}.


Definition log_world : ActionRouter.world (list (string * string)) :=
  {| ActionRouter.clock := 0%Q; ActionRouter.sleeps := []; ActionRouter.calls := 0;
     ActionRouter.hstate := [("id-1", "t1"); ("id-2", "t2"); ("id-3", "t3")];
     ActionRouter.memory := Examples.connected;
     ActionRouter.uuids := ["6f1c2a9e-0000-4000-8000-000000000002"] |}.

End MoreExamples.

(** * Properties *)

Import Py Schemas JsonAgent Properties.

Local Open Scope Q_scope.

#[global] Instance Ok_inj {A : Type} : Inj (=) (=) (@Ok A).
Proof. intros a b H. congruence. Qed.

(** ** Arithmetic of scores *)

Lemma py_max_Qmax (a b : Q) : py_max a b == Qmax a b.
Proof.
  unfold py_max.
  destruct (Qlt_le_dec a b), (Q.max_spec a b) as [[? H]|[? H]]; rewrite H; lra.
Qed.

Lemma py_min_Qmin (a b : Q) : py_min a b == Qmin a b.
Proof.
  unfold py_min.
  destruct (Qlt_le_dec b a), (Q.min_spec a b) as [[? H]|[? H]]; rewrite H; lra.
Qed.

Lemma py_max_ge_l (a b : Q) : a <= py_max a b.
Proof. unfold py_max. destruct (Qlt_le_dec a b); lra. Qed.

Lemma py_max_nonneg (a b : Q) : 0 <= a -> 0 <= py_max a b.
Proof. intros Ha. pose proof (py_max_ge_l a b). lra. Qed.

Lemma py_min_one_nonneg (a : Q) : 0 <= a -> 0 <= py_min a 1.
Proof. intros Ha. unfold py_min. destruct (Qlt_le_dec 1 a); lra. Qed.

Lemma flt_true (a b : Q) : flt a b = true <-> a < b.
Proof. unfold flt. destruct (Qlt_le_dec a b); split; (congruence || lra || auto). Qed.

Lemma flt_false (a b : Q) : flt a b = false <-> b <= a.
Proof. unfold flt. destruct (Qlt_le_dec a b); split; (congruence || lra || auto). Qed.

Lemma list_max_nonneg (l : list Q) : 0 <= list_max l.
Proof.
  induction l as [|x l IH]; simpl; [lra |].
  destruct (Q.max_spec x (list_max l)) as [[? H]|[? H]]; rewrite H; lra.
Qed.

(** ** What each sub-detector can return *)

Section SubDetectors.
Context {L : Library}.

Lemma min_ratio_one_nonneg (a b : Q) : 0 <= a -> 0 <= b -> 0 <= min_ratio_one a b.
Proof.
  intros Ha Hb. unfold min_ratio_one.
  destruct (Qeq_bool b 0) eqn:E; [lra |].
  apply Qeq_bool_neq in E.
  apply py_min_one_nonneg, Qle_shift_div_l; lra.
Qed.

Lemma check_amount_fields_cons h data schema_type field rest :
  check_amount_fields h data schema_type (field :: rest) =
  match dict_get field data with
  | Some v =>
      if isinstance_number v then
        match float_of v with
        | Raise e => Raise e
        | Ok amount =>
            if (min_samples <=? length (get_amounts h (amounts_key schema_type)))%nat then
              if fgt (Qabs (amount - np_mean (get_amounts h (amounts_key schema_type))))
                     (threshold_multiplier
                      * np_std (get_amounts h (amounts_key schema_type)))
              then Ok (Some {| f_anomalies := [amount_tag field];
                               f_score :=
                                 min_ratio_one
                                   (Qabs (amount
                                          - np_mean (get_amounts h (amounts_key schema_type))))
                                   (threshold_multiplier
                                    * np_std (get_amounts h (amounts_key schema_type))) |})
              else check_amount_fields h data schema_type rest
            else check_amount_fields h data schema_type rest
        end
      else check_amount_fields h data schema_type rest
  | None => check_amount_fields h data schema_type rest
  end.
Proof. reflexivity. Qed.

(** When the amount loop fires it reports one tag, [unusual_<field>_amount]
    for one of the fields it was given, with a score of at least 0. *)
Lemma check_amount_fields_Some h data schema_type fields f :
  check_amount_fields h data schema_type fields = Ok (Some f) ->
  0 <= f_score f /\
  (min_samples <= length (get_amounts h (amounts_key schema_type)))%nat /\
  exists field, In field fields /\ f_anomalies f = [amount_tag field].
Proof.
  induction fields as [|field rest IH]; [discriminate |].
  rewrite check_amount_fields_cons. intros H.
  assert (Hrest : check_amount_fields h data schema_type rest = Ok (Some f) ->
                  0 <= f_score f /\
                  (min_samples <= length (get_amounts h (amounts_key schema_type)))%nat /\
                  exists field0, (field = field0 \/ In field0 rest) /\
                                 f_anomalies f = [amount_tag field0]).
  { intros H'. destruct (IH H') as (? & ? & x & ? & ?). eauto 8. }
  destruct (dict_get field data) as [v|]; [| auto].
  destruct (isinstance_number v); [| auto].
  destruct (float_of v) as [amount|e]; [| discriminate].
  destruct (min_samples <=? length (get_amounts h (amounts_key schema_type)))%nat eqn:Hn;
    [| auto].
  destruct (fgt _ _); [| auto].
  apply (inj Ok), (inj Some) in H. subst f. cbn [f_score f_anomalies]. split; [| split].
  - apply min_ratio_one_nonneg; [apply Qabs_nonneg |].
    pose proof (np_std_nonneg (get_amounts h (amounts_key schema_type))).
    unfold threshold_multiplier. nra.
  - by apply Nat.leb_le.
  - exists field. split; [by left | reflexivity].
Qed.

(** The rate sub-detector returns one of two findings. *)
Lemma check_pattern_anomaly_Some h data schema_type f :
  _check_pattern_anomaly h data schema_type = Ok (Some f) ->
  0 <= f_score f /\
  (f = invalid_timestamp \/
   exists n : nat, (rapid_succession <= n)%nat /\
     f = {| f_anomalies := ["rapid_succession_events"];
            f_score := py_min (inject_Z (Z.of_nat n) / 10) 1 |}).
Proof.
  unfold _check_pattern_anomaly.
  destruct (dict_get "timestamp" data) as [v|]; [| discriminate].
  destruct (parse_timestamp v) as [t| |e]; [| | discriminate].
  - destruct (count_recent _ _ _) as [n|].
    + destruct (rapid_succession <=? n)%nat eqn:Hn; [| discriminate].
      intros [= <-]. simpl. split.
      * apply py_min_one_nonneg, Qle_shift_div_l; [reflexivity |].
        rewrite Qmult_0_l. change 0 with (inject_Z 0). rewrite <- Zle_Qle. lia.
      * right. exists n. split; [by apply Nat.leb_le | reflexivity].
    + intros [= <-]. split; [simpl; lra | by left].
  - intros [= <-]. split; [simpl; lra | by left].
Qed.

Lemma quality_step_inv acc item :
  (0 <= snd acc /\ Forall (fun t => In t quality_tags) (fst acc)) ->
  0 <= snd (quality_step acc item) /\
  Forall (fun t => In t quality_tags) (fst (quality_step acc item)).
Proof.
  intros [Hs Ht]. unfold quality_step.
  destruct (snd item); try (split; assumption).
  destruct (any_pattern sql_patterns s), (any_pattern script_patterns s); simpl;
    (split; [repeat apply py_max_nonneg; assumption
            | repeat (apply Forall_app; split); try assumption;
              repeat constructor; simpl; tauto]).
Qed.

Lemma quality_fold_inv data acc :
  (0 <= snd acc /\ Forall (fun t => In t quality_tags) (fst acc)) ->
  0 <= snd (fold_left quality_step data acc) /\
  Forall (fun t => In t quality_tags) (fst (fold_left quality_step data acc)).
Proof.
  revert acc. induction data as [|item data IH]; simpl; [tauto |].
  intros acc H. apply IH, quality_step_inv, H.
Qed.

Lemma check_data_quality_Some data f :
  _check_data_quality data = Some f ->
  0 <= f_score f /\ Forall (fun t => In t quality_tags) (f_anomalies f).
Proof.
  unfold _check_data_quality.
  match goal with |- context [fold_left quality_step data ?a] =>
    pose proof (quality_fold_inv data a) as H; set (acc := fold_left quality_step data a) in * end.
  intros Hf.
  assert (Hacc : 0 <= snd acc /\ Forall (fun t => In t quality_tags) (fst acc)).
  { apply H. destruct (0 <? length data)%nat; [| simpl; split; [lra | constructor]].
    destruct (fgt _ _); simpl; (split; [| repeat constructor; simpl; tauto]); [| lra].
    apply py_max_ge_l. }
  destruct (fst acc) eqn:E; [discriminate |].
  apply (inj Some) in Hf. subst f. exact Hacc.
Qed.

Lemma type_fold_inv data entries acc :
  Forall (fun t => exists field, t = "unexpected_type_" +:+ field) acc ->
  Forall (fun t => exists field, t = "unexpected_type_" +:+ field)
         (fold_left (type_step data) entries acc).
Proof.
  revert acc. induction entries as [|entry entries IH]; simpl; [tauto |].
  intros acc H. apply IH. unfold type_step.
  destruct (dict_get (fst entry) data) as [v|]; [| assumption].
  destruct (snd entry v); [assumption |].
  apply Forall_app. split; [assumption |]. repeat constructor. eauto.
Qed.

Lemma check_type_anomalies_Some data schema_type f :
  _check_type_anomalies data schema_type = Some f ->
  0 <= f_score f /\
  f_score f == inject_Z (Z.of_nat (length (f_anomalies f))) * 0.2 /\
  Forall (fun t => exists field, t = "unexpected_type_" +:+ field) (f_anomalies f).
Proof.
  unfold _check_type_anomalies.
  pose proof (type_fold_inv data expected_types [] (List.Forall_nil _)) as H.
  destruct (fold_left (type_step data) expected_types []) as [|t l] eqn:E; [discriminate |].
  intros [= <-]. simpl f_score. simpl f_anomalies. split; [| split; [reflexivity | exact H]].
  apply Qmult_le_0_compat; [| lra].
  change 0 with (inject_Z 0). rewrite <- Zle_Qle. lia.
Qed.

End SubDetectors.

(** ** The report of [_detect_anomalies] *)

(** Case analysis on every [Qmax] and [Qmin] in sight, for [lra]. *)
Ltac qminmax :=
  repeat match goal with
  | |- context [Qmax ?a ?b] =>
      let m := fresh "m" in let E := fresh "E" in
      remember (Qmax a b) as m eqn:E;
      destruct (Q.max_spec a b) as [[? ?]|[? ?]]; rewrite <- E in *; clear E
  | |- context [Qmin ?a ?b] =>
      let m := fresh "m" in let E := fresh "E" in
      remember (Qmin a b) as m eqn:E;
      destruct (Q.min_spec a b) as [[? ?]|[? ?]]; rewrite <- E in *; clear E
  | H : context [Qmax ?a ?b] |- _ =>
      let m := fresh "m" in let E := fresh "E" in
      remember (Qmax a b) as m eqn:E;
      destruct (Q.max_spec a b) as [[? ?]|[? ?]]; rewrite <- E in *; clear E
  | H : context [Qmin ?a ?b] |- _ =>
      let m := fresh "m" in let E := fresh "E" in
      remember (Qmin a b) as m eqn:E;
      destruct (Q.min_spec a b) as [[? ?]|[? ?]]; rewrite <- E in *; clear E
  end.

Lemma absorb_fold_score (subs : list (option finding)) (acc : list string * Q) :
  0 <= snd acc ->
  snd (fold_left absorb subs acc)
  == Qmax (snd acc) (list_max (omap (fmap f_score) subs)).
Proof.
  revert acc. induction subs as [|[f|] subs IH]; intros acc Hacc.
  - change (snd acc == Qmax (snd acc) 0). qminmax; lra.
  - change (fold_left absorb (Some f :: subs) acc)
      with (fold_left absorb subs (absorb acc (Some f))).
    change (list_max (omap (fmap f_score) (Some f :: subs)))
      with (Qmax (f_score f) (list_max (omap (fmap f_score) subs))).
    rewrite IH by (apply py_max_nonneg; exact Hacc).
    cbn [absorb snd].
    pose proof (py_max_Qmax (snd acc) (f_score f)) as E.
    generalize dependent (py_max (snd acc) (f_score f)).
    generalize (list_max (omap (fmap f_score) subs)).
    intros y x E. qminmax; lra.
  - apply IH, Hacc.
Qed.

Lemma absorb_fold_tags (subs : list (option finding)) (acc : list string * Q) :
  fst (fold_left absorb subs acc)
  = (fst acc ++ concat (map (fun s => from_option f_anomalies [] s) subs))%list.
Proof.
  revert acc. induction subs as [|[f|] subs IH]; intros acc; simpl.
  - by rewrite app_nil_r.
  - rewrite IH. simpl. by rewrite <- app_assoc.
  - apply IH.
Qed.

Lemma list_max_attained (l : list Q) (c : Q) :
  0 <= c -> Forall (fun s => s <= c) l -> Exists (fun s => s == c) l ->
  list_max l == c.
Proof.
  intros Hc Hall Hex.
  assert (Hle : list_max l <= c).
  { clear Hex. induction Hall as [|x l Hx _ IH]; simpl; [exact Hc |]. qminmax; lra. }
  assert (Hge : c <= list_max l).
  { clear Hall Hle. induction Hex as [x l Hx|x l _ IH]; simpl; qminmax; lra. }
  lra.
Qed.

Section AnomalyReport.
Context {L : Library}.

(** [_detect_anomalies] raises exactly when the amount sub-detector or
    the rate sub-detector does; the report it returns otherwise is the fold of
    [absorb] over the four findings. *)
Lemma detect_anomalies_unfold h data schema_type :
  _detect_anomalies h data schema_type =
  match _check_amount_anomaly h data schema_type with
  | Raise e => Raise e
  | Ok a =>
      match _check_pattern_anomaly h data schema_type with
      | Raise e => Raise e
      | Ok p =>
          let acc := fold_left absorb (sub_findings data schema_type a p) ([], 0) in
          Ok {| r_is_normal := flt (snd acc) anomaly_threshold;
                r_anomalies := fst acc;
                r_anomaly_score := py_min (snd acc) 1 |}
      end
  end.
Proof. reflexivity. Qed.

Lemma detect_anomalies_Ok h data schema_type r :
  _detect_anomalies h data schema_type = Ok r ->
  exists a p,
    _check_amount_anomaly h data schema_type = Ok a /\
    _check_pattern_anomaly h data schema_type = Ok p /\
    r = {| r_is_normal :=
             flt (snd (fold_left absorb (sub_findings data schema_type a p) ([], 0)))
                 anomaly_threshold;
           r_anomalies :=
             fst (fold_left absorb (sub_findings data schema_type a p) ([], 0));
           r_anomaly_score :=
             py_min (snd (fold_left absorb (sub_findings data schema_type a p) ([], 0)))
                    1 |}.
Proof.
  rewrite detect_anomalies_unfold.
  destruct (_check_amount_anomaly h data schema_type) as [a|e]; [| discriminate].
  destruct (_check_pattern_anomaly h data schema_type) as [p|e]; [| discriminate].
  intros Hr. cbv zeta in Hr. apply (inj Ok) in Hr. subst r. by exists a, p.
Qed.

Lemma sub_scores_nonneg h data schema_type a p :
  _check_amount_anomaly h data schema_type = Ok a ->
  _check_pattern_anomaly h data schema_type = Ok p ->
  Forall (fun s => 0 <= s) (sub_scores data schema_type a p).
Proof.
  intros Ha Hp.
  assert (H : Forall (fun s => forall f, s = Some f -> 0 <= f_score f)
                     (sub_findings data schema_type a p)).
  { repeat constructor; intros f Hf.
    - subst a. by apply check_amount_fields_Some in Ha as [? _].
    - subst p. by apply check_pattern_anomaly_Some in Hp as [? _].
    - by apply check_data_quality_Some in Hf as [? _].
    - by apply check_type_anomalies_Some in Hf as [? _]. }
  unfold sub_scores. induction H as [|[f|] subs Hf _ IH].
  - constructor.
  - change (Forall (fun s => 0 <= s) (f_score f :: omap (fmap f_score) subs)).
    constructor; [by apply Hf | exact IH].
  - exact IH.
Qed.

Lemma filter_nonempty_Exists {A : Type} (f : A -> bool) (l : list A) :
  (1 <= length (List.filter f l))%nat -> Exists (fun x => f x = true) l.
Proof.
  induction l as [|x l IH]; simpl; [lia |].
  destruct (f x) eqn:E; [by left | right; auto].
Qed.

(** C1.  The score of the report is the largest of the sub-scores of the
    sub-detectors that fired (each at least 0, and 0 when none fired), capped
    at 1; [is_normal] holds exactly when the score is below 0.8; and when two
    sub-detectors contribute 0.5 and none contributes more, the score is 0.5,
    not their sum 1. *)
Theorem detect_anomalies_score_is_capped_max h data schema_type r :
  _detect_anomalies h data schema_type = Ok r ->
  exists a p,
    _check_amount_anomaly h data schema_type = Ok a /\
    _check_pattern_anomaly h data schema_type = Ok p /\
    let subs := sub_scores data schema_type a p in
    Forall (fun s => 0 <= s) subs /\
    r_anomaly_score r == Qmin (list_max subs) 1 /\
    (r_is_normal r = true <-> r_anomaly_score r < 0.8) /\
    ((2 <= length (List.filter (Qeq_bool 0.5) subs))%nat ->
     Forall (fun s => s <= 0.5) subs ->
     r_anomaly_score r == 0.5 /\ ~ r_anomaly_score r == 1).
Proof.
  intros Hr. apply detect_anomalies_Ok in Hr as (a & p & Ha & Hp & ->).
  cbn [r_anomaly_score r_is_normal].
  exists a, p. split; [exact Ha |]. split; [exact Hp |]. cbv zeta.
  pose proof (sub_scores_nonneg h data schema_type a p Ha Hp) as Hnn.
  assert (H0 : 0 <= snd (([], 0) : list string * Q)) by (simpl; lra).
  pose proof (absorb_fold_score (sub_findings data schema_type a p) _ H0) as Hs.
  cbn [snd] in Hs. fold (sub_scores data schema_type a p) in Hs.
  pose proof (list_max_nonneg (sub_scores data schema_type a p)) as Hm.
  pose proof (py_min_Qmin (snd (fold_left absorb (sub_findings data schema_type a p)
                                          ([], 0))) 1) as Hc.
  revert Hs Hc.
  generalize (py_min (snd (fold_left absorb (sub_findings data schema_type a p)
                                     ([], 0))) 1).
  generalize (snd (fold_left absorb (sub_findings data schema_type a p) ([], 0))).
  intros acc score Hs Hc.
  assert (Hacc : acc == list_max (sub_scores data schema_type a p)).
  { revert Hs Hm. generalize (list_max (sub_scores data schema_type a p)).
    intros m Hs Hm. qminmax; lra. }
  split; [exact Hnn |]. split; [| split].
  - revert Hacc Hc. generalize (list_max (sub_scores data schema_type a p)).
    intros m Hacc Hc. qminmax; lra.
  - rewrite flt_true. unfold anomaly_threshold. qminmax; lra.
  - intros Htwo Hall.
    assert (Hhalf : list_max (sub_scores data schema_type a p) == 0.5).
    { apply list_max_attained; [lra | exact Hall |].
      assert (H1 : (1 <= length (List.filter (Qeq_bool 0.5)
                                   (sub_scores data schema_type a p)))%nat) by lia.
      apply filter_nonempty_Exists in H1.
      eapply Exists_impl; [exact H1 |]. intros s Hq.
      apply Qeq_bool_iff in Hq. lra. }
    qminmax; lra.
Qed.

End AnomalyReport.

Lemma detect_anomalies_score_is_capped_max_witness :
  exists r,
    _detect_anomalies (L := Examples.example_library) empty_history
      Examples.two_halves Examples.payment = Ok r /\
    r_anomalies r = ["invalid_timestamp_format"; "excessive_null_values"] /\
    r_anomaly_score r == 0.5 /\ ~ r_anomaly_score r == 1.
Proof.
  eexists. split; [vm_compute; reflexivity |].
  split; [reflexivity |].
  destruct (detect_anomalies_score_is_capped_max (L := Examples.example_library)
              empty_history Examples.two_halves Examples.payment _ eq_refl)
    as (a & p & Ha & Hp & _ & _ & _ & Htwo).
  vm_compute in Ha. apply (inj Ok) in Ha. subst a.
  vm_compute in Hp. apply (inj Ok) in Hp. subst p.
  apply Htwo.
  - vm_compute. lia.
  - repeat constructor; vm_compute; discriminate.
Defined.

(** ** Tags of the report *)

Section ReportTags.
Context {L : Library}.

Lemma report_tags h data schema_type r :
  _detect_anomalies h data schema_type = Ok r ->
  exists a p,
    _check_amount_anomaly h data schema_type = Ok a /\
    _check_pattern_anomaly h data schema_type = Ok p /\
    r_anomalies r
    = concat (map (from_option f_anomalies [])
                  (sub_findings data schema_type a p)).
Proof.
  intros Hr. apply detect_anomalies_Ok in Hr as (a & p & Ha & Hp & ->).
  exists a, p. split; [exact Ha |]. split; [exact Hp |]. cbn [r_anomalies].
  by rewrite absorb_fold_tags.
Qed.



(** [float] on a number raises only for an [int] beyond the range of a
    float, and then [OverflowError]. *)
Lemma float_of_number v :
  isinstance_number v = true ->
  match float_of v with
  | Ok _ => match v with
            | VInt z => (Z.abs z < float_overflow)%Z
            | _ => True
            end
  | Raise e =>
      e = Exn OverflowError "int too large to convert to float" /\
      exists z, v = VInt z /\ (float_overflow <= Z.abs z)%Z
  end.
Proof.
  destruct v as [|b|z|q|s|l|d]; try discriminate; intros _; cbn [float_of]; try exact I.
  destruct (Z.abs z <? float_overflow)%Z eqn:E.
  - by apply Z.ltb_lt.
  - apply Z.ltb_ge in E. eauto.
Qed.

Lemma omap_cons {A B : Type} (f : A -> option B) (x : A) (l : list A) :
  omap f (x :: l) = match f x with
                    | Some y => y :: omap f l
                    | None => omap f l
                    end.
Proof. reflexivity. Qed.

Lemma first_raised_overflow data fields e :
  first_raised (omap (amount_sample data) fields) = Some e ->
  e = Exn OverflowError "int too large to convert to float" /\
  exists field z, In field fields /\ dict_get field data = Some (VInt z) /\
                  (float_overflow <= Z.abs z)%Z.
Proof.
  induction fields as [|field rest IH]; [discriminate |].
  rewrite omap_cons. unfold amount_sample at 1.
  assert (Hrest : first_raised (omap (amount_sample data) rest) = Some e ->
                  e = Exn OverflowError "int too large to convert to float" /\
                  exists field0 z, In field0 (field :: rest) /\
                                   dict_get field0 data = Some (VInt z) /\
                                   (float_overflow <= Z.abs z)%Z).
  { intros H. destruct (IH H) as (? & f0 & z & ? & ? & ?).
    split; [done |]. exists f0, z. by repeat split; [right | |]. }
  destruct (dict_get field data) as [v|] eqn:Hget; [| exact Hrest].
  destruct (isinstance_number v) eqn:Hnum; [| exact Hrest].
  pose proof (float_of_number v Hnum) as Hv.
  destruct (float_of v) as [x|e']; cbn [first_raised]; [exact Hrest |].
  intros [= <-]. destruct Hv as (-> & z & -> & Hz).
  split; [reflexivity |]. exists field, z. by repeat split; [left | |].
Qed.




End ReportTags.


(** ** Malformed timestamps *)

Section Timestamps.
Context {L : Library}.

(** A timestamp that is a string the parser rejects gives the fixed
    finding. *)
Lemma check_pattern_anomaly_unparseable_string h data schema_type s :
  dict_get "timestamp" data = Some (VStr s) ->
  fromisoformat (replace_Z s) = None ->
  _check_pattern_anomaly h data schema_type = Ok (Some invalid_timestamp).
Proof.
  intros Hts Hparse. unfold _check_pattern_anomaly, parse_timestamp.
  by rewrite Hts, Hparse.
Qed.

(** A timestamp that is not a string makes the rate sub-detector raise
    [AttributeError], and [_detect_anomalies] with it when the amount
    sub-detector, which runs first, returned. *)
Lemma check_pattern_anomaly_not_a_string h data schema_type v :
  dict_get "timestamp" data = Some v ->
  isinstance_str v = false ->
  _check_pattern_anomaly h data schema_type = Raise (no_attribute_replace v) /\
  _detect_anomalies h data schema_type
  = match _check_amount_anomaly h data schema_type with
    | Raise e => Raise e
    | Ok _ => Raise (no_attribute_replace v)
    end.
Proof.
  intros Hts Hv. rewrite detect_anomalies_unfold.
  unfold _check_pattern_anomaly. rewrite Hts.
  by destruct v.
Qed.

(** The amount sub-detector raises only where [float] does. *)
Lemma check_amount_fields_raises h data schema_type fields e :
  check_amount_fields h data schema_type fields = Raise e ->
  first_raised (omap (amount_sample data) fields) = Some e.
Proof.
  induction fields as [|field rest IH]; [discriminate |].
  rewrite check_amount_fields_cons, omap_cons. unfold amount_sample at 1.
  destruct (dict_get field data) as [v|]; [| exact IH].
  destruct (isinstance_number v); [| exact IH].
  destruct (float_of v) as [x|e0]; cbn [first_raised]; [| congruence].
  destruct (min_samples <=? _)%nat; [| exact IH].
  destruct (fgt _ _); [discriminate | exact IH].
Qed.

Lemma check_amount_anomaly_returns h data schema_type :
  amount_error data = None ->
  exists a, _check_amount_anomaly h data schema_type = Ok a.
Proof.
  intros Hnone. unfold _check_amount_anomaly.
  destruct (check_amount_fields h data schema_type amount_fields) as [a|e] eqn:E;
    [eauto |].
  apply check_amount_fields_raises in E.
  unfold amount_error, amount_conversions in Hnone. congruence.
Qed.

(** [_detect_anomalies] returns a report whenever every numeric amount
    converts and the timestamp is absent or a string. *)
Lemma detect_anomalies_returns h data schema_type :
  amount_error data = None ->
  match dict_get "timestamp" data with
  | Some v => isinstance_str v = true
  | None => True
  end ->
  exists r, _detect_anomalies h data schema_type = Ok r.
Proof.
  intros Hconv Hts. rewrite detect_anomalies_unfold.
  destruct (check_amount_anomaly_returns h data schema_type Hconv) as [a ->].
  unfold _check_pattern_anomaly.
  destruct (dict_get "timestamp" data) as [v|]; [| eauto].
  destruct v; try discriminate. unfold parse_timestamp.
  destruct (fromisoformat (replace_Z s)); [| eauto].
  destruct (count_recent _ _ _) as [n|]; [| eauto].
  destruct (rapid_succession <=? n)%nat; eauto.
Qed.

(** C6 (what the code does).  For the record [{"timestamp": 1700000000}]
    the rate sub-detector raises [AttributeError] instead of returning the
    tag [invalid_timestamp_format]; [_detect_anomalies] and [process_json]
    raise with it, and no report is produced. *)
Theorem check_pattern_anomaly_numeric_timestamp_raises h schema_type now st :
  let e := Exn AttributeError "'int' object has no attribute 'replace'" in
  _check_pattern_anomaly h Examples.numeric_timestamp schema_type = Raise e /\
  _detect_anomalies h Examples.numeric_timestamp schema_type = Raise e /\
  process_json now Examples.numeric_timestamp schema_type st = (Raise e, st).
Proof.
  intros e.
  destruct (check_pattern_anomaly_not_a_string h Examples.numeric_timestamp
              schema_type (VInt 1700000000) eq_refl eq_refl) as [Hp Hd].
  split; [exact Hp |]. split; [exact Hd |].
  unfold process_json.
  destruct (check_pattern_anomaly_not_a_string (historical_data st)
              Examples.numeric_timestamp schema_type (VInt 1700000000)
              eq_refl eq_refl) as [_ ->].
  reflexivity.
Qed.

End Timestamps.

(** ** The action policy [_generate_actions] *)

Lemma append_length (s1 s2 : string) :
  String.length (s1 +:+ s2) = (String.length s1 + String.length s2)%nat.
Proof. induction s1 as [|c s1 IH]; simpl; [reflexivity | by rewrite IH]. Qed.

(** No tag of the amount sub-detector is one of the high-risk tags:
    [unusual_<field>_amount] is longer than [unusual_amount] and starts
    unlike the three others. *)
Lemma amount_tag_not_high_risk (field : string) :
  existsb (String.eqb (amount_tag field)) high_risk_anomalies = false.
Proof.
  assert (H : forall risk, In risk high_risk_anomalies -> amount_tag field <> risk).
  { intros risk Hin E. simpl in Hin.
    destruct Hin as [<- | [<- | [<- | [<- | []]]]];
      try (unfold amount_tag in E; cbv [String.append] in E; discriminate E).
    apply (f_equal String.length) in E. unfold amount_tag in E.
    rewrite !append_length in E. simpl in E. lia. }
  apply not_true_is_false. intros Hex.
  apply existsb_exists in Hex as (risk & Hin & Heq).
  apply String.eqb_eq in Heq. by apply (H risk).
Qed.

Lemma has_high_risk_amount_tags (tags : list string) :
  Forall (fun t => exists field, t = amount_tag field) tags ->
  has_high_risk tags = false.
Proof.
  intros Hall. unfold has_high_risk.
  apply not_true_is_false. intros H.
  apply existsb_exists in H as (risk & Hrisk & H).
  apply existsb_exists in H as (t & Ht & Heq).
  apply String.eqb_eq in Heq. subst t.
  rewrite List.Forall_forall in Hall. destruct (Hall _ Ht) as [field ->].
  pose proof (amount_tag_not_high_risk field) as Hno.
  assert (Hyes : existsb (String.eqb (amount_tag field)) high_risk_anomalies = true).
  { apply existsb_exists. exists (amount_tag field). split; [exact Hrisk |].
    apply String.eqb_refl. }
  congruence.
Qed.

Section ActionPolicy.
Context {L : Library}.

Lemma generate_actions_unfold now result data schema_type :
  exists flag risk,
    action_type flag = FLAG_ANOMALY /\
    priority flag = (if fgt (anomaly_score result) 0.8 then HIGH else MEDIUM) /\
    action_type risk = RISK_ALERT /\ priority risk = CRITICAL /\
    _generate_actions now result data schema_type
    = ((if negb (is_valid result) || fgt (anomaly_score result) anomaly_threshold
        then [flag] else [])
       ++ (if has_high_risk (anomalies result) then [risk] else []))%list.
Proof.
  unfold _generate_actions, has_high_risk.
  do 2 eexists. repeat (split; [shelve |]).
  destruct (existsb _ high_risk_anomalies); [reflexivity |].
  by rewrite app_nil_r.
  Unshelve. all: reflexivity.
Qed.

(** When every tag of the result is a tag of the amount sub-detector, no
    risk alert is requested. *)
Lemma generate_actions_no_risk_alert_for_amount_tags now result data schema_type :
  Forall (fun t => exists field, t = amount_tag field) (anomalies result) ->
  List.filter is_risk_alert (_generate_actions now result data schema_type) = [].
Proof.
  intros Hall.
  destruct (generate_actions_unfold now result data schema_type)
    as (flag & risk & Hf & _ & _ & _ & ->).
  rewrite (has_high_risk_amount_tags _ Hall), app_nil_r.
  destruct (_ || _); [| reflexivity].
  simpl. unfold is_risk_alert. by rewrite Hf.
Qed.

(** A tag of the three literal kinds requests a risk alert of priority
    critical. *)
Lemma generate_actions_risk_alert now result data schema_type tag :
  In tag ["potential_sql_injection"; "potential_script_injection";
          "rapid_succession_events"] ->
  In tag (anomalies result) ->
  exists risk,
    List.filter is_risk_alert (_generate_actions now result data schema_type) = [risk]
    /\ priority risk = CRITICAL.
Proof.
  intros Hkind Htag.
  destruct (generate_actions_unfold now result data schema_type)
    as (flag & risk & Hf & _ & Hr & Hp & ->).
  assert (Hrisk : has_high_risk (anomalies result) = true).
  { apply existsb_exists. exists tag. split.
    - simpl in Hkind. simpl. tauto.
    - apply existsb_exists. exists tag. split; [exact Htag | apply String.eqb_refl]. }
  rewrite Hrisk. exists risk. split; [| exact Hp].
  rewrite List.filter_app.
  destruct (_ || _); simpl; unfold is_risk_alert; rewrite ?Hf, Hr; reflexivity.
Qed.

End ActionPolicy.

Section Flagging.
Context {L : Library}.

Lemma report_is_normal_iff h data schema_type r :
  _detect_anomalies h data schema_type = Ok r ->
  (r_is_normal r = true <-> r_anomaly_score r < 0.8) /\
  0 <= r_anomaly_score r <= 1.
Proof.
  intros Hr. apply detect_anomalies_Ok in Hr as (a & p & Ha & Hp & ->).
  cbn [r_anomaly_score r_is_normal].
  assert (H0 : 0 <= snd (([], 0) : list string * Q)) by (simpl; lra).
  pose proof (absorb_fold_score (sub_findings data schema_type a p) _ H0) as Hs.
  cbn [snd] in Hs. revert Hs.
  generalize (list_max (omap (fmap f_score) (sub_findings data schema_type a p))).
  generalize (snd (fold_left absorb (sub_findings data schema_type a p) ([], 0))).
  intros acc m Hs. rewrite flt_true. unfold anomaly_threshold, py_min.
  destruct (Qlt_le_dec 1 acc); qminmax; lra.
Qed.

(** C7.  A report is not normal exactly when its score is at least 0.8,
    and for such a report the policy, applied to the combined result of
    [process_json], requests exactly one [flag_anomaly] action: of priority
    high when the score is above 0.8, of priority medium otherwise (so at a
    score of exactly 0.8). *)
Theorem generate_actions_flags_abnormal_report now validation h data schema_type r :
  _detect_anomalies h data schema_type = Ok r ->
  (r_is_normal r = false <-> 0.8 <= r_anomaly_score r) /\
  (r_is_normal r = false ->
   exists flag,
     List.filter is_flag_anomaly
       (_generate_actions now (combine validation r) data schema_type) = [flag] /\
     (0.8 < r_anomaly_score r -> priority flag = HIGH) /\
     (r_anomaly_score r <= 0.8 -> priority flag = MEDIUM)).
Proof.
  intros Hr. apply report_is_normal_iff in Hr as [Hn _].
  split.
  - split.
    + intros Hab. destruct (Qlt_le_dec (r_anomaly_score r) 0.8) as [Hlt|Hge];
        [| exact Hge].
      apply Hn in Hlt. congruence.
    + intros Hge. destruct (r_is_normal r); [| reflexivity].
      assert (r_anomaly_score r < 0.8) by (by apply Hn). lra.
  - intros Hab.
    destruct (generate_actions_unfold now (combine validation r) data schema_type)
      as (flag & risk & Hf & Hp & Hr & _ & ->).
    exists flag. cbn [combine is_valid anomaly_score] in *.
    rewrite Hab, andb_false_r. cbn [negb orb].
    split; [| split].
    + rewrite List.filter_app.
      destruct (has_high_risk _); simpl; unfold is_flag_anomaly; rewrite Hf, ?Hr;
        reflexivity.
    + intros Hhigh. rewrite Hp. unfold fgt.
      by apply flt_true in Hhigh as ->.
    + intros Hlow. rewrite Hp. unfold fgt.
      by apply flt_false in Hlow as ->.
Qed.

End Flagging.

Lemma generate_actions_flags_abnormal_report_witness :
  exists r flag,
    _detect_anomalies (L := Examples.example_library) empty_history
      Examples.four_mismatches Examples.payment = Ok r /\
    r_anomaly_score r == 0.8 /\ r_is_normal r = false /\
    List.filter is_flag_anomaly
      (_generate_actions (L := Examples.example_library) 0
         (combine (_validate_schema (L := Examples.example_library)
                     Examples.four_mismatches Examples.payment) r)
         Examples.four_mismatches Examples.payment) = [flag] /\
    priority flag = MEDIUM.
Proof.
  eexists.
  destruct (generate_actions_flags_abnormal_report (L := Examples.example_library) 0
              (_validate_schema (L := Examples.example_library)
                 Examples.four_mismatches Examples.payment)
              empty_history Examples.four_mismatches Examples.payment _ eq_refl)
    as [_ Hflag].
  destruct (Hflag eq_refl) as (flag & Hfilter & _ & Hmedium).
  exists flag. split; [reflexivity |].
  split; [reflexivity |]. split; [reflexivity |]. split; [exact Hfilter |].
  apply Hmedium. vm_compute. discriminate.
Defined.

(** C5 (what the code does).  For the record [{"amount": 999999.99}] after
    ten amounts around 150, the report carries the tag
    [unusual_amount_amount] alone, with score 1, and the policy requests the
    [flag_anomaly] action only: no risk alert. *)
Theorem unusual_amount_tag_requests_no_risk_alert :
  exists result actions st',
    process_json (L := Examples.example_library) 0 Examples.big_amount
      Examples.payment
      {| historical_data := Examples.baseline; JsonAgent.memory := Examples.connected |}
    = (Ok (result, actions), st') /\
    anomalies result = [amount_tag "amount"] /\
    anomaly_score result == 1 /\
    map action_type actions = [FLAG_ANOMALY] /\
    List.filter is_risk_alert actions = [].
Proof.
  do 3 eexists. split; [vm_compute; reflexivity |].
  repeat split; reflexivity.
Qed.

(** ** The history windows *)

(** No key of [historical_data] is both an amounts key and a timestamps
    key: seven characters before the end of the first stands a [t] of
    [_amounts], where the second has the [p] of [_timestamps]. *)
Lemma amounts_key_ne_timestamps_key (schema_type1 schema_type2 : string) :
  amounts_key schema_type1 <> timestamps_key schema_type2.
Proof.
  unfold amounts_key, timestamps_key. intros E.
  pose proof (f_equal String.length E) as Hlen.
  rewrite !append_length in Hlen. simpl in Hlen.
  pose proof (append_correct2 schema_type1 "_amounts" 6) as H1.
  pose proof (append_correct2 schema_type2 "_timestamps" 9) as H2.
  rewrite E in H1.
  replace (6 + String.length schema_type1)%nat
    with (9 + String.length schema_type2)%nat in H1 by lia.
  rewrite <- H2 in H1. discriminate H1.
Qed.

Lemma length_last_n {A : Type} (n : nat) (l : list A) :
  length (last_n n l) = Nat.min n (length l).
Proof. unfold last_n. rewrite length_drop. lia. Qed.

Lemma last_n_all {A : Type} (n : nat) (l : list A) :
  (length l <= n)%nat -> last_n n l = l.
Proof. intros H. unfold last_n. by replace (length l - n)%nat with 0%nat by lia. Qed.

(** Appending and trimming keeps the last [capacity] elements. *)
Lemma append_trim_last_n {A : Type} (capacity : nat) (window : list A) (x : A) :
  append_trim capacity window x = last_n capacity (window ++ [x]).
Proof.
  unfold append_trim. destruct (capacity <? length (window ++ [x]))%nat eqn:E;
    [reflexivity |].
  apply Nat.ltb_ge in E. by rewrite last_n_all.
Qed.

Lemma last_n_snoc {A : Type} (n : nat) (l : list A) (x : A) :
  last_n n (last_n n l ++ [x]) = last_n n (l ++ [x]).
Proof.
  unfold last_n. rewrite !length_app, length_drop. simpl.
  destruct (decide (length l <= n)%nat) as [Hle|Hgt].
  - replace (length l - n)%nat with 0%nat by lia.
    by rewrite Nat.sub_0_r.
  - destruct n as [|n].
    + rewrite !drop_ge; [reflexivity | rewrite length_app; simpl; lia
                        | rewrite length_app, length_drop; simpl; lia].
    + rewrite (drop_app_le l [x]) by lia.
      rewrite (drop_app_le (drop _ l) [x]) by (rewrite length_drop; lia).
      rewrite drop_drop. f_equal. f_equal. lia.
Qed.

Lemma fold_append_trim {A : Type} (capacity : nat) (samples acc : list A) :
  fold_left (append_trim capacity) samples (last_n capacity acc)
  = last_n capacity (acc ++ samples).
Proof.
  revert acc. induction samples as [|x samples IH]; intros acc; simpl.
  - by rewrite app_nil_r.
  - rewrite append_trim_last_n, last_n_snoc, IH. by rewrite <- app_assoc.
Qed.

(** The samples of one call stay in the window when they are no more than
    its capacity. *)
Lemma fold_append_trim_suffix {A : Type} (capacity : nat) (samples window : list A) :
  (length samples <= capacity)%nat ->
  exists older, fold_left (append_trim capacity) samples window = older ++ samples.
Proof.
  induction samples as [|x samples IH] using rev_ind; intros Hlen.
  - exists window. simpl. by rewrite app_nil_r.
  - rewrite length_app in Hlen. simpl in Hlen.
    destruct IH as [older IH]; [lia |].
    rewrite fold_left_app. simpl. rewrite IH, append_trim_last_n.
    unfold last_n. rewrite <- app_assoc.
    rewrite drop_app_le by (rewrite !length_app; simpl; lia).
    eauto.
Qed.

Section History.
Context {L : Library}.

Lemma update_amount_steps_raised data schema_type fields e h :
  fold_left (update_amount_step data schema_type) fields (Raise e, h) = (Raise e, h).
Proof. induction fields as [|field fields IH]; [reflexivity | exact IH]. Qed.

Lemma get_amounts_touch key h key' :
  get_amounts (touch_amounts key h) key' = get_amounts h key'.
Proof.
  unfold touch_amounts, get_amounts at 1. cbn [hist_amounts].
  destruct (decide (key = key')) as [->|Hne].
  - by rewrite lookup_insert_eq.
  - by rewrite lookup_insert_ne.
Qed.

(** The loop over the amount fields: it ends with the exception of the
    first conversion that raised, having appended the floats before it. *)
Lemma update_amount_steps data schema_type fields h key :
  fst (fold_left (update_amount_step data schema_type) fields (Ok tt, h))
  = match first_raised (omap (amount_sample data) fields) with
    | Some e => Raise e
    | None => Ok tt
    end
  /\ get_amounts (snd (fold_left (update_amount_step data schema_type) fields (Ok tt, h)))
       key
     = (if decide (amounts_key schema_type = key)
        then fold_left (append_trim 1000) (converted (omap (amount_sample data) fields))
               (get_amounts h key)
        else get_amounts h key)
  /\ hist_timestamps
       (snd (fold_left (update_amount_step data schema_type) fields (Ok tt, h)))
     = hist_timestamps h.
Proof.
  revert h. induction fields as [|field fields IH]; intros h.
  - simpl. by destruct (decide _).
  - change (fold_left (update_amount_step data schema_type) (field :: fields) (Ok tt, h))
      with (fold_left (update_amount_step data schema_type) fields
              (update_amount_step data schema_type (Ok tt, h) field)).
    assert (Hstep : update_amount_step data schema_type (Ok tt, h) field
                    = match amount_sample data field with
                      | Some (Ok x) =>
                          (Ok tt, append_amount (amounts_key schema_type) x h)
                      | Some (Raise e) =>
                          (Raise e, touch_amounts (amounts_key schema_type) h)
                      | None => (Ok tt, h)
                      end).
    { unfold update_amount_step, amount_sample.
      destruct (dict_get field data) as [v|]; [| reflexivity].
      destruct (isinstance_number v); [| reflexivity]. by destruct (float_of v). }
    rewrite Hstep, omap_cons. clear Hstep.
    destruct (amount_sample data field) as [[x|e]|]; [| | apply IH].
    + destruct (IH (append_amount (amounts_key schema_type) x h)) as (-> & -> & ->).
      cbn [first_raised converted fold_left].
      unfold append_amount, get_amounts. cbn [hist_amounts hist_timestamps].
      split; [reflexivity |]. split; [| reflexivity].
      destruct (decide (amounts_key schema_type = key)) as [->|Hne].
      * by rewrite lookup_insert_eq.
      * by rewrite lookup_insert_ne.
    + rewrite update_amount_steps_raised. cbn [fst snd first_raised converted fold_left].
      split; [reflexivity |]. split; [| reflexivity].
      rewrite get_amounts_touch. by destruct (decide _).
Qed.

(** Whether a call of [_update_historical_data] raises: with the
    [OverflowError] of the first amount [float] refuses, else with the
    [AttributeError] of a timestamp that is not a string. *)
Lemma update_historical_data_outcome h data schema_type :
  fst (_update_historical_data h data schema_type)
  = match amount_error data with
    | Some e => Raise e
    | None =>
        match dict_get "timestamp" data with
        | Some v =>
            match parse_timestamp v with
            | ParseAttributeError e => Raise e
            | _ => Ok tt
            end
        | None => Ok tt
        end
    end.
Proof.
  unfold _update_historical_data, amount_error, amount_conversions.
  destruct (update_amount_steps data schema_type amount_fields h "") as (H & _ & _).
  destruct (fold_left _ amount_fields _) as [[[]|e] h1]; cbn [fst] in H;
    destruct (first_raised _) as [e'|]; try discriminate H.
  - destruct (dict_get "timestamp" data) as [v|]; [| reflexivity].
    by destruct (parse_timestamp v).
  - exact H.
Qed.

(** What one call of [_update_historical_data] does to each window. *)
Lemma update_historical_data_amounts h data schema_type key :
  get_amounts (snd (_update_historical_data h data schema_type)) key
  = if decide (amounts_key schema_type = key)
    then fold_left (append_trim 1000) (amount_samples data) (get_amounts h key)
    else get_amounts h key.
Proof.
  unfold _update_historical_data, amount_samples, amount_conversions.
  destruct (update_amount_steps data schema_type amount_fields h key) as (_ & H & _).
  destruct (fold_left _ amount_fields _) as [[[]|e] h1]; cbn [snd] in *; [| exact H].
  destruct (dict_get "timestamp" data) as [v|]; [| exact H].
  destruct (parse_timestamp v); exact H.
Qed.

Lemma update_historical_data_timestamps h data schema_type key :
  get_timestamps (snd (_update_historical_data h data schema_type)) key
  = if decide (timestamps_key schema_type = key)
    then fold_left (append_trim 100) (timestamp_samples data) (get_timestamps h key)
    else get_timestamps h key.
Proof.
  unfold _update_historical_data, timestamp_samples, get_timestamps,
    amount_error, amount_conversions.
  destruct (update_amount_steps data schema_type amount_fields h key) as (Hf & _ & H).
  destruct (fold_left _ amount_fields _) as [[[]|e] h1]; cbn [fst snd] in *;
    destruct (first_raised _) as [e'|]; try discriminate Hf.
  - destruct (dict_get "timestamp" data) as [v|]; cbn [snd].
    + destruct (parse_timestamp v); cbn [snd append_timestamp hist_timestamps];
        rewrite ?H; try by destruct (decide _).
      destruct (decide (timestamps_key schema_type = key)) as [->|Hne].
      * rewrite lookup_insert_eq. unfold get_timestamps. by rewrite H.
      * by rewrite lookup_insert_ne.
    + rewrite H. by destruct (decide _).
  - rewrite H. by destruct (decide _).
Qed.

Lemma run_updates_windows calls h key amounts timestamps :
  get_amounts h key = last_n 1000 amounts ->
  get_timestamps h key = last_n 100 timestamps ->
  get_amounts (run_updates h calls) key
  = last_n 1000 (amounts ++ appended_amounts key calls) /\
  get_timestamps (run_updates h calls) key
  = last_n 100 (timestamps ++ appended_timestamps key calls).
Proof.
  revert h amounts timestamps.
  induction calls as [|[data schema_type] calls IH]; intros h amounts timestamps Ha Ht.
  - simpl. by rewrite !app_nil_r.
  - change (run_updates h ((data, schema_type) :: calls))
      with (run_updates (snd (_update_historical_data h data schema_type)) calls).
    unfold appended_amounts, appended_timestamps. cbn [map concat fst snd].
    rewrite !app_assoc. apply IH.
    + rewrite update_historical_data_amounts.
      destruct (decide _); [| by rewrite app_nil_r].
      rewrite Ha. apply fold_append_trim.
    + rewrite update_historical_data_timestamps.
      destruct (decide _); [| by rewrite app_nil_r].
      rewrite Ht. apply fold_append_trim.
Qed.

(** C2.  After any sequence of calls of [_update_historical_data] on a
    fresh agent, the amount window of every key is the last 1000 of the
    amounts appended under that key, in the order they were appended, and its
    timestamp window the last 100 of the timestamps; so neither exceeds its
    capacity, and after 1500 amounts the window holds exactly the 1000
    appended last. *)
Theorem history_windows_bounded_fifo calls key :
  let h := run_updates empty_history calls in
  let amounts := appended_amounts key calls in
  let timestamps := appended_timestamps key calls in
  (length (get_amounts h key) <= 1000)%nat /\
  (length (get_timestamps h key) <= 100)%nat /\
  get_amounts h key = last_n 1000 amounts /\
  get_timestamps h key = last_n 100 timestamps /\
  (length amounts = 1500%nat ->
   length (get_amounts h key) = 1000%nat /\ get_amounts h key = drop 500 amounts).
Proof.
  intros h amounts timestamps.
  destruct (run_updates_windows calls empty_history key [] [] eq_refl eq_refl)
    as [Ha Ht].
  fold h in Ha, Ht. simpl in Ha, Ht. fold amounts in Ha. fold timestamps in Ht.
  rewrite Ha, Ht, !length_last_n.
  repeat split; try lia.
  unfold last_n. by rewrite H.
Qed.

Lemma process_json_history now data schema_type st r :
  _detect_anomalies (historical_data st) data schema_type = Ok r ->
  historical_data (snd (process_json now data schema_type st))
  = snd (_update_historical_data (historical_data st) data schema_type).
Proof.
  intros Hr. unfold process_json. rewrite Hr.
  destruct (_update_historical_data (historical_data st) data schema_type)
    as [[[]|e] h']; [| reflexivity].
  by destruct (MemoryStore.get_memory_store (JsonAgent.memory st)) as [[[]|e] m0].
Qed.

Lemma amount_samples_length data : (length (amount_samples data) <= 1000)%nat.
Proof.
  unfold amount_samples, amount_conversions, amount_fields. cbn [omap list_omap].
  repeat destruct (amount_sample data _) as [[?|?]|]; simpl; lia.
Qed.

(** When no conversion raises, every numeric amount field is among the
    samples. *)
Lemma converted_all (l : list (pyres Q)) (x : Q) :
  first_raised l = None -> In (Ok x) l -> In x (converted l).
Proof.
  induction l as [|[y|e] l IH]; cbn [first_raised converted]; [intros _ [] | | discriminate].
  intros Hnone [[= ->] | Hin]; [by left | right; auto].
Qed.

End History.

Lemma history_windows_bounded_fifo_witness :
  length (appended_amounts
            (amounts_key Examples.payment) Examples.calls_1500) = 1500%nat /\
  length (get_amounts (run_updates (L := Examples.example_library) empty_history
                         Examples.calls_1500)
            (amounts_key Examples.payment)) = 1000%nat /\
  get_amounts (run_updates (L := Examples.example_library) empty_history
                 Examples.calls_1500)
    (amounts_key Examples.payment)
  = map (fun i => inject_Z (Z.of_nat i)) (seq 500 1000).
Proof.
  assert (H : length (appended_amounts
                        (amounts_key Examples.payment) Examples.calls_1500)
              = 1500%nat) by (vm_compute; reflexivity).
  destruct (history_windows_bounded_fifo (L := Examples.example_library)
              Examples.calls_1500 (amounts_key Examples.payment))
    as (_ & _ & _ & _ & H1500).
  destruct (H1500 H) as [Hlen Hwin].
  split; [exact H |]. split; [exact Hlen |].
  rewrite Hwin. vm_compute. reflexivity.
Defined.

(** C9 (what the code does).  For the record
    [{"amount": 999999.99, "total": 10**400}] after ten amounts around 150,
    scoring completes: the amount sub-detector returns its finding at
    [amount] and never converts [total].  [_update_historical_data] then
    appends 999999.99 and raises [OverflowError] at [float(10**400)]: the
    numeric field [total] is not appended, and [process_json] raises with it,
    whatever the clock and the memory store. *)
Theorem process_json_overflowing_total_not_appended now m :
  exists r e st',
    _detect_anomalies (L := Examples.example_library) Examples.baseline
      MoreExamples.huge_total Examples.payment = Ok r /\
    r_anomalies r = [amount_tag "amount"] /\
    dict_get "total" MoreExamples.huge_total = Some (VInt (10 ^ 400)) /\
    isinstance_number (VInt (10 ^ 400)) = true /\
    process_json (L := Examples.example_library) now MoreExamples.huge_total
      Examples.payment
      {| historical_data := Examples.baseline; JsonAgent.memory := m |}
    = (Raise e, st') /\
    e = Exn OverflowError "int too large to convert to float" /\
    get_amounts (historical_data st') (amounts_key Examples.payment)
    = (get_amounts Examples.baseline (amounts_key Examples.payment)
       ++ [999999.99])%list /\
    JsonAgent.memory st' = m.
Proof.
  destruct (_detect_anomalies (L := Examples.example_library) Examples.baseline
              MoreExamples.huge_total Examples.payment) as [r|e0] eqn:Hr;
    [| vm_compute in Hr; discriminate Hr].
  destruct (_update_historical_data (L := Examples.example_library) Examples.baseline
              MoreExamples.huge_total Examples.payment) as [[[]|e] h'] eqn:Hup;
    [vm_compute in Hup; discriminate Hup |].
  exists r, e. eexists.
  split; [reflexivity |].
  split; [vm_compute in Hr; by injection Hr as <- |].
  split; [reflexivity |]. split; [reflexivity |].
  split; [| split; [| split]].
  - unfold process_json. cbn [historical_data JsonAgent.memory].
    rewrite Hr, Hup. reflexivity.
  - vm_compute in Hup. by injection Hup as <- _.
  - cbn [historical_data].
    change h' with (snd (Raise (A := unit) e, h')). rewrite <- Hup.
    rewrite update_historical_data_amounts, decide_True by reflexivity.
    vm_compute. reflexivity.
  - reflexivity.
Qed.

(** ** The action dispatcher *)

Section Dispatcher.
Import ActionRouter.
Context {HState : Type}.
Implicit Types (r : router HState) (w : world HState) (hd : handler HState).

Lemma get_memory_store_reachable (m : MemoryStore.t) :
  store_reachable m ->
  exists m', MemoryStore.get_memory_store m = (Ok tt, m') /\
             MemoryStore.is_connected m' = true.
Proof.
  intros Hm. unfold MemoryStore.get_memory_store, MemoryStore.connect.
  destruct (MemoryStore.is_connected m) eqn:Ec; [eauto |].
  destruct Hm as [Hm | ->]; [congruence | eauto].
Qed.

(** The [except] block returns the failed result whenever the store is
    reachable; clock, sleeps and handler calls are as it found them. *)
Lemma on_exception_returns action_id start_time req e w :
  store_reachable (memory w) ->
  exists w',
    on_exception action_id start_time req e w
    = (Ok {| action_id := action_id;
             res_action_type := action_type req;
             status := "failed";
             response_data := None;
             error_message := Some (exn_msg e);
             execution_time_ms := Some (elapsed_ms start_time w) |}, w') /\
    clock w' = clock w /\ sleeps w' = sleeps w /\ calls w' = calls w /\
    hstate w' = hstate w.
Proof.
  intros Hm. unfold on_exception.
  destruct (get_memory_store_reachable _ Hm) as (m' & -> & _).
  eexists. split; [reflexivity |]. by repeat split.
Qed.

(** One failed attempt of the retry loop: the handler is called, and the
    loop sleeps [retry_delay * (attempt + 1)] unless this was the last
    attempt. *)
Lemma retry_loop_failed_attempt r hd req remaining attempt last w e :
  outcome (hd req (hstate w)) = Raise e ->
  retry_loop r hd req (S remaining) attempt last w
  = retry_loop r hd req remaining (S attempt) (Some e)
      (let w1 := snd (call_handler hd req w) in
       if (attempt <? retry_attempts r - 1)%nat
       then sleep (retry_delay r * inject_Z (Z.of_nat (attempt + 1))) w1
       else w1).
Proof.
  intros He. cbn [retry_loop]. unfold call_handler at 1. by rewrite He.
Qed.

Lemma retry_loop_successful_attempt r hd req remaining attempt last w response :
  outcome (hd req (hstate w)) = Ok response ->
  retry_loop r hd req (S remaining) attempt last w
  = (Ok response, snd (call_handler hd req w)).
Proof.
  intros He. cbn [retry_loop]. unfold call_handler at 1. by rewrite He.
Qed.

Lemma uuid4_world w :
  clock (snd (uuid4 w)) = clock w /\ sleeps (snd (uuid4 w)) = sleeps w /\
  calls (snd (uuid4 w)) = calls w /\ hstate (snd (uuid4 w)) = hstate w /\
  memory (snd (uuid4 w)) = memory w.
Proof. unfold uuid4. by destruct (uuids w). Qed.

Lemma route_action_unfold r req w :
  route_action r req w =
  let action_id := fst (uuid4 w) in
  let w0 := snd (uuid4 w) in
  match action_handlers r (action_type req) with
  | None =>
      on_exception action_id (clock w0) req
        (Exn ValueError ("No handler found for action type: "
                         +:+ fmt_action_type r (action_type req))) w0
  | Some hd =>
      match _execute_with_retry r hd req w0 with
      | (Raise e, w1) => on_exception action_id (clock w0) req e w1
      | (Ok result, w1) =>
          match MemoryStore.get_memory_store (memory w1) with
          | (Raise e, m) =>
              on_exception action_id (clock w0) req e (set_memory m w1)
          | (Ok _, m) =>
              (Ok {| action_id := action_id;
                     res_action_type := action_type req;
                     status := "success";
                     response_data := Some result;
                     error_message := None;
                     execution_time_ms := Some (elapsed_ms (clock w0) w1) |},
               set_memory (snd (MemoryStore.increment_counter "actions_executed" m)) w1)
          end
      end
  end.
Proof. unfold route_action. by destruct (uuid4 w). Qed.





(** The retry loop does not touch the memory store. *)
Lemma retry_loop_memory r hd req remaining attempt last w :
  memory (snd (retry_loop r hd req remaining attempt last w)) = memory w.
Proof.
  revert attempt last w. induction remaining as [|remaining IH]; intros attempt last w.
  - cbn [retry_loop]. by destruct last.
  - cbn [retry_loop]. unfold call_handler at 1.
    destruct (outcome (hd req (hstate w))) as [response|e]; [reflexivity |].
    rewrite IH. by destruct (attempt <? retry_attempts r - 1)%nat.
Qed.

(** Where the hypothesis [store_reachable] of the three theorems above
    fails (the store was never connected, or was disconnected, and the server
    does not answer), [get_memory_store] raises inside the [except] block and
    [route_action] raises with it. *)
Lemma route_action_store_unreachable r req w :
  MemoryStore.is_connected (memory w) = false ->
  MemoryStore.redis_up (memory w) = false ->
  exists e w', route_action r req w = (Raise e, w') /\ exn_cls e = ConnectionError.
Proof.
  intros Hc Hu.
  assert (Hex : forall i t e w1,
             MemoryStore.is_connected (memory w1) = false ->
             MemoryStore.redis_up (memory w1) = false ->
             exists e' w', on_exception i t req e w1 = (Raise e', w') /\
                           exn_cls e' = ConnectionError).
  { intros i t e w1 Hc1 Hu1. unfold on_exception, MemoryStore.get_memory_store,
      MemoryStore.connect. rewrite Hc1, Hu1. eauto. }
  destruct (uuid4_world w) as (_ & _ & _ & _ & Hmem).
  rewrite route_action_unfold. cbv zeta.
  destruct (action_handlers r (action_type req)) as [hd|];
    [| apply Hex; by rewrite Hmem].
  unfold _execute_with_retry.
  pose proof (retry_loop_memory r hd req (retry_attempts r) 0 None (snd (uuid4 w)))
    as Hloop.
  destruct (retry_loop r hd req (retry_attempts r) 0 None (snd (uuid4 w)))
    as [[result|e] w1]; cbn [snd] in Hloop.
  - unfold MemoryStore.get_memory_store at 1, MemoryStore.connect.
    rewrite Hloop, Hmem, Hc, Hu. apply Hex; cbn [memory set_memory]; [reflexivity |].
    exact Hu.
  - apply Hex; by rewrite Hloop, Hmem.
Qed.

End Dispatcher.




(** ** Where the memory store cannot be reached

    The three theorems above take the store to be reachable.  On a store
    that was never connected, with a server that does not answer, the claims
    fail as they are stated: [route_action] raises. *)




(** * Further properties *)

Import Statistics Notions.

(** ** The retry loop for any number of attempts *)

Section RetryLoop.
Import ActionRouter.
Context {HState : Type}.
Implicit Types (r : router HState) (w : world HState) (hd : handler HState).

Lemma attempts_S hd req s n :
  attempts hd req s (S n) = hd req s :: attempts hd req (next_state (hd req s)) n.
Proof. reflexivity. Qed.

Lemma total_app (l1 l2 : list Q) : total (l1 ++ l2) == total l1 + total l2.
Proof. induction l1 as [|x l1 IH]; simpl; [lra | rewrite IH; lra]. Qed.

Lemma backoffs_S r first n :
  backoffs r first (S n) = (backoffs r (S first) n ++ [backoff r first])%list.
Proof. reflexivity. Qed.

(** Every attempt raises: the loop ends with [raise last_exception] after
    one call per remaining attempt, having waited after each but the
    last. *)
Lemma retry_loop_all_raise r hd req remaining : forall attempt last w,
  (attempt + remaining = retry_attempts r)%nat ->
  Forall raises (attempts hd req (hstate w) remaining) ->
  exists w',
    retry_loop r hd req remaining attempt last w
    = (match last_raised (attempts hd req (hstate w) remaining) last with
       | Some e => Raise e
       | None => Raise (Exn TypeError "exceptions must derive from BaseException")
       end, w') /\
    calls w' = (calls w + remaining)%nat /\
    sleeps w' = (backoffs r (S attempt) (remaining - 1) ++ sleeps w)%list /\
    clock w' == clock w + total (map duration (attempts hd req (hstate w) remaining))
                + total (backoffs r (S attempt) (remaining - 1)) /\
    memory w' = memory w.
Proof.
  induction remaining as [|remaining IH]; intros attempt last w Hn Hall.
  - exists w. cbn [retry_loop attempts last_raised fold_left].
    split; [by destruct last |]. repeat split; simpl; (lia || lra || auto).
  - rewrite attempts_S in *. inversion Hall as [|a l [e He] Hrest]; subst.
    rewrite (retry_loop_failed_attempt r hd req remaining attempt last w e He).
    cbv zeta.
    set (w1 := snd (call_handler hd req w)).
    set (w2 := if (attempt <? retry_attempts r - 1)%nat
               then sleep (retry_delay r * inject_Z (Z.of_nat (attempt + 1))) w1
               else w1).
    assert (Hh : hstate w2 = next_state (hd req (hstate w))).
    { unfold w2. by destruct (attempt <? retry_attempts r - 1)%nat. }
    destruct (IH (S attempt) (Some e) w2) as (w' & Hloop & Hc & Hs & Hk & Hm);
      [lia | by rewrite Hh |].
    rewrite Hh in Hloop, Hk. clear Hh.
    exists w'. rewrite Hloop.
    cbn [last_raised fold_left]. rewrite He.
    split; [reflexivity |].
    change (map duration (hd req (hstate w)
                          :: attempts hd req (next_state (hd req (hstate w))) remaining))
      with (duration (hd req (hstate w))
            :: map duration (attempts hd req (next_state (hd req (hstate w)))
                               remaining)).
    change (total (?x :: ?l)) with (x + total l).
    revert Hk.
    generalize (total (map duration (attempts hd req (next_state (hd req (hstate w)))
                                       remaining))).
    intros ds Hk.
    destruct remaining as [|remaining].
    + assert (Hlt : (attempt <? retry_attempts r - 1)%nat = false)
        by (apply Nat.ltb_ge; lia).
      unfold w2 in *. rewrite Hlt in *. unfold w1 in *.
      cbn [calls sleeps clock memory call_handler snd backoffs seq map rev app
           Nat.sub] in *.
      change (total []) with 0 in *.
      repeat split; [lia | exact Hs | lra | exact Hm].
    + assert (Hlt : (attempt <? retry_attempts r - 1)%nat = true)
        by (apply Nat.ltb_lt; lia).
      unfold w2 in *. rewrite Hlt in *. unfold w1 in *.
      cbn [calls sleeps clock memory sleep call_handler snd] in *.
      replace (S (S remaining) - 1)%nat with (S remaining) by lia.
      replace (S remaining - 1)%nat with remaining in * by lia.
      replace (attempt + 1)%nat with (S attempt) in * by lia.
      rewrite backoffs_S.
      repeat split.
      * lia.
      * rewrite Hs, <- app_assoc. reflexivity.
      * rewrite Hk, total_app. change (total [?x]) with (x + 0).
        unfold backoff. lra.
      * exact Hm.
Qed.

(** The first [k] attempts raise and the next one answers, with attempts to
    spare: the loop returns the answer after [k + 1] calls and [k] waits. *)
Lemma retry_loop_answer_after r hd req k : forall remaining attempt last w response,
  (attempt + remaining = retry_attempts r)%nat ->
  (k < remaining)%nat ->
  Forall raises (attempts hd req (hstate w) k) ->
  outcome (hd req (state_after hd req (hstate w) k)) = Ok response ->
  exists w',
    retry_loop r hd req remaining attempt last w = (Ok response, w') /\
    calls w' = (calls w + S k)%nat /\
    sleeps w' = (backoffs r (S attempt) k ++ sleeps w)%list /\
    clock w' == clock w + total (map duration (attempts hd req (hstate w) k))
                + duration (hd req (state_after hd req (hstate w) k))
                + total (backoffs r (S attempt) k) /\
    memory w' = memory w.
Proof.
  induction k as [|k IH]; intros remaining attempt last w response Hn Hk Hall Hok;
    (destruct remaining as [|remaining]; [lia |]).
  - cbn [state_after] in Hok.
    rewrite (retry_loop_successful_attempt r hd req remaining attempt last w response Hok).
    eexists. split; [reflexivity |].
    cbn [calls sleeps clock memory call_handler snd attempts map state_after].
    change (backoffs r (S attempt) 0) with (@nil Q). change (total []) with 0.
    repeat split; [lia | lra].
  - rewrite attempts_S in Hall. inversion Hall as [|a l [e He] Hrest]; subst.
    cbn [state_after] in Hok.
    rewrite (retry_loop_failed_attempt r hd req remaining attempt last w e He).
    cbv zeta.
    assert (Hlt : (attempt <? retry_attempts r - 1)%nat = true)
      by (apply Nat.ltb_lt; lia).
    rewrite Hlt.
    set (w2 := sleep (retry_delay r * inject_Z (Z.of_nat (attempt + 1)))
                 (snd (call_handler hd req w))).
    assert (Hh : hstate w2 = next_state (hd req (hstate w))) by reflexivity.
    destruct (IH remaining (S attempt) (Some e) w2 response)
      as (w' & Hloop & Hc & Hs & Hclock & Hm); [lia | lia | by rewrite Hh | by rewrite Hh |].
    rewrite Hh in Hclock. clear Hh.
    exists w'. split; [exact Hloop |].
    unfold w2 in *. cbn [calls sleeps clock memory sleep call_handler snd] in *.
    replace (attempt + 1)%nat with (S attempt) in * by lia.
    rewrite attempts_S. cbn [state_after]. rewrite backoffs_S.
    change (map duration (hd req (hstate w)
                          :: attempts hd req (next_state (hd req (hstate w))) k))
      with (duration (hd req (hstate w))
            :: map duration (attempts hd req (next_state (hd req (hstate w))) k)).
    change (total (?x :: ?l)) with (x + total l).
    repeat split.
    + lia.
    + rewrite Hs, <- app_assoc. reflexivity.
    + rewrite Hclock, total_app. change (total [?x]) with (x + 0).
      unfold backoff. lra.
    + exact Hm.
Qed.

(** After attempts that all raise, [last_exception] is the exception of the
    last of them. *)
Lemma last_raised_last hd req k : forall s last e,
  Forall raises (attempts hd req s k) ->
  outcome (hd req (state_after hd req s k)) = Raise e ->
  last_raised (attempts hd req s (S k)) last = Some e.
Proof.
  induction k as [|k IH]; intros s last e Hall He.
  - cbn [attempts last_raised fold_left state_after] in *. by rewrite He.
  - rewrite attempts_S in Hall. inversion Hall as [|a l [e0 He0] Hrest]; subst.
    rewrite attempts_S. cbn [last_raised fold_left]. rewrite He0.
    apply (IH _ (Some e0) e Hrest He).
Qed.

Lemma Forall_raises_S hd req s k :
  Forall raises (attempts hd req s (S k)) ->
  Forall raises (attempts hd req s k) /\
  exists e, outcome (hd req (state_after hd req s k)) = Raise e.
Proof.
  revert s. induction k as [|k IH]; intros s Hall.
  - rewrite attempts_S in Hall. inversion Hall as [|a l Ha _]; subst.
    split; [constructor | exact Ha].
  - rewrite attempts_S in Hall. inversion Hall as [|a l Ha Hrest]; subst.
    destruct (IH _ Hrest) as [Hfirst Hlast].
    split; [rewrite attempts_S; by constructor | exact Hlast].
Qed.

(** The waits after the failed attempts number [first], ..., [first + n - 1]
    add up to [retry_delay * (n * first + n * (n - 1) / 2)]. *)
Lemma total_backoffs r n : forall first,
  total (backoffs r first n)
  == retry_delay r * (inject_Z (Z.of_nat n) * inject_Z (Z.of_nat first)
                      + inject_Z (Z.of_nat n) * (inject_Z (Z.of_nat n) - 1) / 2).
Proof.
  induction n as [|n IH]; intros first.
  - change (total (backoffs r first 0)) with 0. simpl. field.
  - rewrite backoffs_S, total_app, IH. change (total [?x]) with (x + 0).
    unfold backoff.
    rewrite !Nat2Z.inj_succ, <- !Z.add_1_r, !inject_Z_plus.
    change (inject_Z 1) with 1. field.
Qed.

End RetryLoop.

(** ** The dispatcher for any handler and any number of attempts *)

Section DispatcherGeneral.
Import ActionRouter.
Context {HState : Type}.
Implicit Types (r : router HState) (w : world HState) (hd : handler HState).

Lemma get_memory_store_reachable_keeps (m : MemoryStore.t) :
  store_reachable m ->
  exists m', MemoryStore.get_memory_store m = (Ok tt, m') /\
             MemoryStore.is_connected m' = true /\
             MemoryStore.redis_up m' = MemoryStore.redis_up m /\
             MemoryStore.counters m' = MemoryStore.counters m.
Proof.
  intros Hm. unfold MemoryStore.get_memory_store, MemoryStore.connect.
  destruct (MemoryStore.is_connected m) eqn:Ec; [eauto 6 |].
  destruct Hm as [Hm | Hu]; [congruence |]. rewrite Hu. eauto 6.
Qed.

Lemma route_action_exhausts_retries_aux r req w hd n :
  retry_attempts r = S n ->
  action_handlers r (action_type req) = Some hd ->
  Forall raises (attempts hd req (hstate w) (S n)) ->
  store_reachable (memory w) ->
  exists res w' e t,
    route_action r req w = (Ok res, w') /\
    outcome (hd req (state_after hd req (hstate w) n)) = Raise e /\
    status res = "failed" /\
    error_message res = Some (exn_msg e) /\
    response_data res = None /\
    calls w' = (calls w + S n)%nat /\
    sleeps w' = (backoffs r 1 n ++ sleeps w)%list /\
    execution_time_ms res = Some t /\
    t == (total (map duration (attempts hd req (hstate w) (S n)))
          + retry_delay r * (inject_Z (Z.of_nat n) * (inject_Z (Z.of_nat n) + 1) / 2))
         * 1000.
Proof.
  intros Hn Hhd Hall Hm.
  destruct (uuid4_world w) as (Hc & Hs & Hk & Hh & Hmem).
  rewrite route_action_unfold. cbv zeta. rewrite Hhd.
  unfold _execute_with_retry. rewrite Hn. rewrite <- Hh in Hall.
  destruct (retry_loop_all_raise r hd req (S n) 0 None (snd (uuid4 w)))
    as (w1 & Hloop & Hc1 & Hs1 & Hk1 & Hm1); [lia | exact Hall |].
  destruct (Forall_raises_S hd req _ n Hall) as [Hfirst [e He]].
  rewrite (last_raised_last hd req n _ None e Hfirst He) in Hloop.
  rewrite Hloop.
  destruct (on_exception_returns (fst (uuid4 w)) (clock (snd (uuid4 w))) req e w1)
    as (w' & -> & _ & Hs' & Hk' & _); [by rewrite Hm1, Hmem |].
  do 2 eexists. exists e. eexists. split; [reflexivity |].
  cbn [status error_message response_data execution_time_ms].
  rewrite Hh in He.
  repeat split; try done.
  - rewrite Hk', Hc1. lia.
  - rewrite Hs', Hs1. replace (S n - 1)%nat with n by lia. by rewrite Hs.
  - unfold elapsed_ms. rewrite Hk1. replace (S n - 1)%nat with n by lia.
    rewrite total_backoffs, Hh. change (inject_Z (Z.of_nat 1)) with 1. field.
Qed.

(** X1.  When each of the [retry_attempts >= 1] attempts raises,
    [route_action] returns one failed result with the message of the last
    attempt, after one call per attempt and a wait after each attempt but the
    last; the waits add up to [retry_delay * n * (n + 1) / 2] for [n + 1]
    attempts, and [execution_time_ms] is the time of the attempts and the
    waits. *)
Theorem route_action_exhausts_retries r req w hd n :
  retry_attempts r = S n ->
  action_handlers r (action_type req) = Some hd ->
  Forall raises (attempts hd req (hstate w) (S n)) ->
  store_reachable (memory w) ->
  exists res w' e t,
    route_action r req w = (Ok res, w') /\
    outcome (hd req (state_after hd req (hstate w) n)) = Raise e /\
    status res = "failed" /\
    error_message res = Some (exn_msg e) /\
    response_data res = None /\
    calls w' = (calls w + S n)%nat /\
    sleeps w' = (backoffs r 1 n ++ sleeps w)%list /\
    execution_time_ms res = Some t /\
    t == (total (map duration (attempts hd req (hstate w) (S n)))
          + retry_delay r * (inject_Z (Z.of_nat n) * (inject_Z (Z.of_nat n) + 1) / 2))
         * 1000.
Proof. apply route_action_exhausts_retries_aux. Qed.

(** X2.  When the first [k] attempts raise and the next one answers, with
    [k] below [retry_attempts], [route_action] returns one success result with
    that answer after [k + 1] calls and [k] waits (none when the first attempt
    answers); [execution_time_ms] is the time of these attempts and waits. *)
Theorem route_action_answers_after_failures r req w hd k response :
  (k < retry_attempts r)%nat ->
  action_handlers r (action_type req) = Some hd ->
  Forall raises (attempts hd req (hstate w) k) ->
  outcome (hd req (state_after hd req (hstate w) k)) = Ok response ->
  store_reachable (memory w) ->
  exists res w' t,
    route_action r req w = (Ok res, w') /\
    status res = "success" /\
    response_data res = Some response /\
    error_message res = None /\
    calls w' = (calls w + S k)%nat /\
    sleeps w' = (backoffs r 1 k ++ sleeps w)%list /\
    execution_time_ms res = Some t /\
    t == (total (map duration (attempts hd req (hstate w) k))
          + duration (hd req (state_after hd req (hstate w) k))
          + total (backoffs r 1 k)) * 1000.
Proof.
  intros Hk Hhd Hall Hok Hm.
  destruct (uuid4_world w) as (Hc & Hs & Hcalls & Hh & Hmem).
  rewrite route_action_unfold. cbv zeta. rewrite Hhd.
  unfold _execute_with_retry. rewrite <- Hh in Hall, Hok.
  destruct (retry_loop_answer_after r hd req k (retry_attempts r) 0 None
              (snd (uuid4 w)) response)
    as (w1 & Hloop & Hc1 & Hs1 & Hk1 & Hm1); [lia | exact Hk | exact Hall | exact Hok |].
  rewrite Hloop.
  destruct (get_memory_store_reachable_keeps (memory w1)) as (m' & -> & _);
    [by rewrite Hm1, Hmem |].
  do 3 eexists. split; [reflexivity |].
  cbn [status error_message response_data execution_time_ms calls sleeps set_memory].
  repeat split.
  - rewrite Hc1. lia.
  - by rewrite Hs1, Hs.
  - unfold elapsed_ms. rewrite Hk1, Hh. ring.
Qed.

(** X3.  A router configured with [retry_attempts = 0] never calls the
    handler: the loop body is skipped, [raise last_exception] raises
    [TypeError] for [None], and [route_action] returns a failed result with
    that message. *)
Theorem route_action_zero_attempts r req w hd :
  retry_attempts r = 0%nat ->
  action_handlers r (action_type req) = Some hd ->
  store_reachable (memory w) ->
  exists res w',
    route_action r req w = (Ok res, w') /\
    status res = "failed" /\
    error_message res = Some "exceptions must derive from BaseException" /\
    calls w' = calls w /\ sleeps w' = sleeps w /\ hstate w' = hstate w.
Proof.
  intros Hn Hhd Hm.
  destruct (uuid4_world w) as (Hc & Hs & Hk & Hh & Hmem).
  rewrite route_action_unfold. cbv zeta. rewrite Hhd.
  unfold _execute_with_retry. rewrite Hn. cbn [retry_loop].
  destruct (on_exception_returns (fst (uuid4 w)) (clock (snd (uuid4 w))) req
              (Exn TypeError "exceptions must derive from BaseException")
              (snd (uuid4 w)))
    as (w' & -> & _ & Hs' & Hk' & Hh'); [by rewrite Hmem |].
  do 2 eexists. split; [reflexivity |].
  cbn [status error_message exn_msg]. repeat split; congruence.
Qed.

End DispatcherGeneral.

Lemma route_action_exhausts_retries_witness :
  exists res w',
    ActionRouter.route_action (MoreExamples.router_trying 5 Examples.always_fails)
      (Examples.request ESCALATE) Examples.world0 = (Ok res, w') /\
    error_message res = Some "upstream error 4" /\
    ActionRouter.calls w' = 5%nat /\
    ActionRouter.sleeps w' = [0.5 * 4; 0.5 * 3; 0.5 * 2; 0.5 * 1] /\
    exists t, execution_time_ms res = Some t /\ t == 5500.
Proof.
  destruct (route_action_exhausts_retries
              (MoreExamples.router_trying 5 Examples.always_fails)
              (Examples.request ESCALATE) Examples.world0 Examples.always_fails 4
              eq_refl eq_refl)
    as (res & w' & e & t & Hroute & He & _ & Herr & _ & Hcalls & Hsleeps & Ht & Hsum).
  - repeat constructor; eexists; reflexivity.
  - by left.
  - exists res, w'. split; [exact Hroute |].
    cbn in He. injection He as <-.
    split; [exact Herr |]. split; [exact Hcalls |]. split; [exact Hsleeps |].
    exists t. split; [exact Ht |]. rewrite Hsum. reflexivity.
Defined.

Lemma route_action_answers_after_failures_witness :
  exists res w',
    ActionRouter.route_action (MoreExamples.router_trying 5 MoreExamples.answers)
      (Examples.request ESCALATE) Examples.world0 = (Ok res, w') /\
    status res = "success" /\
    ActionRouter.calls w' = 1%nat /\ ActionRouter.sleeps w' = [] /\
    exists t, execution_time_ms res = Some t /\ t == 100.
Proof.
  destruct (route_action_answers_after_failures
              (MoreExamples.router_trying 5 MoreExamples.answers)
              (Examples.request ESCALATE) Examples.world0 MoreExamples.answers 0
              [("status_code", VInt 201)])
    as (res & w' & t & Hroute & Hstatus & _ & _ & Hcalls & Hsleeps & Ht & Hsum).
  - cbn. lia.
  - reflexivity.
  - constructor.
  - reflexivity.
  - by left.
  - exists res, w'. split; [exact Hroute |]. split; [exact Hstatus |].
    split; [exact Hcalls |]. split; [exact Hsleeps |].
    exists t. split; [exact Ht |]. rewrite Hsum. reflexivity.
Defined.

Lemma route_action_zero_attempts_witness :
  exists res w',
    ActionRouter.route_action (MoreExamples.router_trying 0 MoreExamples.answers)
      (Examples.request ESCALATE) Examples.world0 = (Ok res, w') /\
    status res = "failed" /\ ActionRouter.calls w' = 0%nat.
Proof.
  destruct (route_action_zero_attempts
              (MoreExamples.router_trying 0 MoreExamples.answers)
              (Examples.request ESCALATE) Examples.world0 MoreExamples.answers
              eq_refl eq_refl (or_introl eq_refl))
    as (res & w' & Hroute & Hstatus & _ & Hcalls & _).
  exists res, w'. split; [exact Hroute |]. split; [exact Hstatus | exact Hcalls].
Defined.

(** ** Counters *)

Lemma is_connected_client ms :
  MemoryStore.is_connected ms = true -> MemoryStore.client ms = MemoryStore.Connected.
Proof. unfold MemoryStore.is_connected. by destruct (MemoryStore.client ms). Qed.

(** Through a client, while the server answers, [get_counter] reads the
    value the server holds. *)
Lemma get_counter_client name ms :
  MemoryStore.client ms <> MemoryStore.NoClient ->
  MemoryStore.redis_up ms = true ->
  get_counter name ms = stored name ms.
Proof.
  intros Hcl Hup. unfold get_counter, MemoryStore.command, stored.
  destruct (MemoryStore.client ms); [done | |]; by rewrite Hup.
Qed.

Lemma increment_counter_up name ms :
  MemoryStore.client ms <> MemoryStore.NoClient ->
  MemoryStore.redis_up ms = true ->
  fst (MemoryStore.increment_counter name ms) = (stored name ms + 1)%Z /\
  MemoryStore.client (snd (MemoryStore.increment_counter name ms))
  = MemoryStore.client ms /\
  MemoryStore.redis_up (snd (MemoryStore.increment_counter name ms)) = true /\
  forall other,
    stored other (snd (MemoryStore.increment_counter name ms))
    = (stored other ms + if decide (other = name) then 1 else 0)%Z.
Proof.
  intros Hcl Hup. unfold MemoryStore.increment_counter, MemoryStore.command, stored.
  destruct (MemoryStore.client ms) eqn:E; [done | |]; rewrite Hup;
    cbn [fst snd MemoryStore.client MemoryStore.redis_up MemoryStore.counters];
    (split; [reflexivity |]); (split; [reflexivity |]); (split; [reflexivity |]);
    intros other; (destruct (decide (other = name)) as [->|Hne];
      [by rewrite lookup_insert_eq | rewrite lookup_insert_ne by done; lia]).
Qed.

(** Without a client [increment_counter] returns 0 and records nothing,
    and [get_counter] reads 0, whether or not the server answers: the
    [AttributeError] on [None] is swallowed. *)
Lemma increment_counter_no_client name ms :
  MemoryStore.client ms = MemoryStore.NoClient ->
  MemoryStore.increment_counter name ms = (0%Z, ms) /\
  forall other, get_counter other ms = 0%Z.
Proof.
  intros Hcl. unfold MemoryStore.increment_counter, get_counter, MemoryStore.command.
  by rewrite Hcl.
Qed.

(** X6.  On a store that has a client, while the server answers, [n]
    calls of [increment_counter] raise the value [get_counter] reads by [n]
    and leave every other counter as it was; a counter never incremented
    reads 0.  On a store that was never connected the client is [None]: each
    call swallows the [AttributeError], returns 0 and counts nothing, although
    the server answers, and [get_counter] reads 0 for every counter. *)
Theorem increment_counter_n_times name n ms :
  MemoryStore.redis_up ms = true ->
  let ms' := Nat.iter n (fun m => snd (MemoryStore.increment_counter name m)) ms in
  (MemoryStore.client ms <> MemoryStore.NoClient ->
   get_counter name ms' = (get_counter name ms + Z.of_nat n)%Z /\
   (forall other, other <> name -> get_counter other ms' = get_counter other ms) /\
   (MemoryStore.counters ms !! name = None -> get_counter name ms' = Z.of_nat n)) /\
  (MemoryStore.client ms = MemoryStore.NoClient ->
   ms' = ms /\
   fst (MemoryStore.increment_counter name ms) = 0%Z /\
   forall other, get_counter other ms' = 0%Z).
Proof.
  intros Hup ms'. split.
  - intros Hcl.
    assert (H : MemoryStore.client ms' = MemoryStore.client ms /\
                MemoryStore.redis_up ms' = true /\
                forall other, stored other ms'
                  = (stored other ms
                     + if decide (other = name) then Z.of_nat n else 0)%Z).
    { unfold ms'. clear ms'. induction n as [|n (IHcl & IHup & IH)].
      - split; [reflexivity |]. split; [exact Hup |]. intros other. simpl.
        destruct (decide _); lia.
      - rewrite Nat.iter_succ.
        destruct (increment_counter_up name _ ltac:(by rewrite IHcl) IHup)
          as (_ & Hcl' & Hup' & Hget).
        split; [by rewrite Hcl' |]. split; [exact Hup' |].
        intros other. rewrite Hget, IH. destruct (decide (other = name)); lia. }
    destruct H as (Hcl' & Hup' & H).
    assert (Hread : forall other, get_counter other ms' = stored other ms')
      by (intros other; apply get_counter_client; [by rewrite Hcl' | exact Hup']).
    assert (Hread0 : forall other, get_counter other ms = stored other ms)
      by (intros other; by apply get_counter_client).
    repeat split.
    + rewrite Hread, Hread0, H. by rewrite decide_True.
    + intros other Hne. rewrite Hread, Hread0, H. rewrite decide_False by done. lia.
    + intros Hnone. rewrite Hread, H, decide_True by done.
      unfold stored. rewrite Hnone. simpl. lia.
  - intros Hcl.
    destruct (increment_counter_no_client name ms Hcl) as [Hinc Hget].
    assert (Hsame : ms' = ms).
    { unfold ms'. clear ms'. induction n as [|n IH]; [reflexivity |].
      rewrite Nat.iter_succ, IH. by rewrite Hinc. }
    rewrite Hsame, Hinc. repeat split. exact Hget.
Qed.

Lemma increment_counter_n_times_witness :
  get_counter "json_processed"
    (Nat.iter 3 (fun m => snd (MemoryStore.increment_counter "json_processed" m))
       Examples.connected) = 3%Z /\
  Nat.iter 3 (fun m => snd (MemoryStore.increment_counter "json_processed" m))
    MoreExamples.never_connected = MoreExamples.never_connected.
Proof.
  split.
  - destruct (increment_counter_n_times "json_processed" 3 Examples.connected eq_refl)
      as [H _].
    destruct (H ltac:(discriminate)) as (_ & _ & H3). apply H3. reflexivity.
  - destruct (increment_counter_n_times "json_processed" 3
                MoreExamples.never_connected eq_refl) as [_ H].
    exact (proj1 (H eq_refl)).
Defined.

(** While the server does not answer, [increment_counter] returns 0 and
    records nothing: the update is lost, and [get_counter] reads 0. *)
Lemma increment_counter_server_down name ms :
  MemoryStore.redis_up ms = false ->
  MemoryStore.increment_counter name ms = (0%Z, ms) /\
  forall other, get_counter other ms = 0%Z.
Proof.
  intros Hdown. unfold MemoryStore.increment_counter, get_counter, MemoryStore.command.
  destruct (MemoryStore.client ms); by rewrite ?Hdown.
Qed.

(** ** What the dispatcher counts *)

Section DispatcherCounts.
Import ActionRouter.
Context {HState : Type}.
Implicit Types (r : router HState) (w : world HState) (hd : handler HState).

Lemma on_exception_counts action_id start_time req e w :
  store_reachable (memory w) ->
  exists res w',
    on_exception action_id start_time req e w = (Ok res, w') /\
    status res = "failed" /\
    MemoryStore.is_connected (memory w') = true /\
    MemoryStore.redis_up (memory w') = MemoryStore.redis_up (memory w) /\
    (MemoryStore.redis_up (memory w) = true ->
     forall name, stored name (memory w')
                  = (stored name (memory w)
                     + if decide (name = "actions_failed") then 1 else 0)%Z) /\
    (MemoryStore.redis_up (memory w) = false ->
     MemoryStore.counters (memory w') = MemoryStore.counters (memory w)).
Proof.
  intros Hm. unfold on_exception.
  destruct (get_memory_store_reachable_keeps _ Hm) as (m' & -> & Hc & Hu & Hk).
  do 2 eexists. split; [reflexivity |]. cbn [status memory set_memory].
  split; [reflexivity |].
  pose proof (is_connected_client m' Hc) as Hcl.
  destruct (MemoryStore.redis_up m') eqn:Hup.
  - destruct (increment_counter_up "actions_failed" m') as (_ & Hc' & Hu' & Hget);
      [by rewrite Hcl | exact Hup |].
    unfold MemoryStore.is_connected. rewrite Hc', Hcl, Hu', <- Hu.
    repeat split; try done.
    intros _ name. rewrite Hget. unfold stored. by rewrite Hk.
  - destruct (increment_counter_server_down "actions_failed" m' Hup) as [-> _].
    cbn [snd]. rewrite Hc, Hup, <- Hu. repeat split; try done.
Qed.

Lemma route_action_returns_and_counts_aux r req w :
  store_reachable (memory w) ->
  exists res w',
    route_action r req w = (Ok res, w') /\
    (status res = "success" \/ status res = "failed") /\
    MemoryStore.is_connected (memory w') = true /\
    MemoryStore.redis_up (memory w') = MemoryStore.redis_up (memory w) /\
    (MemoryStore.redis_up (memory w) = true ->
     forall name, stored name (memory w')
                  = (stored name (memory w)
                     + if decide (name = counted_under res) then 1 else 0)%Z) /\
    (MemoryStore.redis_up (memory w) = false ->
     MemoryStore.counters (memory w') = MemoryStore.counters (memory w)).
Proof.
  intros Hm.
  destruct (uuid4_world w) as (_ & _ & _ & _ & Hmem).
  rewrite route_action_unfold. cbv zeta.
  assert (Hfail : forall i t e w1, memory w1 = memory w ->
    exists res w',
      on_exception i t req e w1 = (Ok res, w') /\
      (status res = "success" \/ status res = "failed") /\
      MemoryStore.is_connected (memory w') = true /\
      MemoryStore.redis_up (memory w') = MemoryStore.redis_up (memory w) /\
      (MemoryStore.redis_up (memory w) = true ->
       forall name, stored name (memory w')
                    = (stored name (memory w)
                       + if decide (name = counted_under res) then 1 else 0)%Z) /\
      (MemoryStore.redis_up (memory w) = false ->
       MemoryStore.counters (memory w') = MemoryStore.counters (memory w))).
  { intros i t e w1 Hw1.
    destruct (on_exception_counts i t req e w1) as (res & w' & -> & Hst & H);
      [by rewrite Hw1 |].
    rewrite Hw1 in H. exists res, w'. split; [reflexivity |].
    split; [by right |].
    unfold counted_under, succeeded. rewrite Hst. exact H. }
  destruct (action_handlers r (action_type req)) as [hd|]; [| by apply Hfail].
  unfold _execute_with_retry.
  pose proof (retry_loop_memory r hd req (retry_attempts r) 0 None (snd (uuid4 w)))
    as Hloop.
  destruct (retry_loop r hd req (retry_attempts r) 0 None (snd (uuid4 w)))
    as [[result|e] w1]; cbn [snd] in Hloop; [| apply Hfail; congruence].
  rewrite Hmem in Hloop.
  destruct (get_memory_store_reachable_keeps (memory w1)) as (m' & -> & Hc & Hu & Hk);
    [by rewrite Hloop |].
  rewrite Hloop in Hu, Hk.
  do 2 eexists. split; [reflexivity |]. cbn [status memory set_memory].
  split; [by left |].
  unfold counted_under, succeeded. cbn [status String.eqb Ascii.eqb Bool.eqb].
  pose proof (is_connected_client m' Hc) as Hcl.
  destruct (MemoryStore.redis_up m') eqn:Hup.
  - destruct (increment_counter_up "actions_executed" m') as (_ & Hc' & Hu' & Hget);
      [by rewrite Hcl | exact Hup |].
    unfold MemoryStore.is_connected. rewrite Hc', Hcl, Hu', <- Hu.
    repeat split; try done.
    intros _ name. rewrite Hget. unfold stored. by rewrite Hk.
  - destruct (increment_counter_server_down "actions_executed" m' Hup) as [-> _].
    cbn [snd]. rewrite Hc, Hup, <- Hu. repeat split; try done.
Qed.

(** [route_action] writes no entry. *)
Lemma route_action_entries r req w :
  MemoryStore.entries (memory (snd (route_action r req w)))
  = MemoryStore.entries (memory w).
Proof.
  assert (Hgms : forall m,
             MemoryStore.entries (snd (MemoryStore.get_memory_store m))
             = MemoryStore.entries m).
  { intros m. unfold MemoryStore.get_memory_store, MemoryStore.connect.
    destruct (MemoryStore.is_connected m); [reflexivity |].
    by destruct (MemoryStore.redis_up m). }
  assert (Hinc : forall name m,
             MemoryStore.entries (snd (MemoryStore.increment_counter name m))
             = MemoryStore.entries m).
  { intros name m. unfold MemoryStore.increment_counter, MemoryStore.command.
    destruct (MemoryStore.client m); [reflexivity | |];
      by destruct (MemoryStore.redis_up m). }
  assert (Hex : forall i t e w1,
             MemoryStore.entries (memory (snd (on_exception i t req e w1)))
             = MemoryStore.entries (memory w1)).
  { intros i t e w1. unfold on_exception.
    pose proof (Hgms (memory w1)) as H.
    destruct (MemoryStore.get_memory_store (memory w1)) as [[[]|e'] m];
      cbn [snd memory set_memory] in *; [| exact H].
    by rewrite Hinc. }
  destruct (uuid4_world w) as (_ & _ & _ & _ & Hmem).
  rewrite route_action_unfold. cbv zeta.
  destruct (action_handlers r (action_type req)) as [hd|];
    [| by rewrite Hex, Hmem].
  unfold _execute_with_retry.
  pose proof (retry_loop_memory r hd req (retry_attempts r) 0 None (snd (uuid4 w)))
    as Hloop.
  destruct (retry_loop r hd req (retry_attempts r) 0 None (snd (uuid4 w)))
    as [[result|e] w1]; cbn [snd] in Hloop; [| by rewrite Hex, Hloop, Hmem].
  pose proof (Hgms (memory w1)) as H.
  destruct (MemoryStore.get_memory_store (memory w1)) as [[[]|e'] m];
    cbn [snd memory set_memory] in *.
  - by rewrite Hinc, H, Hloop, Hmem.
  - rewrite Hex. cbn [memory set_memory]. by rewrite H, Hloop, Hmem.
Qed.

(** X4.  With the memory store reachable, [route_action] returns a result
    for every request, every handler table and every retry count; its status
    is "success" or "failed"; and while the server answers exactly one counter
    moves, by one: [actions_executed] for a success, [actions_failed] for a
    failure ([get_counter] afterwards reads what the server held before, plus
    one for that counter).  While the server does not answer nothing is
    counted. *)
Theorem route_action_returns_and_counts r req w :
  store_reachable (memory w) ->
  exists res w',
    route_action r req w = (Ok res, w') /\
    (status res = "success" \/ status res = "failed") /\
    MemoryStore.is_connected (memory w') = true /\
    MemoryStore.redis_up (memory w') = MemoryStore.redis_up (memory w) /\
    (MemoryStore.redis_up (memory w) = true ->
     forall name, get_counter name (memory w')
                  = (stored name (memory w)
                     + if decide (name = counted_under res) then 1 else 0)%Z) /\
    (MemoryStore.redis_up (memory w) = false ->
     MemoryStore.counters (memory w') = MemoryStore.counters (memory w)).
Proof.
  intros Hm.
  destruct (route_action_returns_and_counts_aux r req w Hm)
    as (res & w' & Hroute & Hst & Hc & Hu & Hget & Hdown).
  exists res, w'. repeat split; try done.
  intros Hup name. rewrite <- (Hget Hup name).
  apply get_counter_client; [by rewrite (is_connected_client _ Hc) | by rewrite Hu].
Qed.

Lemma route_all_counts r reqs : forall w,
  store_reachable (memory w) ->
  MemoryStore.redis_up (memory w) = true ->
  exists results w',
    route_all r reqs w = (Ok results, w') /\
    length results = length reqs /\
    store_reachable (memory w') /\
    MemoryStore.redis_up (memory w') = true /\
    forall name,
      stored name (memory w')
      = (stored name (memory w)
         + (if decide (name = "actions_executed") then successes results else 0)
         + (if decide (name = "actions_failed") then failures results else 0))%Z.
Proof.
  induction reqs as [|req reqs IH]; intros w Hm Hup.
  - exists [], w. cbn [route_all]. repeat split; try done.
    intros name. unfold successes, failures. simpl.
    repeat destruct (decide _); lia.
  - destruct (route_action_returns_and_counts_aux r req w Hm)
      as (res & w1 & Hroute & Hst & Hc1 & Hu1 & Hget1 & _).
    rewrite Hup in Hu1. specialize (Hget1 Hup).
    destruct (IH w1 (or_introl Hc1) Hu1) as (results & w' & Hall & Hlen & Hm' & Hu' & Hget).
    exists (res :: results), w'. cbn [route_all]. rewrite Hroute, Hall.
    repeat split; try done.
    + simpl. by rewrite Hlen.
    + intros name. rewrite Hget, Hget1.
      unfold successes, failures, counted_under. cbn [List.filter].
      destruct Hst as [Hst | Hst]; unfold succeeded; rewrite Hst;
        cbn [String.eqb Ascii.eqb Bool.eqb negb andb length];
        repeat destruct (decide _); subst; try discriminate; lia.
Qed.

(** X5.  After routing a list of requests one after the other, on a store
    that is reachable, answers, and held neither counter before,
    [get_action_statistics] reports as [total_actions_executed] the number of
    results that succeeded and as [total_actions_failed] the number that
    failed; [success_rate] is [(succeeded - failed) / succeeded * 100], so 0
    when nothing succeeded, 100 only without any failure, and negative when
    the failures outnumber the successes; and the count per action type is
    what the server held before, since no call of [route_action] increments a
    counter [action_type_<type>]. *)
Theorem action_statistics_after_routing r reqs w :
  store_reachable (memory w) ->
  MemoryStore.redis_up (memory w) = true ->
  MemoryStore.counters (memory w) !! "actions_executed" = None ->
  MemoryStore.counters (memory w) !! "actions_failed" = None ->
  exists results w' st m,
    route_all r reqs w = (Ok results, w') /\
    length results = length reqs /\
    get_action_statistics (memory w') = (Ok st, m) /\
    total_actions_executed st = successes results /\
    total_actions_failed st = failures results /\
    (successes results = 0%Z -> success_rate st == 0) /\
    ((0 < successes results)%Z ->
     success_rate st
     == inject_Z (successes results - failures results)
        / inject_Z (successes results) * 100) /\
    ((0 < successes results < failures results)%Z -> success_rate st < 0) /\
    by_action_type st
    = map (fun t => (action_type_value t,
                     stored ("action_type_" +:+ action_type_value t) (memory w)))
          action_types.
Proof.
  intros Hm Hup He Hf.
  destruct (route_all_counts r reqs w Hm Hup)
    as (results & w' & Hall & Hlen & Hm' & Hu' & Hget).
  destruct (get_memory_store_reachable_keeps _ Hm') as (m & Hgms & Hc & Hu & Hk).
  assert (Hsame : forall name, get_counter name m = stored name (memory w')).
  { intros name. rewrite get_counter_client.
    - unfold stored. by rewrite Hk.
    - by rewrite (is_connected_client _ Hc).
    - by rewrite Hu. }
  assert (Hexec : get_counter "actions_executed" m = successes results).
  { rewrite Hsame, Hget. unfold stored at 1. rewrite He.
    repeat case_decide; try done; simpl; lia. }
  assert (Hfail : get_counter "actions_failed" m = failures results).
  { rewrite Hsame, Hget. unfold stored at 1. rewrite Hf.
    repeat case_decide; try done; simpl; lia. }
  exists results, w'. eexists. exists m.
  split; [exact Hall |]. split; [exact Hlen |].
  unfold get_action_statistics. rewrite Hgms. cbv zeta. rewrite Hexec, Hfail.
  split; [reflexivity |].
  cbn [total_actions_executed total_actions_failed success_rate by_action_type].
  assert (Hsnn : (0 <= successes results)%Z) by (unfold successes; lia).
  repeat split.
  - intros ->. reflexivity.
  - intros Hpos. apply Z.ltb_lt in Hpos. by rewrite Hpos.
  - intros [Hpos Hlt]. pose proof Hpos as Hpos'. apply Z.ltb_lt in Hpos'.
    rewrite Hpos'.
    assert (H1 : 0 < inject_Z (successes results)).
    { change 0 with (inject_Z 0). by rewrite <- Zlt_Qlt. }
    assert (H2 : inject_Z (successes results - failures results) < 0).
    { change 0 with (inject_Z 0). rewrite <- Zlt_Qlt. lia. }
    assert (H3 : inject_Z (successes results - failures results)
                 / inject_Z (successes results) < 0).
    { apply Qlt_shift_div_r; [exact H1 | lra]. }
    lra.
  - apply map_ext. intros t. f_equal. rewrite Hsame, Hget.
    rewrite decide_False by (destruct t; discriminate).
    rewrite decide_False by (destruct t; discriminate). lia.
Qed.

End DispatcherCounts.

Lemma route_action_returns_and_counts_witness :
  exists res w',
    ActionRouter.route_action (Examples.router_with MoreExamples.answers)
      (Examples.request ESCALATE) Examples.world0 = (Ok res, w') /\
    status res = "success" /\
    get_counter "actions_executed" (ActionRouter.memory w') = 1%Z /\
    get_counter "actions_failed" (ActionRouter.memory w') = 0%Z.
Proof.
  destruct (route_action_returns_and_counts
              (Examples.router_with MoreExamples.answers)
              (Examples.request ESCALATE) Examples.world0 (or_introl eq_refl))
    as (res & w' & Hroute & _ & _ & _ & Hget & _).
  exists res, w'. split; [exact Hroute |].
  rewrite !(Hget eq_refl).
  vm_compute in Hroute. injection Hroute as <- <-.
  repeat split; reflexivity.
Defined.

Lemma action_statistics_after_routing_witness :
  exists results w' st m,
    route_all (Examples.router_with MoreExamples.answers)
      [Examples.request ESCALATE; Examples.request CREATE_TICKET;
       Examples.request RISK_ALERT] Examples.world0 = (Ok results, w') /\
    get_action_statistics (ActionRouter.memory w') = (Ok st, m) /\
    total_actions_executed st = 1%Z /\ total_actions_failed st = 2%Z /\
    success_rate st == -100.
Proof.
  destruct (action_statistics_after_routing
              (Examples.router_with MoreExamples.answers)
              [Examples.request ESCALATE; Examples.request CREATE_TICKET;
               Examples.request RISK_ALERT] Examples.world0
              (or_introl eq_refl) eq_refl eq_refl eq_refl)
    as (results & w' & st & m & Hall & _ & Hstats & He & Hf & _ & Hrate & _ & _).
  exists results, w', st, m. split; [exact Hall |]. split; [exact Hstats |].
  assert (Hs : successes results = 1%Z /\ failures results = 2%Z).
  { vm_compute in Hall. injection Hall as <- _. split; reflexivity. }
  destruct Hs as [Hs Hfl].
  rewrite He, Hf, Hs, Hfl. split; [reflexivity |]. split; [reflexivity |].
  rewrite Hrate by (rewrite Hs; lia). rewrite Hs, Hfl. reflexivity.
Defined.

(** ** The amount sub-detector *)

Section AmountScore.
Context {L : Library}.

Lemma min_ratio_one_exceeding (a b : Q) :
  0 <= b -> b < a -> min_ratio_one a b == 1.
Proof.
  intros Hb Hab. unfold min_ratio_one.
  destruct (Qeq_bool b 0) eqn:E; [reflexivity |].
  apply Qeq_bool_neq in E.
  assert (H1 : 1 < a / b) by (apply Qlt_shift_div_l; lra).
  unfold py_min. destruct (Qlt_le_dec 1 (a / b)); lra.
Qed.

Lemma check_amount_fields_score h data schema_type fields f :
  check_amount_fields h data schema_type fields = Ok (Some f) -> f_score f == 1.
Proof.
  induction fields as [|field rest IH]; [discriminate |].
  rewrite check_amount_fields_cons.
  destruct (dict_get field data) as [v|]; [| exact IH].
  destruct (isinstance_number v); [| exact IH].
  destruct (float_of v) as [amount|e]; [| discriminate].
  destruct (min_samples <=? _)%nat; [| exact IH].
  destruct (fgt _ _) eqn:Hgt; [| exact IH].
  intros Hf. apply (inj Ok), (inj Some) in Hf. subst f. cbn [f_score].
  apply flt_true in Hgt.
  apply min_ratio_one_exceeding; [| exact Hgt].
  pose proof (np_std_nonneg (get_amounts h (amounts_key schema_type))).
  unfold threshold_multiplier. nra.
Qed.

(** X7.  When the amount sub-detector fires its sub-score is always 1: the
    deviation exceeds [threshold * std], so the ratio capped at 1 is 1 (also
    for a standard deviation of 0).  A report for such a record therefore has
    score 1 and is not normal. *)
Theorem amount_anomaly_scores_one h data schema_type f :
  _check_amount_anomaly h data schema_type = Ok (Some f) ->
  f_score f == 1 /\
  forall r, _detect_anomalies h data schema_type = Ok r ->
            r_anomaly_score r == 1 /\ r_is_normal r = false.
Proof.
  intros Hf.
  pose proof (check_amount_fields_score h data schema_type amount_fields f Hf) as Hone.
  split; [exact Hone |].
  intros r Hr. apply detect_anomalies_Ok in Hr as (a & p & Ha & Hp & ->).
  rewrite Hf in Ha. apply (inj Ok) in Ha. subst a.
  cbn [r_anomaly_score r_is_normal].
  assert (H0 : 0 <= snd (([], 0) : list string * Q)) by (simpl; lra).
  pose proof (absorb_fold_score (sub_findings data schema_type (Some f) p) _ H0) as Hs.
  cbn [snd] in Hs. unfold sub_findings in Hs at 2.
  change (omap (fmap f_score)
            [Some f; p; _check_data_quality data;
             _check_type_anomalies data schema_type])
    with (f_score f :: omap (fmap f_score)
            [p; _check_data_quality data; _check_type_anomalies data schema_type])
    in Hs.
  change (list_max (f_score f :: ?l)) with (Qmax (f_score f) (list_max l)) in Hs.
  revert Hs.
  generalize (list_max (omap (fmap f_score)
                [p; _check_data_quality data; _check_type_anomalies data schema_type])).
  generalize (snd (fold_left absorb (sub_findings data schema_type (Some f) p) ([], 0))).
  intros acc m Hs.
  assert (Hacc : 1 <= acc) by (qminmax; lra).
  split.
  - unfold py_min. destruct (Qlt_le_dec 1 acc); lra.
  - apply flt_false. unfold anomaly_threshold. lra.
Qed.

End AmountScore.

Lemma amount_anomaly_scores_one_witness :
  exists f r,
    _check_amount_anomaly (L := Examples.example_library) Examples.baseline
      Examples.big_amount Examples.payment = Ok (Some f) /\
    _detect_anomalies (L := Examples.example_library) Examples.baseline
      Examples.big_amount Examples.payment = Ok r /\
    f_score f == 1 /\ r_anomaly_score r == 1 /\ r_is_normal r = false.
Proof.
  destruct (_check_amount_anomaly (L := Examples.example_library) Examples.baseline
              Examples.big_amount Examples.payment) as [[f|]|e0] eqn:Hf;
    [| vm_compute in Hf; discriminate Hf | vm_compute in Hf; discriminate Hf].
  destruct (_detect_anomalies (L := Examples.example_library) Examples.baseline
              Examples.big_amount Examples.payment) as [r|e] eqn:Hr;
    [| vm_compute in Hr; discriminate Hr].
  exists f, r. split; [reflexivity |]. split; [reflexivity |].
  destruct (amount_anomaly_scores_one (L := Examples.example_library)
              Examples.baseline Examples.big_amount Examples.payment f Hf)
    as [H1 H2].
  split; [exact H1 | exact (H2 r Hr)].
Defined.

(** ** The rate sub-detector *)

Section RateDetector.
Context {L : Library}.

Lemma count_recent_le current_time time_window events n :
  count_recent current_time time_window events = Some n ->
  (n <= length events)%nat.
Proof.
  revert n. induction events as [|ts rest IH]; intros n; cbn [count_recent].
  - intros [= <-]. simpl. lia.
  - destruct (within_window current_time ts time_window) as [b|]; [| discriminate].
    destruct (count_recent current_time time_window rest) as [m|]; [| discriminate].
    intros [= <-]. specialize (IH m eq_refl). destruct b; simpl; lia.
Qed.

Lemma count_recent_mixed current_time time_window events ts :
  In ts events -> dt_aware ts <> dt_aware current_time ->
  count_recent current_time time_window events = None.
Proof.
  intros Hin Hne. induction events as [|ts' rest IH]; [destruct Hin |].
  cbn [count_recent]. destruct Hin as [-> | Hin].
  - unfold within_window.
    destruct (dt_aware current_time), (dt_aware ts); simpl; congruence.
  - destruct (within_window current_time ts' time_window); [| reflexivity].
    by rewrite (IH Hin).
Qed.

(** X8.  With fewer than five timestamps in the window of the schema type
    the rate sub-detector never reports [rapid_succession_events], whatever
    the record: the only finding it can return is the one for an invalid
    timestamp.  And when it does report rapid succession the window holds at
    least five timestamps and the sub-score lies between 0.5 and 1. *)
Theorem rate_detector_needs_five_timestamps h data schema_type f :
  _check_pattern_anomaly h data schema_type = Ok (Some f) ->
  ((length (get_timestamps h (timestamps_key schema_type)) < rapid_succession)%nat ->
   f = invalid_timestamp) /\
  (f_anomalies f = ["rapid_succession_events"] ->
   (rapid_succession <= length (get_timestamps h (timestamps_key schema_type)))%nat /\
   0.5 <= f_score f <= 1).
Proof.
  unfold _check_pattern_anomaly.
  destruct (dict_get "timestamp" data) as [v|]; [| discriminate].
  destruct (parse_timestamp v) as [t| |e];
    [| intros [= <-]; split; [done | discriminate] | discriminate].
  destruct (count_recent _ _ _) as [n|] eqn:Hcount;
    [| intros [= <-]; split; [done | discriminate]].
  apply count_recent_le in Hcount.
  destruct (rapid_succession <=? n)%nat eqn:Hn; [| discriminate].
  apply Nat.leb_le in Hn. intros [= <-]. cbn [f_anomalies f_score].
  split; [lia |]. intros _. split; [lia |].
  assert (H5 : 5 <= inject_Z (Z.of_nat n)).
  { change 5 with (inject_Z 5). rewrite <- Zle_Qle. unfold rapid_succession in Hn. lia. }
  assert (Hdiv : inject_Z (Z.of_nat n) / 10 == inject_Z (Z.of_nat n) * (1 # 10))
    by (unfold Qdiv; reflexivity).
  unfold py_min. destruct (Qlt_le_dec 1 (inject_Z (Z.of_nat n) / 10)); lra.
Qed.

(** X9.  Once the window of a schema type holds both a timestamp with a
    UTC offset and one without, every record of that type whose timestamp is
    a string is reported with [invalid_timestamp_format] and sub-score 0.5,
    well-formed or not: the subtraction of a naive from an aware datetime
    raises [TypeError], which the sub-detector catches like a parse error. *)
Theorem mixed_window_reports_invalid_timestamp h data schema_type s t1 t2 :
  In t1 (get_timestamps h (timestamps_key schema_type)) ->
  In t2 (get_timestamps h (timestamps_key schema_type)) ->
  dt_aware t1 = true -> dt_aware t2 = false ->
  dict_get "timestamp" data = Some (VStr s) ->
  _check_pattern_anomaly h data schema_type = Ok (Some invalid_timestamp).
Proof.
  intros H1 H2 Ha1 Ha2 Hts. unfold _check_pattern_anomaly, parse_timestamp.
  rewrite Hts. destruct (fromisoformat (replace_Z s)) as [t|]; [| reflexivity].
  destruct (dt_aware t) eqn:Ha.
  - rewrite (count_recent_mixed t _ _ t2 H2); [reflexivity | congruence].
  - rewrite (count_recent_mixed t _ _ t1 H1); [reflexivity | congruence].
Qed.

(** X10.  A well-formed timestamp with a UTC offset is reported as
    [invalid_timestamp_format] when the window holds a timestamp without
    offset (and the reverse). *)
Theorem well_formed_timestamp_reported_invalid h data schema_type s t ts :
  dict_get "timestamp" data = Some (VStr s) ->
  fromisoformat (replace_Z s) = Some t ->
  In ts (get_timestamps h (timestamps_key schema_type)) ->
  dt_aware ts <> dt_aware t ->
  _check_pattern_anomaly h data schema_type = Ok (Some invalid_timestamp).
Proof.
  intros Hts Hparse Hin Hne. unfold _check_pattern_anomaly, parse_timestamp.
  rewrite Hts, Hparse. by rewrite (count_recent_mixed t _ _ ts Hin Hne).
Qed.

End RateDetector.

Lemma rate_detector_needs_five_timestamps_witness :
  exists f,
    _check_pattern_anomaly (L := Examples.example_library) MoreExamples.four_recent
      Examples.two_halves Examples.payment = Ok (Some f) /\
    (length (get_timestamps MoreExamples.four_recent (timestamps_key Examples.payment))
     < rapid_succession)%nat /\
    f = invalid_timestamp.
Proof.
  eexists. split; [vm_compute; reflexivity |].
  assert (Hlen : (length (get_timestamps MoreExamples.four_recent
                            (timestamps_key Examples.payment)) < rapid_succession)%nat)
    by (vm_compute; lia).
  split; [exact Hlen |].
  exact (proj1 (rate_detector_needs_five_timestamps (L := Examples.example_library)
                  MoreExamples.four_recent Examples.two_halves Examples.payment _
                  eq_refl) Hlen).
Defined.

Lemma mixed_window_reports_invalid_timestamp_witness :
  fromisoformat (Library := Examples.example_library)
    (replace_Z "2024-01-15T10:30:00Z")
  = Some {| dt_aware := true; dt_micros := 1705314600000000 |} /\
  _check_pattern_anomaly (L := Examples.example_library) MoreExamples.mixed_window
    MoreExamples.aware_record Examples.payment = Ok (Some invalid_timestamp).
Proof.
  split; [vm_compute; reflexivity |].
  apply (mixed_window_reports_invalid_timestamp (L := Examples.example_library)
           MoreExamples.mixed_window MoreExamples.aware_record Examples.payment
           "2024-01-15T10:30:00Z"
           {| dt_aware := true; dt_micros := 1705314000000000 |}
           {| dt_aware := false; dt_micros := 1705314000000000 |}).
  - vm_compute. by left.
  - vm_compute. right. by left.
  - reflexivity.
  - reflexivity.
  - reflexivity.
Defined.

Lemma well_formed_timestamp_reported_invalid_witness :
  _check_pattern_anomaly (L := Examples.example_library) MoreExamples.naive_stored
    MoreExamples.aware_record Examples.payment = Ok (Some invalid_timestamp).
Proof.
  apply (well_formed_timestamp_reported_invalid (L := Examples.example_library)
           MoreExamples.naive_stored MoreExamples.aware_record Examples.payment
           "2024-01-15T10:30:00Z"
           {| dt_aware := true; dt_micros := 1705314600000000 |}
           {| dt_aware := false; dt_micros := 1705314000000000 |}).
  - reflexivity.
  - vm_compute. reflexivity.
  - vm_compute. by left.
  - simpl. discriminate.
Defined.

(** ** The data-quality sub-detector *)

Section DataQuality.
Context {L : Library}.

Lemma quality_step_keeps acc item : quality_inv acc -> quality_inv (quality_step acc item).
Proof.
  intros (H1 & H2 & H3). unfold quality_step.
  destruct (snd item) as [| | | |value| |]; try (by repeat split).
  assert (Hmax : forall a, a <= 1 -> py_max a 0.9 <= 1 /\ 0.9 <= py_max a 0.9).
  { intros a Ha. unfold py_max. destruct (Qlt_le_dec a 0.9); lra. }
  destruct (any_pattern sql_patterns value), (any_pattern script_patterns value);
    cbn [fst snd]; unfold quality_inv; cbn [fst snd].
  - destruct (Hmax _ H1) as [Ha Hb]. destruct (Hmax _ Ha) as [Hc Hd].
    repeat split; [lra | intros _; lra | intros; lra].
  - destruct (Hmax _ H1) as [Ha Hb].
    repeat split; [lra | intros _; lra | intros; lra].
  - destruct (Hmax _ H1) as [Ha Hb].
    repeat split; [lra | intros _; lra | intros; lra].
  - by repeat split.
Qed.

Lemma quality_fold_keeps data acc :
  quality_inv acc -> quality_inv (fold_left quality_step data acc).
Proof.
  revert acc. induction data as [|item data IH]; intros acc H; [exact H |].
  apply IH, quality_step_keeps, H.
Qed.

Lemma filter_length_le {A : Type} (f : A -> bool) (l : list A) :
  (length (List.filter f l) <= length l)%nat.
Proof. induction l as [|x l IH]; simpl; [lia |]. destruct (f x); simpl; lia. Qed.

Lemma quality_start_inv (data : pydict) :
  quality_inv
    (if (0 <? length data)%nat then
       let null_percentage :=
         inject_Z (Z.of_nat (length (List.filter (fun item => is_null (snd item)) data)))
         / inject_Z (Z.of_nat (length data)) in
       if fgt null_percentage null_percentage_threshold
       then (["excessive_null_values"], py_max 0 null_percentage)
       else ([], 0)
     else ([], 0)).
Proof.
  assert (Hnil : quality_inv ([], 0)).
  { unfold quality_inv. cbn [fst snd]. repeat split; [lra | done | intros t _ []]. }
  destruct (0 <? length data)%nat eqn:Hlen; [| exact Hnil]. cbv zeta.
  destruct (fgt _ _) eqn:Hgt; [| exact Hnil].
  apply Nat.ltb_lt in Hlen. apply flt_true in Hgt.
  unfold null_percentage_threshold in Hgt.
  pose proof (filter_length_le (fun item => is_null (snd item)) data) as Hle.
  set (n := length (List.filter (fun item => is_null (snd item)) data)) in *.
  assert (Hpct : inject_Z (Z.of_nat n) / inject_Z (Z.of_nat (length data)) <= 1).
  { apply Qle_shift_div_r.
    - change 0 with (inject_Z 0). rewrite <- Zlt_Qlt. lia.
    - rewrite Qmult_1_l, <- Zle_Qle. lia. }
  revert Hgt Hpct. generalize (inject_Z (Z.of_nat n) / inject_Z (Z.of_nat (length data))).
  intros pct Hgt Hpct. unfold quality_inv. cbn [fst snd]. unfold py_max.
  destruct (Qlt_le_dec 0 pct); repeat split; try lra.
  all: try (intros _; lra).
  all: intros t Ht [<- | []]; simpl in Ht; destruct Ht as [Ht | [Ht | []]]; discriminate.
Qed.

Lemma quality_step_grows acc item t :
  In t (fst acc) -> In t (fst (quality_step acc item)).
Proof.
  intros Hin. unfold quality_step. destruct (snd item); try exact Hin.
  destruct (any_pattern sql_patterns s), (any_pattern script_patterns s); cbn [fst];
    rewrite ?in_app_iff; auto.
Qed.

Lemma quality_fold_grows data acc t :
  In t (fst acc) -> In t (fst (fold_left quality_step data acc)).
Proof.
  revert acc. induction data as [|item data IH]; intros acc H; [exact H |].
  apply IH, quality_step_grows, H.
Qed.

Lemma quality_fold_detects data acc key value :
  In (key, VStr value) data ->
  (any_pattern sql_patterns value = true ->
   In "potential_sql_injection" (fst (fold_left quality_step data acc))) /\
  (any_pattern script_patterns value = true ->
   In "potential_script_injection" (fst (fold_left quality_step data acc))).
Proof.
  revert acc. induction data as [|item data IH]; intros acc Hin; [destruct Hin |].
  destruct Hin as [-> | Hin]; [| apply IH, Hin].
  cbn [fold_left]. split; intros Hpat; apply quality_fold_grows;
    unfold quality_step; cbn [snd]; rewrite Hpat.
  - destruct (any_pattern script_patterns value); cbn [fst];
      rewrite ?in_app_iff; simpl; auto.
  - cbn [fst]. rewrite in_app_iff. simpl. auto.
Qed.

(** X11.  When the data-quality sub-detector fires, the record is not
    empty (an empty record is never divided by), its sub-score lies above 0.3
    and at most at 1, and it is at least 0.9 as soon as one of the two
    injection tags is among its tags. *)
Theorem data_quality_score_bounds data f :
  _check_data_quality data = Some f ->
  data <> [] /\
  0.3 < f_score f <= 1 /\
  (forall t, In t injection_tags -> In t (f_anomalies f) -> 0.9 <= f_score f).
Proof.
  unfold _check_data_quality. cbv zeta.
  pose proof (quality_fold_keeps data _ (quality_start_inv data)) as (H1 & H2 & H3).
  destruct (fst (fold_left quality_step data _)) as [|t tags] eqn:E; [discriminate |].
  intros Hf. apply (inj Some) in Hf. subst f. cbn [f_score f_anomalies].
  split; [| split; [split; [apply H2; discriminate | exact H1] | exact H3]].
  intros ->. discriminate E.
Qed.

(** X12.  Only the string values at the top level of the record are
    scanned for injection patterns: a record without such a value gets no
    injection tag, whatever its nested lists and dicts hold; the only tag the
    sub-detector can then give is [excessive_null_values]. *)
Theorem data_quality_ignores_nested_strings data f :
  Forall (fun item => isinstance_str (snd item) = false) data ->
  _check_data_quality data = Some f ->
  f_anomalies f = ["excessive_null_values"].
Proof.
  intros Hall. unfold _check_data_quality. cbv zeta.
  assert (Hfold : forall acc, fold_left quality_step data acc = acc).
  { induction Hall as [|item data Hitem _ IH]; intros acc; [reflexivity |].
    cbn [fold_left]. rewrite <- (IH acc) at 2. f_equal.
    unfold quality_step. by destruct (snd item). }
  rewrite Hfold.
  destruct (0 <? length data)%nat; [| discriminate].
  destruct (fgt _ _); [| discriminate].
  cbn [fst snd]. intros Hf. apply (inj Some) in Hf. by subst f.
Qed.

End DataQuality.

Lemma data_quality_score_bounds_witness :
  exists f,
    _check_data_quality MoreExamples.script_record = Some f /\
    f_anomalies f = ["potential_script_injection"] /\ 0.9 <= f_score f.
Proof.
  destruct (_check_data_quality MoreExamples.script_record) as [f|] eqn:Hf;
    [| vm_compute in Hf; discriminate Hf].
  destruct (data_quality_score_bounds MoreExamples.script_record f Hf)
    as (_ & _ & Hinj).
  assert (Htags : f_anomalies f = ["potential_script_injection"]).
  { vm_compute in Hf. by injection Hf as <-. }
  exists f. split; [reflexivity |]. split; [exact Htags |].
  apply (Hinj "potential_script_injection"); [simpl; auto | rewrite Htags; by left].
Defined.

Lemma data_quality_ignores_nested_strings_witness :
  exists f,
    _check_data_quality MoreExamples.nested_strings = Some f /\
    f_anomalies f = ["excessive_null_values"].
Proof.
  destruct (_check_data_quality MoreExamples.nested_strings) as [f|] eqn:Hf;
    [| vm_compute in Hf; discriminate Hf].
  exists f. split; [reflexivity |].
  apply (data_quality_ignores_nested_strings MoreExamples.nested_strings f);
    [repeat constructor | exact Hf].
Defined.

(** ** The type sub-detector *)

Section TypeDetector.
Context {L : Library}.

Lemma type_fold_closed_form data entries acc :
  fold_left (type_step data) entries acc
  = (acc ++ map (fun entry => "unexpected_type_" +:+ fst entry)
              (List.filter (fun entry => match dict_get (fst entry) data with
                                         | Some v => negb (snd entry v)
                                         | None => false
                                         end) entries))%list.
Proof.
  revert acc. induction entries as [|entry entries IH]; intros acc.
  - simpl. by rewrite app_nil_r.
  - cbn [fold_left List.filter]. rewrite IH. unfold type_step.
    destruct (dict_get (fst entry) data) as [v|]; [| reflexivity].
    destruct (snd entry v); cbn [negb map]; [reflexivity |].
    by rewrite <- app_assoc.
Qed.

(** X13.  The type sub-detector tags exactly the fields of its registry
    that are present with a value of another type, once each and in the order
    of the registry (an absent field is never tagged); it returns nothing when
    there is none.  Its sub-score, [len(anomalies) * 0.2] for at most 7 such
    fields, is positive, reaches the threshold 0.8 exactly from four
    mismatches on and exceeds 1 exactly from six on: the sub-detector applies
    no cap of its own.  (These comparisons come out the same on the floats of
    the code, where the product is rounded.) *)
Theorem type_anomalies_are_the_mismatches data schema_type :
  let bad := mismatched data in
  (length bad <= 7)%nat /\
  (bad = [] -> _check_type_anomalies data schema_type = None) /\
  (bad <> [] ->
   exists f, _check_type_anomalies data schema_type = Some f /\
     f_anomalies f = map (fun entry => "unexpected_type_" +:+ fst entry) bad /\
     0 < f_score f /\
     (0.8 <= f_score f <-> (4 <= length bad)%nat) /\
     (1 < f_score f <-> (6 <= length bad)%nat)).
Proof.
  intros bad.
  assert (Hlen : (length bad <= 7)%nat)
    by (apply (filter_length_le _ expected_types)).
  split; [exact Hlen |].
  unfold _check_type_anomalies. cbv zeta.
  rewrite type_fold_closed_form. cbn [app]. fold (mismatched data). fold bad.
  split.
  - intros ->. reflexivity.
  - intros Hne. destruct bad as [|entry bad'] eqn:E; [done |].
    eexists. split; [reflexivity |]. cbn [f_anomalies f_score].
    split; [reflexivity |]. rewrite length_map.
    assert (Hcmp : forall k : Z,
               (inject_Z k <= inject_Z (Z.of_nat (length (entry :: bad')))
                <-> (k <= Z.of_nat (length (entry :: bad')))%Z) /\
               (inject_Z (Z.of_nat (length (entry :: bad'))) <= inject_Z k
                <-> (Z.of_nat (length (entry :: bad')) <= k)%Z)).
    { intros k. by rewrite <- !Zle_Qle. }
    generalize dependent (inject_Z (Z.of_nat (length (entry :: bad')))).
    intros q Hcmp.
    pose proof (Hcmp 1%Z) as [H1 _]. pose proof (Hcmp 3%Z) as [_ H3].
    pose proof (Hcmp 4%Z) as [H4 _]. pose proof (Hcmp 5%Z) as [_ H5].
    pose proof (Hcmp 6%Z) as [H6 _].
    change (inject_Z 1) with 1 in H1. change (inject_Z 3) with 3 in H3.
    change (inject_Z 4) with 4 in H4. change (inject_Z 5) with 5 in H5.
    change (inject_Z 6) with 6 in H6.
    assert (Hpos : 1 <= q) by (apply H1; simpl; lia).
    split; [lra |]. split; split.
    + intros H. destruct (le_lt_dec 4 (length (entry :: bad'))) as [|Hlt]; [done |].
      assert (q <= 3) by (apply H3; lia). lra.
    + intros H. assert (4 <= q) by (apply H4; lia). lra.
    + intros H. destruct (le_lt_dec 6 (length (entry :: bad'))) as [|Hlt]; [done |].
      assert (q <= 5) by (apply H5; lia). lra.
    + intros H. assert (6 <= q) by (apply H6; lia). lra.
Qed.

End TypeDetector.

(** ** The vocabulary of a report *)

Section Vocabulary.
Context {L : Library}.

Lemma report_vocabulary_aux h data schema_type r :
  _detect_anomalies h data schema_type = Ok r ->
  Forall known_tag (r_anomalies r) /\ 0 <= r_anomaly_score r <= 1.
Proof.
  intros Hr. split; [| by apply (report_is_normal_iff h data schema_type r Hr)].
  apply report_tags in Hr as (a & p & Ha & Hp & ->). unfold sub_findings.
  cbn [map concat]. rewrite app_nil_r. repeat (apply Forall_app; split).
  - destruct a as [f|]; [| constructor].
    apply check_amount_fields_Some in Ha as (_ & _ & field & Hin & Htag).
    unfold from_option. rewrite Htag.
    apply List.Forall_cons; [left; eauto | apply List.Forall_nil].
  - destruct p as [f|]; [| constructor]. unfold from_option.
    apply check_pattern_anomaly_Some in Hp as [_ [-> | (n & _ & ->)]];
      cbn [f_anomalies invalid_timestamp];
      (apply List.Forall_cons; [right; left; simpl; auto | apply List.Forall_nil]).
  - destruct (_check_data_quality data) as [f|] eqn:E; [| constructor].
    apply check_data_quality_Some in E as [_ E]. unfold from_option.
    eapply Forall_impl; [exact E |]. intros t Ht. right. left.
    simpl in Ht. simpl. tauto.
  - destruct (_check_type_anomalies data schema_type) as [f|] eqn:E; [| constructor].
    pose proof (type_fold_closed_form data expected_types []) as Hform.
    unfold _check_type_anomalies in E. rewrite Hform in E. cbn [app] in E.
    destruct (map _ _) as [|t tags] eqn:Em; [discriminate |].
    apply (inj Some) in E. subst f. unfold from_option. cbn [f_anomalies].
    rewrite <- Em.
    apply List.Forall_forall. intros t' Hin. apply in_map_iff in Hin as (entry & <- & Hin).
    apply filter_In in Hin as [Hin _]. right. right. eauto.
Qed.

(** X14.  Every tag of a report is [unusual_<field>_amount] for one of
    the four amount fields, one of the five fixed tags of the rate and
    data-quality sub-detectors, or [unexpected_type_<field>] for a field of
    the type registry; the score lies between 0 and 1. *)
Theorem report_vocabulary h data schema_type r :
  _detect_anomalies h data schema_type = Ok r ->
  Forall known_tag (r_anomalies r) /\ 0 <= r_anomaly_score r <= 1.
Proof. apply report_vocabulary_aux. Qed.

End Vocabulary.

Lemma report_vocabulary_witness :
  exists r,
    _detect_anomalies (L := Examples.example_library) empty_history
      Examples.four_mismatches Examples.payment = Ok r /\
    Forall known_tag (r_anomalies r) /\ length (r_anomalies r) = 4%nat.
Proof.
  destruct (_detect_anomalies (L := Examples.example_library) empty_history
              Examples.four_mismatches Examples.payment) as [r|e] eqn:Hr;
    [| vm_compute in Hr; discriminate Hr].
  exists r. split; [reflexivity |].
  split; [exact (proj1 (report_vocabulary (L := Examples.example_library) _ _ _ r Hr)) |].
  vm_compute in Hr. by injection Hr as <-.
Defined.

Lemma type_anomalies_are_the_mismatches_witness :
  exists f,
    _check_type_anomalies Examples.four_mismatches Examples.payment = Some f /\
    f_anomalies f = ["unexpected_type_id"; "unexpected_type_user_id";
                     "unexpected_type_count"; "unexpected_type_active"] /\
    0.8 <= f_score f.
Proof.
  destruct (type_anomalies_are_the_mismatches Examples.four_mismatches Examples.payment)
    as (_ & _ & Hsome).
  destruct Hsome as (f & Hf & Htags & _ & Hfour & _); [vm_compute; discriminate |].
  exists f. split; [exact Hf |]. split; [rewrite Htags; reflexivity |].
  apply Hfour. vm_compute. lia.
Defined.

(** ** The action policy, in full *)

Section PolicyShape.
Context {L : Library}.

Lemma list_max_ge (l : list Q) (x : Q) : In x l -> x <= list_max l.
Proof.
  induction l as [|y l IH]; [intros [] |].
  intros [-> | Hin]; simpl.
  - qminmax; lra.
  - specialize (IH Hin). revert IH. generalize (list_max l). intros m IH.
    qminmax; lra.
Qed.

(** X15.  The policy emits at most two requests, the flag before the risk
    alert, all in the name of [json_agent]; a flag is of priority high or
    medium, a risk alert of priority critical; and it emits nothing exactly
    when the result is valid, its score is at most 0.8 and none of its tags is
    one of the four high-risk strings. *)
Theorem generate_actions_shape now result data schema_type :
  let actions := _generate_actions now result data schema_type in
  (length actions <= 2)%nat /\
  In (kinds actions)
     [[]; [(FLAG_ANOMALY, HIGH)]; [(FLAG_ANOMALY, MEDIUM)]; [(RISK_ALERT, CRITICAL)];
      [(FLAG_ANOMALY, HIGH); (RISK_ALERT, CRITICAL)];
      [(FLAG_ANOMALY, MEDIUM); (RISK_ALERT, CRITICAL)]] /\
  Forall (fun a => source_agent a = name) actions /\
  (actions = [] <->
   is_valid result = true /\ anomaly_score result <= 0.8 /\
   has_high_risk (anomalies result) = false).
Proof.
  cbv zeta. unfold _generate_actions. fold (has_high_risk (anomalies result)).
  unfold anomaly_threshold.
  destruct (is_valid result); cbn [negb orb];
    destruct (fgt (anomaly_score result) 0.8) eqn:Hgt;
    destruct (has_high_risk (anomalies result));
    cbn [app length kinds map action_type priority];
    (split; [lia |]); (split; [simpl; tauto |]);
    (split; [repeat constructor |]);
    unfold fgt in Hgt;
    try (apply flt_true in Hgt); try (apply flt_false in Hgt);
    split; try discriminate; try (intros (? & ? & ?); (discriminate || lra));
    try (intros _; repeat split; (reflexivity || lra)).
Qed.

(** X16.  A record with a top-level string field that contains one of the
    SQL or script patterns, in any letter case, gets the matching injection
    tag; its report has a score of at least 0.9 and is not normal; and the
    policy requests both the flag, of priority high, and the risk alert, of
    priority critical. *)
Theorem injection_is_flagged_and_alerted h data schema_type r key value :
  _detect_anomalies h data schema_type = Ok r ->
  In (key, VStr value) data ->
  any_pattern sql_patterns value = true \/ any_pattern script_patterns value = true ->
  (exists t, In t injection_tags /\ In t (r_anomalies r)) /\
  0.9 <= r_anomaly_score r /\
  r_is_normal r = false /\
  forall now validation,
    kinds (_generate_actions now (combine validation r) data schema_type)
    = [(FLAG_ANOMALY, HIGH); (RISK_ALERT, CRITICAL)].
Proof.
  intros Hr Hin Hpat.
  (* the data-quality finding *)
  assert (Hq : exists f t, _check_data_quality data = Some f /\
                           In t injection_tags /\ In t (f_anomalies f) /\
                           0.9 <= f_score f).
  { unfold _check_data_quality. cbv zeta.
    pose proof (quality_fold_keeps data _ (quality_start_inv data)) as (_ & _ & H3).
    match goal with |- context [fold_left quality_step data ?a] =>
      destruct (quality_fold_detects data a key value Hin) as [Hsql Hscript];
      set (acc := fold_left quality_step data a) in * end.
    assert (Ht : exists t, In t injection_tags /\ In t (fst acc)).
    { destruct Hpat as [Hp | Hp];
        [exists "potential_sql_injection" | exists "potential_script_injection"];
        (split; [simpl; auto | auto]). }
    destruct Ht as (t & Ht1 & Ht2).
    destruct (fst acc) as [|t0 tags] eqn:E; [destruct Ht2 |].
    exists {| f_anomalies := t0 :: tags; f_score := snd acc |}, t.
    split; [reflexivity |]. cbn [f_anomalies f_score].
    split; [exact Ht1 |]. split; [exact Ht2 | exact (H3 t Ht1 Ht2)]. }
  destruct Hq as (f & t & Hf & Ht1 & Ht2 & H09).
  (* the report *)
  apply detect_anomalies_Ok in Hr as (a & p & Ha & Hp & Hr).
  assert (Htag : In t (r_anomalies r)).
  { rewrite Hr. cbn [r_anomalies]. rewrite absorb_fold_tags.
    unfold sub_findings. rewrite Hf. cbn [map concat from_option fst app].
    rewrite !in_app_iff. auto. }
  assert (H0 : 0 <= snd (([], 0) : list string * Q)) by (simpl; lra).
  pose proof (absorb_fold_score (sub_findings data schema_type a p) _ H0) as Hs.
  cbn [snd] in Hs.
  assert (Hmem : In (f_score f) (omap (fmap f_score) (sub_findings data schema_type a p))).
  { unfold sub_findings. rewrite Hf.
    destruct a, p, (_check_type_anomalies data schema_type); simpl; auto. }
  apply list_max_ge in Hmem.
  assert (Hacc : 0.9 <= snd (fold_left absorb (sub_findings data schema_type a p) ([], 0))).
  { revert Hs Hmem.
    generalize (list_max (omap (fmap f_score) (sub_findings data schema_type a p))).
    generalize (snd (fold_left absorb (sub_findings data schema_type a p) ([], 0))).
    intros acc m Hs Hmem. qminmax; lra. }
  assert (Hscore : 0.9 <= r_anomaly_score r).
  { subst r. cbn [r_anomaly_score]. unfold py_min.
    destruct (Qlt_le_dec 1 _); lra. }
  assert (Hab : r_is_normal r = false).
  { subst r. cbn [r_is_normal]. apply flt_false. unfold anomaly_threshold. lra. }
  split; [eauto |]. split; [exact Hscore |]. split; [exact Hab |].
  intros now validation.
  destruct (generate_actions_unfold now (combine validation r) data schema_type)
    as (flag & risk & Hft & Hfp & Hrt & Hrp & ->).
  cbn [combine is_valid anomaly_score anomalies]. rewrite Hab, andb_false_r.
  cbn [negb orb].
  assert (Hrisk : has_high_risk (r_anomalies r) = true).
  { apply existsb_exists. exists t. split.
    - simpl in Ht1. simpl. tauto.
    - apply existsb_exists. exists t. split; [exact Htag | apply String.eqb_refl]. }
  rewrite Hrisk. cbn [app kinds map]. rewrite Hft, Hfp, Hrt, Hrp.
  cbn [combine anomaly_score].
  assert (Hhigh : fgt (r_anomaly_score r) 0.8 = true) by (apply flt_true; lra).
  by rewrite Hhigh.
Qed.

(** X17.  A record that is valid and normal still gets a risk alert of
    priority critical, and nothing else, when the rate sub-detector reported
    rapid succession (five to seven recent events give a score below 0.8). *)
Theorem rapid_succession_alerts_a_valid_record now validation h data schema_type r :
  _detect_anomalies h data schema_type = Ok r ->
  r_is_normal r = true ->
  is_valid validation = true ->
  In "rapid_succession_events" (r_anomalies r) ->
  is_valid (combine validation r) = true /\
  kinds (_generate_actions now (combine validation r) data schema_type)
  = [(RISK_ALERT, CRITICAL)].
Proof.
  intros Hr Hn Hv Htag.
  apply report_is_normal_iff in Hr as [Hiff _]. apply Hiff in Hn as Hlt.
  destruct (generate_actions_unfold now (combine validation r) data schema_type)
    as (flag & risk & _ & _ & Hrt & Hrp & ->).
  cbn [combine is_valid anomaly_score anomalies]. rewrite Hv, Hn. cbn [andb negb orb].
  split; [reflexivity |].
  assert (Hlow : fgt (r_anomaly_score r) anomaly_threshold = false).
  { apply flt_false. unfold anomaly_threshold. lra. }
  rewrite Hlow.
  assert (Hrisk : has_high_risk (r_anomalies r) = true).
  { apply existsb_exists. exists "rapid_succession_events". split; [simpl; tauto |].
    apply existsb_exists. exists "rapid_succession_events".
    split; [exact Htag | reflexivity]. }
  rewrite Hrisk. cbn [app kinds map]. by rewrite Hrt, Hrp.
Qed.

End PolicyShape.

Lemma injection_is_flagged_and_alerted_witness :
  exists r,
    _detect_anomalies (L := Examples.example_library) empty_history
      MoreExamples.script_record Examples.payment = Ok r /\
    r_anomalies r = ["potential_script_injection"] /\
    r_is_normal r = false /\
    kinds (_generate_actions (L := Examples.example_library) 0
             (combine (_validate_schema (L := Examples.example_library)
                         MoreExamples.script_record Examples.payment) r)
             MoreExamples.script_record Examples.payment)
    = [(FLAG_ANOMALY, HIGH); (RISK_ALERT, CRITICAL)].
Proof.
  destruct (_detect_anomalies (L := Examples.example_library) empty_history
              MoreExamples.script_record Examples.payment) as [r|e] eqn:Hr;
    [| vm_compute in Hr; discriminate Hr].
  destruct (injection_is_flagged_and_alerted (L := Examples.example_library)
              empty_history MoreExamples.script_record Examples.payment r
              "comment" "<SCRIPT>alert(1)</SCRIPT>" Hr)
    as (_ & _ & Hab & Hkinds).
  - right. by left.
  - right. vm_compute. reflexivity.
  - exists r. split; [reflexivity |].
    split; [vm_compute in Hr; by injection Hr as <- |].
    split; [exact Hab | apply Hkinds].
Defined.

Lemma rapid_succession_alerts_a_valid_record_witness :
  exists r,
    _detect_anomalies (L := Examples.example_library) MoreExamples.five_recent
      MoreExamples.aware_record Examples.payment = Ok r /\
    r_anomaly_score r == 0.5 /\
    kinds (_generate_actions (L := Examples.example_library) 0
             (combine (_validate_schema (L := Examples.example_library)
                         MoreExamples.aware_record Examples.payment) r)
             MoreExamples.aware_record Examples.payment)
    = [(RISK_ALERT, CRITICAL)].
Proof.
  destruct (_detect_anomalies (L := Examples.example_library) MoreExamples.five_recent
              MoreExamples.aware_record Examples.payment) as [r|e] eqn:Hr;
    [| vm_compute in Hr; discriminate Hr].
  assert (Hval : r = {| r_is_normal := true;
                        r_anomalies := ["rapid_succession_events"];
                        r_anomaly_score := 5 # 10 |})
    by (vm_compute in Hr; by injection Hr as <-).
  destruct (rapid_succession_alerts_a_valid_record (L := Examples.example_library) 0
              (_validate_schema (L := Examples.example_library)
                 MoreExamples.aware_record Examples.payment)
              MoreExamples.five_recent MoreExamples.aware_record Examples.payment r Hr)
    as [_ Hkinds].
  - by rewrite Hval.
  - reflexivity.
  - rewrite Hval. by left.
  - exists r. split; [reflexivity |]. split; [by rewrite Hval | exact Hkinds].
Defined.

(** ** [process_json] as a whole *)

Section ProcessJson.
Context {L : Library}.


(** When scoring returns, updating the history raises only where
    [float] does. *)
Lemma update_historical_data_after_scoring h data schema_type r :
  _detect_anomalies h data schema_type = Ok r ->
  fst (_update_historical_data h data schema_type)
  = match amount_error data with
    | Some e => Raise e
    | None => Ok tt
    end.
Proof.
  intros Hr. rewrite update_historical_data_outcome.
  destruct (amount_error data); [reflexivity |].
  apply detect_anomalies_Ok in Hr as (a & p & _ & Hp & _).
  unfold _check_pattern_anomaly in Hp.
  destruct (dict_get "timestamp" data) as [v|]; [| reflexivity].
  destruct (parse_timestamp v); try reflexivity. discriminate.
Qed.

Lemma process_json_unfold now data schema_type st r :
  _detect_anomalies (historical_data st) data schema_type = Ok r ->
  let result := combine (_validate_schema data schema_type) r in
  let h' := snd (_update_historical_data (historical_data st) data schema_type) in
  process_json now data schema_type st =
  match amount_error data with
  | Some e => (Raise e, {| historical_data := h'; JsonAgent.memory := JsonAgent.memory st |})
  | None =>
      match MemoryStore.get_memory_store (JsonAgent.memory st) with
      | (Raise e, m0) => (Raise e, {| historical_data := h'; JsonAgent.memory := m0 |})
      | (Ok _, m0) =>
          let m1 := snd (MemoryStore.increment_counter "json_processed" m0) in
          let m2 := snd (MemoryStore.increment_counter ("schema_" +:+ schema_type) m1) in
          let m3 := if negb (is_valid result)
                    then snd (MemoryStore.increment_counter "json_validation_failures" m2)
                    else m2 in
          let m4 := if fgt (anomaly_score result) anomaly_threshold
                    then snd (MemoryStore.increment_counter "anomalies_detected" m3)
                    else m3 in
          (Ok (result, _generate_actions now result data schema_type),
           {| historical_data := h'; JsonAgent.memory := m4 |})
      end
  end.
Proof.
  intros Hr. cbv zeta. unfold process_json. rewrite Hr.
  pose proof (update_historical_data_after_scoring _ _ _ _ Hr) as Hup.
  destruct (_update_historical_data (historical_data st) data schema_type)
    as [updated h']. cbn [fst snd] in *. subst updated.
  destruct (amount_error data); [reflexivity |].
  by destruct (MemoryStore.get_memory_store (JsonAgent.memory st)) as [[[]|e] m0].
Qed.


(** X19.  With the store reachable and the server answering, a call of
    [process_json] whose scoring returns and whose numeric amounts all
    convert adds one to [json_processed] and to [schema_<type>], one to
    [json_validation_failures] when the result is not valid, one to
    [anomalies_detected] when the score is above 0.8, and leaves every other
    counter alone ([get_counter] afterwards reads what the server held before
    plus these).  A record scoring exactly 0.8 is thus flagged and counted as
    a validation failure, but not as an anomaly.  When an amount does not
    convert, the call raises its [OverflowError] after scoring and no counter
    moves. *)
Theorem process_json_counts now data schema_type st r :
  _detect_anomalies (historical_data st) data schema_type = Ok r ->
  store_reachable (JsonAgent.memory st) ->
  MemoryStore.redis_up (JsonAgent.memory st) = true ->
  (amount_error data = None ->
   exists result actions st',
     process_json now data schema_type st = (Ok (result, actions), st') /\
     result = combine (_validate_schema data schema_type) r /\
     forall cname,
       get_counter cname (JsonAgent.memory st')
       = (stored cname (JsonAgent.memory st)
          + process_json_count schema_type result cname)%Z) /\
  (forall e, amount_error data = Some e ->
     exists st',
       process_json now data schema_type st = (Raise e, st') /\
       exn_cls e = OverflowError /\
       JsonAgent.memory st' = JsonAgent.memory st).
Proof.
  intros Hr Hm Hup.
  rewrite (process_json_unfold now data schema_type st r Hr). cbv zeta.
  split.
  - intros ->.
    destruct (get_memory_store_reachable_keeps _ Hm) as (m0 & -> & Hc & Hu & Hk).
    rewrite Hup in Hu. pose proof (is_connected_client m0 Hc) as Hcl.
    assert (Hcl0 : MemoryStore.client m0 <> MemoryStore.NoClient) by (by rewrite Hcl).
    do 3 eexists. split; [reflexivity |]. split; [reflexivity |].
    intros cname. cbn [JsonAgent.memory]. unfold process_json_count.
    destruct (increment_counter_up "json_processed" m0 Hcl0 Hu)
      as (_ & Hc1 & Hu1 & Hg1).
    set (m1 := snd (MemoryStore.increment_counter "json_processed" m0)) in *.
    assert (Hcl1 : MemoryStore.client m1 <> MemoryStore.NoClient) by (by rewrite Hc1).
    destruct (increment_counter_up ("schema_" +:+ schema_type) m1 Hcl1 Hu1)
      as (_ & Hc2 & Hu2 & Hg2).
    set (m2 := snd (MemoryStore.increment_counter ("schema_" +:+ schema_type) m1)) in *.
    assert (Hcl2 : MemoryStore.client m2 <> MemoryStore.NoClient) by (by rewrite Hc2).
    assert (H0 : stored cname m0 = stored cname (JsonAgent.memory st)).
    { unfold stored. by rewrite Hk. }
    destruct (is_valid (combine (_validate_schema data schema_type) r)); cbn [negb].
    + destruct (fgt _ anomaly_threshold).
      * destruct (increment_counter_up "anomalies_detected" m2 Hcl2 Hu2)
          as (_ & Hc4 & Hu4 & Hg4).
        rewrite get_counter_client by (by rewrite ?Hc4).
        rewrite Hg4, Hg2, Hg1, H0. repeat destruct (decide _); lia.
      * rewrite get_counter_client by done.
        rewrite Hg2, Hg1, H0. repeat destruct (decide _); lia.
    + destruct (increment_counter_up "json_validation_failures" m2 Hcl2 Hu2)
        as (_ & Hc3 & Hu3 & Hg3).
      set (m3 := snd (MemoryStore.increment_counter "json_validation_failures" m2)) in *.
      assert (Hcl3 : MemoryStore.client m3 <> MemoryStore.NoClient) by (by rewrite Hc3).
      destruct (fgt _ anomaly_threshold).
      * destruct (increment_counter_up "anomalies_detected" m3 Hcl3 Hu3)
          as (_ & Hc4 & Hu4 & Hg4).
        rewrite get_counter_client by (by rewrite ?Hc4).
        rewrite Hg4, Hg3, Hg2, Hg1, H0. repeat destruct (decide _); lia.
      * rewrite get_counter_client by done.
        rewrite Hg3, Hg2, Hg1, H0. repeat destruct (decide _); lia.
  - intros e He. rewrite He. eexists. split; [reflexivity |].
    split; [| reflexivity].
    apply first_raised_overflow in He as [-> _]. reflexivity.
Qed.

(** X20.  When the memory store cannot be reached, a call of
    [process_json] whose scoring returns raises, but only after the history
    was updated: the amounts of the record are in the window although the
    caller got no result, so a caller that tries the same record again appends
    them again.  The exception is the connection error when every numeric
    amount converts, and the [OverflowError] of the first that does not
    otherwise (the amounts before it being the ones appended). *)
Theorem process_json_store_unreachable now data schema_type st r :
  _detect_anomalies (historical_data st) data schema_type = Ok r ->
  MemoryStore.is_connected (JsonAgent.memory st) = false ->
  MemoryStore.redis_up (JsonAgent.memory st) = false ->
  exists e st',
    process_json now data schema_type st = (Raise e, st') /\
    (amount_error data = None -> exn_cls e = ConnectionError) /\
    (forall e', amount_error data = Some e' -> e = e' /\ exn_cls e = OverflowError) /\
    get_amounts (historical_data st') (amounts_key schema_type)
    = fold_left (append_trim 1000) (amount_samples data)
        (get_amounts (historical_data st) (amounts_key schema_type)) /\
    get_timestamps (historical_data st') (timestamps_key schema_type)
    = fold_left (append_trim 100) (timestamp_samples data)
        (get_timestamps (historical_data st) (timestamps_key schema_type)).
Proof.
  intros Hr Hc Hu.
  rewrite (process_json_unfold now data schema_type st r Hr). cbv zeta.
  unfold MemoryStore.get_memory_store, MemoryStore.connect. rewrite Hc, Hu.
  destruct (amount_error data) as [e0|] eqn:He.
  - do 2 eexists. split; [reflexivity |]. split; [discriminate |].
    split.
    + intros e' [= <-]. split; [reflexivity |].
      apply first_raised_overflow in He as [-> _]. reflexivity.
    + cbn [historical_data].
      rewrite update_historical_data_amounts, update_historical_data_timestamps.
      by rewrite !decide_True.
  - do 2 eexists. split; [reflexivity |]. split; [reflexivity |].
    split; [discriminate |].
    cbn [historical_data].
    rewrite update_historical_data_amounts, update_historical_data_timestamps.
    by rewrite !decide_True.
Qed.

(** X21.  For a record whose timestamp is not a string,
    [_update_historical_data] raises: the [AttributeError] of the missing
    method [replace], after it has appended every numeric amount of the
    record, or already the [OverflowError] of the first amount [float]
    refuses, after the amounts before that one; the timestamps are left as
    they were.  [process_json] never gets that far: for such a record it
    raises in scoring, with one of the two exceptions, and leaves history and
    counters untouched. *)
Theorem update_historical_data_non_string_timestamp h data schema_type v :
  dict_get "timestamp" data = Some v ->
  isinstance_str v = false ->
  fst (_update_historical_data h data schema_type)
  = Raise (match amount_error data with
           | Some e => e
           | None => no_attribute_replace v
           end) /\
  get_amounts (snd (_update_historical_data h data schema_type)) (amounts_key schema_type)
  = fold_left (append_trim 1000) (amount_samples data)
      (get_amounts h (amounts_key schema_type)) /\
  hist_timestamps (snd (_update_historical_data h data schema_type))
  = hist_timestamps h /\
  forall now st,
    exists e,
      process_json now data schema_type st = (Raise e, st) /\
      (exn_cls e = AttributeError \/ exn_cls e = OverflowError) /\
      (amount_error data = None -> e = no_attribute_replace v).
Proof.
  intros Hts Hv.
  split; [| split; [| split]].
  - rewrite update_historical_data_outcome, Hts.
    destruct (amount_error data); [reflexivity |]. by destruct v.
  - rewrite update_historical_data_amounts. by rewrite decide_True.
  - unfold _update_historical_data. rewrite Hts.
    destruct (update_amount_steps data schema_type amount_fields h "") as (_ & _ & H).
    destruct (fold_left _ amount_fields _) as [[[]|e] h1]; cbn [snd] in *; [| exact H].
    by destruct v.
  - intros now st. unfold process_json.
    destruct (check_pattern_anomaly_not_a_string (historical_data st) data schema_type
                v Hts Hv) as [_ ->].
    destruct (_check_amount_anomaly (historical_data st) data schema_type)
      as [a|e] eqn:Ha.
    + exists (no_attribute_replace v). split; [reflexivity |].
      split; [by left | done].
    + exists e. split; [reflexivity |].
      apply check_amount_fields_raises in Ha.
      fold (amount_conversions data) in Ha. fold (amount_error data) in Ha.
      split; [| congruence].
      right. apply first_raised_overflow in Ha as [-> _]. reflexivity.
Qed.

(** X25.  When scoring returns a report, whatever the report says,
    [process_json] leaves in the amount window of the key the old window
    followed by the floats of the numeric amount fields of the record
    ([amount], [total], [value], [price], in this order) up to the first that
    [float] refuses, trimmed to the last 1000.  When every one converts, each
    numeric amount field is in the window afterwards; when one does not,
    [process_json] raises its [OverflowError]. *)
Theorem process_json_appends_converted_amounts now data schema_type st r :
  _detect_anomalies (historical_data st) data schema_type = Ok r ->
  let key := amounts_key schema_type in
  let old := get_amounts (historical_data st) key in
  let new :=
    get_amounts (historical_data (snd (process_json now data schema_type st))) key in
  new = fold_left (append_trim 1000) (amount_samples data) old /\
  ((length old <= 1000)%nat -> new = last_n 1000 (old ++ amount_samples data)) /\
  (amount_error data = None ->
   forall field v,
     In field amount_fields -> dict_get field data = Some v ->
     isinstance_number v = true ->
     exists x, float_of v = Ok x /\ In x new) /\
  (forall e, amount_error data = Some e ->
     fst (process_json now data schema_type st) = Raise e /\
     exn_cls e = OverflowError).
Proof.
  intros Hr key old new.
  assert (Hnew : new = fold_left (append_trim 1000) (amount_samples data) old).
  { unfold new. rewrite (process_json_history now data schema_type st r Hr).
    rewrite update_historical_data_amounts. by rewrite decide_True. }
  split; [exact Hnew |]. split; [| split].
  - intros Hold. rewrite Hnew, <- (last_n_all 1000 old Hold) at 1.
    apply fold_append_trim.
  - intros Hnone field v Hfield Hget Hnum.
    assert (Hin : In (float_of v) (amount_conversions data)).
    { apply list_elem_of_In, list_elem_of_omap. exists field.
      split; [by apply list_elem_of_In |].
      unfold amount_sample. by rewrite Hget, Hnum. }
    destruct (float_of v) as [x|e] eqn:Hx.
    + exists x. split; [reflexivity |].
      destruct (fold_append_trim_suffix 1000 (amount_samples data) old
                  (amount_samples_length data)) as [older Hsuffix].
      rewrite Hnew, Hsuffix. apply in_or_app. right.
      by apply converted_all.
    + exfalso. clear -Hnone Hin. unfold amount_error in Hnone.
      induction (amount_conversions data) as [|[y|e'] l IH];
        cbn [first_raised] in Hnone; [destruct Hin | | discriminate].
      destruct Hin as [Hin | Hin]; [discriminate | auto].
  - intros e He.
    rewrite (process_json_unfold now data schema_type st r Hr). cbv zeta.
    rewrite He. split; [reflexivity |].
    apply first_raised_overflow in He as [-> _]. reflexivity.
Qed.

Lemma append_inj_l (s1 s2 suffix : string) :
  s1 +:+ suffix = s2 +:+ suffix -> s1 = s2.
Proof.
  revert s2. induction s1 as [|c s1 IH]; intros [|c' s2] E.
  - reflexivity.
  - apply (f_equal String.length) in E. rewrite !append_length in E. simpl in E. lia.
  - apply (f_equal String.length) in E. rewrite !append_length in E. simpl in E. lia.
  - cbn [String.append] in E. injection E as -> E. f_equal. by apply IH.
Qed.

(** X22.  Schema types do not share history: a call of
    [_update_historical_data] for one schema type leaves the amount window
    and the timestamp window of every other schema type as they were. *)
Theorem update_historical_data_other_schema_type h data schema_type other :
  other <> schema_type ->
  get_amounts (snd (_update_historical_data h data schema_type)) (amounts_key other)
  = get_amounts h (amounts_key other) /\
  get_timestamps (snd (_update_historical_data h data schema_type)) (timestamps_key other)
  = get_timestamps h (timestamps_key other).
Proof.
  intros Hne.
  rewrite update_historical_data_amounts, update_historical_data_timestamps.
  split; (rewrite decide_False; [reflexivity |]);
    intros E; apply append_inj_l in E; congruence.
Qed.

End ProcessJson.


Lemma process_json_counts_witness :
  exists result actions st',
    process_json (L := Examples.example_library) 0 Examples.four_mismatches
      Examples.payment
      {| historical_data := empty_history; JsonAgent.memory := Examples.connected |}
    = (Ok (result, actions), st') /\
    anomaly_score result == 0.8 /\
    kinds actions = [(FLAG_ANOMALY, MEDIUM)] /\
    get_counter "json_processed" (JsonAgent.memory st') = 1%Z /\
    get_counter "schema_payment" (JsonAgent.memory st') = 1%Z /\
    get_counter "json_validation_failures" (JsonAgent.memory st') = 1%Z /\
    get_counter "anomalies_detected" (JsonAgent.memory st') = 0%Z /\
    exists st'',
      process_json (L := Examples.example_library) 0 MoreExamples.huge_total
        Examples.payment
        {| historical_data := Examples.baseline; JsonAgent.memory := Examples.connected |}
      = (Raise (Exn OverflowError "int too large to convert to float"), st'') /\
      JsonAgent.memory st'' = Examples.connected.
Proof.
  destruct (_detect_anomalies (L := Examples.example_library) empty_history
              Examples.four_mismatches Examples.payment) as [r|e] eqn:Hr;
    [| vm_compute in Hr; discriminate Hr].
  destruct (process_json_counts (L := Examples.example_library) 0
              Examples.four_mismatches Examples.payment
              {| historical_data := empty_history;
                 JsonAgent.memory := Examples.connected |} r Hr
              (or_introl eq_refl) eq_refl) as [Hok _].
  destruct (Hok eq_refl) as (result & actions & st' & Hp & Hres & Hcount).
  destruct (_detect_anomalies (L := Examples.example_library) Examples.baseline
              MoreExamples.huge_total Examples.payment) as [r'|e] eqn:Hr';
    [| vm_compute in Hr'; discriminate Hr'].
  destruct (process_json_counts (L := Examples.example_library) 0
              MoreExamples.huge_total Examples.payment
              {| historical_data := Examples.baseline;
                 JsonAgent.memory := Examples.connected |} r' Hr'
              (or_introl eq_refl) eq_refl) as [_ Hraise].
  destruct (Hraise (Exn OverflowError "int too large to convert to float") eq_refl)
    as (st'' & Hp' & _ & Hmem).
  exists result, actions, st'. split; [exact Hp |].
  rewrite !Hcount.
  vm_compute in Hr. injection Hr as <-.
  vm_compute in Hp. injection Hp as <- <- <-.
  repeat split; try reflexivity.
  exists st''. split; [exact Hp' | exact Hmem].
Defined.

Lemma process_json_store_unreachable_witness :
  exists e st',
    process_json (L := Examples.example_library) 0 Examples.big_amount Examples.payment
      {| historical_data := Examples.baseline;
         JsonAgent.memory := MoreExamples.unreachable |}
    = (Raise e, st') /\
    exn_cls e = ConnectionError /\
    get_amounts (historical_data st') (amounts_key Examples.payment)
    = (get_amounts Examples.baseline (amounts_key Examples.payment) ++ [999999.99])%list.
Proof.
  destruct (_detect_anomalies (L := Examples.example_library) Examples.baseline
              Examples.big_amount Examples.payment) as [r|e0] eqn:Hr;
    [| vm_compute in Hr; discriminate Hr].
  destruct (process_json_store_unreachable (L := Examples.example_library) 0
              Examples.big_amount Examples.payment
              {| historical_data := Examples.baseline;
                 JsonAgent.memory := MoreExamples.unreachable |} r Hr eq_refl eq_refl)
    as (e & st' & Hp & Hcls & _ & Ham & _).
  exists e, st'. split; [exact Hp |]. split; [exact (Hcls eq_refl) |].
  rewrite Ham. vm_compute. reflexivity.
Defined.

Lemma update_historical_data_non_string_timestamp_witness :
  fst (_update_historical_data (L := Examples.example_library) empty_history
         MoreExamples.amount_and_numeric_timestamp Examples.payment)
  = Raise (Exn AttributeError "'int' object has no attribute 'replace'") /\
  get_amounts (snd (_update_historical_data (L := Examples.example_library)
                      empty_history MoreExamples.amount_and_numeric_timestamp
                      Examples.payment))
    (amounts_key Examples.payment) = [42].
Proof.
  destruct (update_historical_data_non_string_timestamp
              (L := Examples.example_library) empty_history
              MoreExamples.amount_and_numeric_timestamp Examples.payment
              (VInt 1700000000) eq_refl eq_refl) as (Hraise & Ham & _).
  split; [exact Hraise |]. rewrite Ham. reflexivity.
Defined.

Lemma process_json_appends_converted_amounts_witness :
  exists r,
    _detect_anomalies (L := Examples.example_library) Examples.baseline
      Examples.big_amount Examples.payment = Ok r /\
    r_is_normal r = false /\
    get_amounts
      (historical_data
         (snd (process_json (L := Examples.example_library) 0 Examples.big_amount
                 Examples.payment
                 {| historical_data := Examples.baseline;
                    JsonAgent.memory := Examples.connected |})))
      (amounts_key Examples.payment)
    = (get_amounts Examples.baseline (amounts_key Examples.payment)
       ++ [999999.99])%list.
Proof.
  destruct (_detect_anomalies (L := Examples.example_library) Examples.baseline
              Examples.big_amount Examples.payment) as [r|e0] eqn:Hr;
    [| vm_compute in Hr; discriminate Hr].
  exists r. split; [reflexivity |].
  split; [vm_compute in Hr; by injection Hr as <- |].
  destruct (process_json_appends_converted_amounts (L := Examples.example_library) 0
              Examples.big_amount Examples.payment
              {| historical_data := Examples.baseline;
                 JsonAgent.memory := Examples.connected |} r Hr)
    as (_ & Hlast & _).
  rewrite Hlast by (vm_compute; lia). vm_compute. reflexivity.
Defined.

Lemma update_historical_data_other_schema_type_witness :
  get_amounts (snd (_update_historical_data (L := Examples.example_library)
                      Examples.baseline Examples.big_amount "invoice"))
    (amounts_key Examples.payment)
  = get_amounts Examples.baseline (amounts_key Examples.payment).
Proof.
  apply (update_historical_data_other_schema_type (L := Examples.example_library)
           Examples.baseline Examples.big_amount "invoice" Examples.payment).
  discriminate.
Defined.

(** ** [store_entry] and the handler of [LOG_AND_CLOSE] *)

Section LogAndClose.
Import ActionRouter Handlers.

Lemma store_entry_dict_raises d ms :
  MemoryStore.store_entry (MemoryStore.ADict d) ms
  = (Raise (Exn AttributeError "'dict' object has no attribute 'key'"), ms).
Proof. reflexivity. Qed.


(** A call of the handler raises, and all it does to the store is what
    its [get_memory_store] does: connect it when it was not. *)
Lemma handle_log_and_close_raises log_id timestamp req ms :
  exists e,
    _handle_log_and_close log_id timestamp req ms
    = (Raise e, snd (MemoryStore.get_memory_store ms)) /\
    (store_reachable ms ->
     e = Exn AttributeError "'dict' object has no attribute 'key'").
Proof.
  unfold _handle_log_and_close. cbv zeta.
  destruct (MemoryStore.get_memory_store ms) as [[[]|e] m] eqn:Hg.
  - rewrite store_entry_dict_raises. eexists. split; [reflexivity | done].
  - exists e. split; [reflexivity |]. intros Hm.
    destruct (get_memory_store_reachable_keeps ms Hm) as (m' & Hg' & _). congruence.
Qed.

Lemma log_and_close_attempts_raise ms req n : forall supply,
  Forall raises (attempts (log_and_close_handler ms) req supply n).
Proof.
  induction n as [|n IH]; intros supply; [constructor |].
  rewrite attempts_S. constructor; [| apply IH].
  unfold raises, log_and_close_handler. destruct (hd ("", "") supply) as [log_id timestamp].
  cbn [outcome].
  destruct (handle_log_and_close_raises log_id timestamp req ms) as (e & He & _).
  rewrite He. eauto.
Qed.

(** X23.  [_handle_log_and_close] never returns: it hands [store_entry] a
    dict, on which [store_entry] raises [AttributeError]; all a call does to
    the store is to connect it.  Routed with three attempts on a store that
    is reachable, a [LOG_AND_CLOSE] request therefore always comes back
    failed, with that message, after three calls and waits of [retry_delay]
    and [2 * retry_delay]; and the failure is counted. *)
Theorem log_and_close_always_fails r req w :
  action_type req = LOG_AND_CLOSE ->
  action_handlers r LOG_AND_CLOSE = Some (log_and_close_handler (memory w)) ->
  retry_attempts r = 3%nat ->
  store_reachable (memory w) ->
  (forall log_id timestamp,
     _handle_log_and_close log_id timestamp req (memory w)
     = (Raise (Exn AttributeError "'dict' object has no attribute 'key'"),
        snd (MemoryStore.get_memory_store (memory w)))) /\
  exists res w',
    route_action r req w = (Ok res, w') /\
    status res = "failed" /\
    error_message res = Some "'dict' object has no attribute 'key'" /\
    calls w' = (calls w + 3)%nat /\
    sleeps w' = (retry_delay r * 2) :: (retry_delay r * 1) :: sleeps w /\
    MemoryStore.entries (memory w') = MemoryStore.entries (memory w) /\
    (MemoryStore.redis_up (memory w) = true ->
     stored "actions_failed" (memory w') = (stored "actions_failed" (memory w) + 1)%Z).
Proof.
  intros Ht Hhd Hn Hm.
  assert (Hraise : forall log_id timestamp,
             _handle_log_and_close log_id timestamp req (memory w)
             = (Raise (Exn AttributeError "'dict' object has no attribute 'key'"),
                snd (MemoryStore.get_memory_store (memory w)))).
  { intros log_id timestamp.
    destruct (handle_log_and_close_raises log_id timestamp req (memory w))
      as (e & He & Hcls).
    by rewrite He, (Hcls Hm). }
  split; [exact Hraise |].
  rewrite <- Ht in Hhd.
  destruct (route_action_exhausts_retries_aux r req w
              (log_and_close_handler (memory w)) 2 Hn Hhd
              (log_and_close_attempts_raise (memory w) req 3 (hstate w)) Hm)
    as (res & w' & e & t & Hroute & He & Hst & Herr & _ & Hcalls & Hsleeps & _).
  destruct (route_action_returns_and_counts_aux r req w Hm)
    as (res' & w'' & Hroute' & _ & _ & _ & Hcount & _).
  rewrite Hroute in Hroute'. injection Hroute' as <- <-.
  exists res, w'. split; [exact Hroute |]. split; [exact Hst |].
  split; [| split; [exact Hcalls | split; [exact Hsleeps | split]]].
  - rewrite Herr. f_equal.
    unfold log_and_close_handler in He.
    destruct (hd ("", "") _) as [log_id timestamp]. cbn [outcome] in He.
    rewrite Hraise in He. by injection He as <-.
  - pose proof (route_action_entries r req w) as Hent. by rewrite Hroute in Hent.
  - intros Hup. rewrite (Hcount Hup). unfold counted_under, succeeded. rewrite Hst.
    cbn [String.eqb Ascii.eqb Bool.eqb]. by rewrite decide_True.
Qed.

End LogAndClose.


Lemma log_and_close_always_fails_witness :
  exists res w',
    ActionRouter.route_action (MoreExamples.default_router Examples.connected)
      (Examples.request LOG_AND_CLOSE) MoreExamples.log_world = (Ok res, w') /\
    status res = "failed" /\
    error_message res = Some "'dict' object has no attribute 'key'" /\
    ActionRouter.sleeps w' = [2; 1].
Proof.
  destruct (log_and_close_always_fails
              (MoreExamples.default_router Examples.connected)
              (Examples.request LOG_AND_CLOSE) MoreExamples.log_world
              eq_refl eq_refl eq_refl (or_introl eq_refl))
    as (_ & res & w' & Hroute & Hst & Herr & _ & Hsleeps & _).
  exists res, w'. split; [exact Hroute |]. split; [exact Hst |].
  split; [exact Herr |]. rewrite Hsleeps. reflexivity.
Defined.

(** ** Reading the message of a schema violation *)

Section ValidateSchema.
Import JsonAgent.
Context {L : Library}.

Lemma starts_with_app p : forall s post,
  starts_with p s = true -> starts_with p (s +:+ post) = true.
Proof.
  induction p as [|a p IH]; intros [|b s] post H; try done.
  simpl in *.
  apply andb_true_iff in H as [Hab Hp]. by rewrite Hab, (IH _ _ Hp).
Qed.

Lemma contains_app_l p : forall s post,
  contains p s = true -> contains p (s +:+ post) = true.
Proof.
  induction s as [|b s IH]; intros post H.
  - destruct p; [by destruct post | done].
  - change (String b s +:+ post) with (String b (s +:+ post)).
    cbn [contains] in *.
    apply orb_true_iff in H as [H|H]; apply orb_true_iff.
    + left. exact (starts_with_app _ (String b s) post H).
    + right. by apply IH.
Qed.

Lemma contains_app_r p s : forall pre,
  contains p s = true -> contains p (pre +:+ s) = true.
Proof.
  induction pre as [|b pre IH]; intros H; [exact H |].
  change (String b pre +:+ s) with (String b (pre +:+ s)).
  cbn [contains]. apply orb_true_iff. right. by apply IH.
Qed.

Lemma until_quote_app field rest :
  contains "'" field = false ->
  until_quote (field +:+ String "'" rest) = field.
Proof.
  induction field as [|c field IH]; intros H.
  - reflexivity.
  - cbn [contains starts_with] in H.
    apply orb_false_iff in H as [Hc Hf]. rewrite andb_true_r in Hc.
    change (String c field +:+ String "'" rest)
      with (String c (field +:+ String "'" rest)).
    cbn [until_quote]. rewrite Ascii.eqb_sym, Hc. by rewrite IH.
Qed.

(** X24.  For a registered schema, when [jsonschema] reports a missing
    required property in its usual wording, ['<field>' is a required
    property], the result is invalid with score 0.7, carries the message as
    its only schema error, and [missing_fields] is exactly the field named
    between the first two quotes.  The message is also filed under
    [type_errors] whenever the field's name contains the letters [type]
    (as [event_type], required of a webhook, does): the test is a substring
    test on the whole message. *)
Theorem validate_schema_missing_field data schema_type msg field rest :
  In schema_type schema_registry ->
  jsonschema_validate data schema_type = SchemaValidationError msg ->
  msg = "'" +:+ field +:+ "' is a required property" +:+ rest ->
  contains "'" field = false ->
  let result := _validate_schema data schema_type in
  is_valid result = false /\
  schema_errors result = [msg] /\
  anomalies result = ["schema_validation_failure"] /\
  anomaly_score result == 0.7 /\
  missing_fields result = [field] /\
  (contains "type" field = true -> type_errors result = [msg]).
Proof.
  intros Hin Hv Hmsg Hq result. subst result. unfold _validate_schema. cbv zeta.
  assert (Hreg : existsb (String.eqb schema_type) schema_registry = true).
  { apply existsb_exists. exists schema_type. split; [exact Hin | apply String.eqb_refl]. }
  rewrite Hreg, Hv. cbn [negb is_valid schema_errors anomalies anomaly_score
                         missing_fields type_errors].
  assert (Hreq : contains "required" msg = true).
  { subst msg. apply (contains_app_r _ _ "'"), contains_app_r.
    change ("' is a required property" +:+ rest)
      with ("' is a " +:+ ("required property" +:+ rest)).
    apply contains_app_r. reflexivity. }
  assert (Hquote : contains "'" msg = true) by (by subst msg).
  assert (Hfield : until_quote (after_quote msg) = field).
  { subst msg. cbn [String.append after_quote]. cbn.
    exact (until_quote_app field _ Hq). }
  rewrite Hreq, Hquote, Hfield.
  repeat split; try reflexivity.
  intros Ht.
  assert (Htype : contains "type" msg = true).
  { subst msg. apply (contains_app_r _ _ "'"). by apply contains_app_l. }
  by rewrite Htype.
Qed.

End ValidateSchema.

Lemma validate_schema_missing_field_witness :
  let result := JsonAgent._validate_schema (L := MoreExamples.rejecting_library)
                  MoreExamples.plain_record "webhook" in
  missing_fields result = ["event_type"] /\
  type_errors result = ["'event_type' is a required property"].
Proof.
  destruct (validate_schema_missing_field (L := MoreExamples.rejecting_library)
              MoreExamples.plain_record "webhook"
              "'event_type' is a required property" "event_type" ""
              ltac:(vm_compute; tauto) eq_refl eq_refl eq_refl)
    as (_ & _ & _ & _ & Hmissing & Htype).
  split; [exact Hmissing | exact (Htype eq_refl)].
Defined.
